(** * Newsbot: article scraper, storage, feed processor and workflow

    A shallow embedding of [src/article_scraper.py] (class [ArticleScraper]),
    [src/storage.py] (class [ArticleStorage]), the two searches of
    [src/rss_processor.py], [src/output_queue.py] and
    [NewsWriteBot.run_workflow] of [main.py], with the properties of the
    content extractor, the image resolver and the storage update that the
    design document states, and further properties of the code.

    Conventions of the embedding.
    - A Python [str] is a Rocq [string]; a character is read as the code
      point of the same number, so the model covers the strings whose code
      points are below 256.  On that range [isspace], [lower], the regular
      expression class [\d] and [int] are exactly CPython's.
    - A parsed page (a BeautifulSoup tree) is a forest of [node]s: tags with
      a name, an attribute dictionary and children, and strings with the
      class BeautifulSoup gives them.
    - A Python exception is a value of [exc]; a function that can raise
      returns [exc + A]. *)

From Stdlib Require Import List String Ascii ZArith Lia Bool Arith.
From Stdlib Require Sorted.
Import ListNotations.
Open Scope string_scope.
Open Scope list_scope.

(** ** Python strings *)

Module PyStr.

Definition nl : ascii := "010"%char.
Definition NL : string := String nl "".

(** [bool(s)] for a string: the empty string is falsy. *)
Definition truthy (s : string) : bool :=
  match s with
  | EmptyString => false
  | String _ _ => true
  end.

(** [c.isspace()], which is also the set that [str.strip()] removes. *)
Definition isspace (c : ascii) : bool :=
  let n := nat_of_ascii c in
  (((9 <=? n) && (n <=? 13)) || ((28 <=? n) && (n <=? 32))
   || (n =? 133) || (n =? 160))%nat.

Fixpoint lstrip (s : string) : string :=
  match s with
  | EmptyString => EmptyString
  | String c s' => if isspace c then lstrip s' else s
  end.

Fixpoint rstrip (s : string) : string :=
  match s with
  | EmptyString => EmptyString
  | String c s' =>
      match rstrip s' with
      | EmptyString => if isspace c then EmptyString else String c EmptyString
      | r => String c r
      end
  end.

(** [s.strip()] *)
Definition strip (s : string) : string := rstrip (lstrip s).

(** [s.split(sep)] for a separator of one character: never an empty list. *)
Fixpoint split (sep : ascii) (s : string) : list string :=
  match s with
  | EmptyString => [EmptyString]
  | String c s' =>
      if Ascii.eqb c sep then EmptyString :: split sep s'
      else match split sep s' with
           | [] => [String c EmptyString]
           | h :: t => String c h :: t
           end
  end.

(** [sep.join(l)] *)
Fixpoint join (sep : string) (l : list string) : string :=
  match l with
  | [] => EmptyString
  | x :: rest =>
      match rest with
      | [] => x
      | _ :: _ => x ++ sep ++ join sep rest
      end
  end.

(** [c.lower()] on one character. *)
Definition lower_char (c : ascii) : ascii :=
  let n := nat_of_ascii c in
  if (((65 <=? n) && (n <=? 90))
      || ((192 <=? n) && (n <=? 222) && negb (n =? 215)))%nat
  then ascii_of_nat (n + 32) else c.

(** [s.lower()] *)
Fixpoint lower (s : string) : string :=
  match s with
  | EmptyString => EmptyString
  | String c s' => String (lower_char c) (lower s')
  end.

(** [s.startswith(p)] *)
Fixpoint startswith (p s : string) : bool :=
  match p, s with
  | EmptyString, _ => true
  | String _ _, EmptyString => false
  | String a p', String b s' => Ascii.eqb a b && startswith p' s'
  end.

(** [p in s]: substring test. *)
Fixpoint contains (p s : string) : bool :=
  startswith p s ||
  match s with
  | EmptyString => false
  | String _ s' => contains p s'
  end.

(** [c in s] for one character. *)
Fixpoint has_char (c : ascii) (s : string) : bool :=
  match s with
  | EmptyString => false
  | String a s' => Ascii.eqb a c || has_char c s'
  end.

Definition isdigit (c : ascii) : bool :=
  let n := nat_of_ascii c in ((48 <=? n) && (n <=? 57))%nat.

End PyStr.

(** ** The blank-line clean-up of [_extract_content] (lines 102-103)

    [lines = [line.strip() for line in content.split('\n') if line.strip()]]
    [content = '\n\n'.join(lines)] *)

Definition collapse_blank_lines (content : string) : string :=
  let lines :=
    map PyStr.strip
        (filter (fun line => PyStr.truthy (PyStr.strip line))
                (PyStr.split PyStr.nl content)) in
  PyStr.join (PyStr.NL ++ PyStr.NL) lines.

(** ** Python values shared by the two modules *)

(** The exceptions the modelled code can meet: [ValueError] (from [int] and
    [urljoin]), [KeyError] (from a dictionary) and whatever the HTTP request
    or the parser raises. *)
Inductive exc : Type :=
| ValueError
| KeyError
| RequestException.

(** Truthiness of an optional string: [None] and [''] are falsy. *)
Definition truthy_opt (o : option string) : bool :=
  match o with
  | Some s => PyStr.truthy s
  | None => false
  end.

(** [a or b] on optional strings. *)
Definition py_or (a b : option string) : option string :=
  if truthy_opt a then a else b.

(** *** [int(s)]

    Surrounding whitespace, an optional sign, then decimal digits in which
    single underscores may separate digits.  More than 4300 digits is a
    [ValueError] as well (CPython's default integer string limit). *)

Module PyInt.

(** The whitespace [int] skips: [isspace] without the separators
    U+001C..U+001F. *)
Definition int_space (c : ascii) : bool :=
  let n := nat_of_ascii c in
  (((9 <=? n) && (n <=? 13)) || (n =? 32) || (n =? 133) || (n =? 160))%nat.

Fixpoint skip_space (s : string) : string :=
  match s with
  | EmptyString => EmptyString
  | String c s' => if int_space c then skip_space s' else s
  end.

Fixpoint all_space (s : string) : bool :=
  match s with
  | EmptyString => true
  | String c s' => int_space c && all_space s'
  end.

Definition digit_value (c : ascii) : Z := Z.of_nat (nat_of_ascii c - 48).

Definition max_str_digits : nat := 4300.

(** [digits acc n prev s]: [acc] is the value and [n] the number of the
    digits read so far; [prev] tells whether the previous character was a
    digit (an underscore is legal only between two digits).  What follows
    the digits must be whitespace to the end. *)
Fixpoint digits (acc : Z) (n : nat) (prev : bool) (s : string) : exc + Z :=
  match s with
  | EmptyString =>
      if prev && (n <=? max_str_digits)%nat then inr acc else inl ValueError
  | String c s' =>
      if PyStr.isdigit c then
        digits (10 * acc + digit_value c)%Z (S n) true s'
      else if Ascii.eqb c "_" then
        if prev then
          match s' with
          | String d _ =>
              if PyStr.isdigit d then digits acc n false s'
              else inl ValueError
          | EmptyString => inl ValueError
          end
        else inl ValueError
      else if prev && all_space s && (n <=? max_str_digits)%nat then inr acc
      else inl ValueError
  end.

Definition int (s : string) : exc + Z :=
  match skip_space s with
  | String "+" s' => digits 0 0 false s'
  | String "-" s' =>
      match digits 0 0 false s' with
      | inr v => inr (- v)%Z
      | inl e => inl e
      end
  | s' => digits 0 0 false s'
  end.

End PyInt.

(** ** Parsed pages (BeautifulSoup) *)

Definition attrs : Type := list (string * string).

(** The classes of string that BeautifulSoup keeps apart from
    [NavigableString] (and [CData]): the text inside [rt], [rp], [style],
    [script] and [template], which has the class of the nearest such element
    around it, and comments (with declarations, doctypes and processing
    instructions). *)
Inductive string_class : Type :=
| RubyTextString
| RubyParenthesisString
| Stylesheet
| Script
| TemplateString
| Comment.

(** [Text] is a [NavigableString] (or [CData]), [Special] a string of one
    of the other classes, as the parser made it: [<rt>x</rt>] is
    [Tag "rt" [] [Special RubyTextString "x"]]. *)
#[warnings="-register-all"] Inductive node : Type :=
| Text (s : string)
| Special (c : string_class) (s : string)
| Tag (name : string) (a : attrs) (children : list node).

(** The [BeautifulSoup] object: the top-level nodes of the document. *)
Definition soup : Type := list node.

Module Bs4.

(** [tag.get(key)]: [None] when the attribute is absent. *)
Fixpoint lookup (key : string) (a : attrs) : option string :=
  match a with
  | [] => None
  | (k, v) :: a' => if String.eqb k key then Some v else lookup key a'
  end.

Definition get (key : string) (n : node) : option string :=
  match n with
  | Text _ | Special _ _ => None
  | Tag _ a _ => lookup key a
  end.

Definition tag_name (n : node) : option string :=
  match n with
  | Text _ | Special _ _ => None
  | Tag nm _ _ => Some nm
  end.

Definition mem (x : string) (l : list string) : bool :=
  existsb (String.eqb x) l.

(** The whitespace-separated tokens of an attribute value; BeautifulSoup
    stores [class] as this list. *)
Fixpoint tokens_aux (cur : string) (s : string) : list string :=
  match s with
  | EmptyString => if PyStr.truthy cur then [cur] else []
  | String c s' =>
      if PyStr.isspace c
      then (if PyStr.truthy cur then [cur] else []) ++ tokens_aux "" s'
      else tokens_aux (cur ++ String c "") s'
  end.

Definition tokens (s : string) : list string := tokens_aux "" s.

Definition classes (a : attrs) : list string :=
  match lookup "class" a with
  | Some v => tokens v
  | None => []
  end.

(** What a selector can see of an element: its name, its attributes and
    whether it is the first of its siblings with that name. *)
Record elem_info : Type := mk_info {
  ei_name : string;
  ei_attrs : attrs;
  ei_first_of_type : bool
}.

(** An element in its place: the node, its own [elem_info] and those of
    its ancestors, the nearest first. *)
Record located : Type := mk_located {
  loc_node : node;
  loc_info : elem_info;
  loc_ancestors : list elem_info
}.

Definition is_first (seen : list string) (n : node) : bool :=
  match n with
  | Text _ | Special _ _ => false
  | Tag nm _ _ => negb (mem nm seen)
  end.

Definition see (seen : list string) (n : node) : list string :=
  match n with
  | Text _ | Special _ _ => seen
  | Tag nm _ _ => nm :: seen
  end.

(** The tags below (and including) [n] in document order. *)
Fixpoint elements_of (ancs : list elem_info) (first : bool) (n : node)
  : list located :=
  match n with
  | Text _ | Special _ _ => []
  | Tag nm a kids =>
      let me := mk_info nm a first in
      mk_located n me ancs ::
      (fix go (seen : list string) (l : list node) : list located :=
         match l with
         | [] => []
         | k :: l' =>
             elements_of (me :: ancs) (is_first seen k) k
             ++ go (see seen k) l'
         end) [] kids
  end.

(** [tag.descendants], tags only: the document object and every tag are
    searched below themselves. *)
Definition descendants (n : node) : list located :=
  tl (elements_of [] true n).

Definition document (page : soup) : node := Tag "[document]" [] page.

(** [tag.find_all(names)] *)
Definition find_all (names : list string) (n : node) : list node :=
  map loc_node
      (filter (fun e => mem (ei_name (loc_info e)) names) (descendants n)).

(** [soup.find(name, attrs={key: value})] *)
Definition find (nm key value : string) (n : node) : option node :=
  option_map loc_node
    (List.find (fun e =>
                  String.eqb (ei_name (loc_info e)) nm
                  && match lookup key (ei_attrs (loc_info e)) with
                     | Some v => String.eqb v value
                     | None => false
                     end)
               (descendants n)).

Definition class_eqb (a b : string_class) : bool :=
  match a, b with
  | RubyTextString, RubyTextString
  | RubyParenthesisString, RubyParenthesisString
  | Stylesheet, Stylesheet
  | Script, Script
  | TemplateString, TemplateString
  | Comment, Comment => true
  | _, _ => false
  end.

(** [tag.interesting_string_types]: for [rt], [rp], [style], [script] and
    [template] the class of their own text (the builder's
    [string_containers]); [None] stands for the default, [NavigableString]
    and [CData]. *)
Definition interesting_string_types (nm : string) : option string_class :=
  if String.eqb nm "rt" then Some RubyTextString
  else if String.eqb nm "rp" then Some RubyParenthesisString
  else if String.eqb nm "style" then Some Stylesheet
  else if String.eqb nm "script" then Some Script
  else if String.eqb nm "template" then Some TemplateString
  else None.

(** [_all_strings(types=types)]: the strings of the class [types] below
    [n], in document order. *)
Fixpoint all_strings (types : option string_class) (n : node)
  : list string :=
  match n with
  | Text s =>
      match types with
      | None => [s]
      | Some _ => []
      end
  | Special c s =>
      match types with
      | Some c' => if class_eqb c c' then [s] else []
      | None => []
      end
  | Tag _ _ kids =>
      (fix go (l : list node) : list string :=
         match l with
         | [] => []
         | k :: l' => all_strings types k ++ go l'
         end) kids
  end.

(** The strings [get_text] collects below [n]: those of the class that is
    interesting for [n].  So the text of a paragraph leaves out what is
    inside an [rt], [rp] or [template] below it. *)
Definition strings (n : node) : list string :=
  match n with
  | Tag nm _ _ => all_strings (interesting_string_types nm) n
  | Text _ | Special _ _ => all_strings None n
  end.

(** [tag.get_text(separator, strip=True)] *)
Definition get_text (separator : string) (n : node) : string :=
  PyStr.join separator
             (filter PyStr.truthy (map PyStr.strip (strings n))).

(** *** CSS selectors (soupsieve), as far as the scraper's tables go:
    compound selectors made of a type, a class and [:first-of-type],
    combined by the descendant combinator. *)

Record compound : Type := mk_compound {
  sel_type : string;              (* '' when there is no type selector *)
  sel_class : string;             (* '' when there is no class selector *)
  sel_first_of_type : bool
}.

Fixpoint take_until (stop : ascii -> bool) (s : string) : string * string :=
  match s with
  | EmptyString => (EmptyString, EmptyString)
  | String c s' =>
      if stop c then (EmptyString, s)
      else let (h, t) := take_until stop s' in (String c h, t)
  end.

Definition is_delim (c : ascii) : bool :=
  Ascii.eqb c "." || Ascii.eqb c ":".

Definition parse_compound (s : string) : compound :=
  let (ty, r1) := take_until is_delim s in
  let (cl, r2) :=
    match r1 with
    | String "." r => take_until (fun c => Ascii.eqb c ":") r
    | _ => (EmptyString, r1)
    end in
  mk_compound ty cl (String.eqb r2 ":first-of-type").

Definition parse_selector (s : string) : list compound :=
  map parse_compound (filter PyStr.truthy (PyStr.split " " s)).

Definition matches_compound (c : compound) (e : elem_info) : bool :=
  (negb (PyStr.truthy (sel_type c)) || String.eqb (sel_type c) (ei_name e))
  && (negb (PyStr.truthy (sel_class c))
      || mem (sel_class c) (classes (ei_attrs e)))
  && (negb (sel_first_of_type c) || ei_first_of_type e).

(** The descendant combinator: the remaining compounds, innermost first,
    must each match an ancestor further out than the previous one. *)
Fixpoint matches_ancestors (cs : list compound) (ancs : list elem_info)
  : bool :=
  match cs with
  | [] => true
  | c :: cs' =>
      (fix up (l : list elem_info) : bool :=
         match l with
         | [] => false
         | a :: l' =>
             (matches_compound c a && matches_ancestors cs' l') || up l'
         end) ancs
  end.

Definition matches (sel : list compound) (e : located) : bool :=
  match rev sel with
  | [] => false
  | c :: cs =>
      matches_compound c (loc_info e)
      && matches_ancestors cs (loc_ancestors e)
  end.

(** [tag.select_one(selector)] *)
Definition select_one (selector : string) (n : node) : option node :=
  option_map loc_node
    (List.find (matches (parse_selector selector)) (descendants n)).

End Bs4.

(** ** Regular expressions ([re.sub]) for the two patterns of the scraper *)

Module Re.

(** The atoms the patterns use: a literal character and [\d+]. *)
Inductive atom : Type :=
| Lit (c : ascii)
| Digits.

(** [\d+] followed by the continuation [k]: greedy, then giving digits
    back.  The result is the length of the match. *)
Fixpoint digits_then (k : string -> option nat) (s : string) : option nat :=
  match s with
  | EmptyString => None
  | String c s' =>
      if PyStr.isdigit c then
        match digits_then k s' with
        | Some n => Some (S n)
        | None => option_map S (k s')
        end
      else None
  end.

(** The length of the match of the pattern at the start of [s]. *)
Fixpoint match_here (p : list atom) (s : string) : option nat :=
  match p with
  | [] => Some 0
  | Lit c :: p' =>
      match s with
      | EmptyString => None
      | String a s' =>
          if Ascii.eqb a c then option_map S (match_here p' s') else None
      end
  | Digits :: p' => digits_then (match_here p') s
  end.

(** [re.sub(p, repl, s)] for a pattern that matches no empty string: the
    leftmost matches, not overlapping, are replaced.  [skip] counts the
    characters of the current match still to drop. *)
Fixpoint sub_from (p : list atom) (repl : string) (skip : nat) (s : string)
  : string :=
  match s with
  | EmptyString => EmptyString
  | String c s' =>
      match skip with
      | S k => sub_from p repl k s'
      | O =>
          match match_here p s with
          | Some (S len) => repl ++ sub_from p repl len s'
          | _ => String c (sub_from p repl 0 s')
          end
      end
  end.

Definition sub (p : list atom) (repl s : string) : string :=
  sub_from p repl 0 s.

End Re.

(** ** [urllib.parse.urljoin]

    CPython's algorithm (3.11), written out for the strings of the model.
    A network location with only one of the two square brackets raises
    [ValueError], and so does one whose bracketed host is neither an IPv6
    address nor an [IPvFuture] address ([_check_bracketed_netloc], which
    asks the module [ipaddress]).  [_checknetloc] never raises on the
    strings of the model: no character below 256 normalises to one of
    [/?#@:]. *)

Module PyUrl.

Import PyStr.
Local Open Scope string_scope.

Definition uses_relative : list string :=
  [ ""; "ftp"; "http"; "gopher"; "nntp"; "imap";
    "wais"; "file"; "https"; "shttp"; "mms";
    "prospero"; "rtsp"; "rtspu"; "sftp";
    "svn"; "svn+ssh"; "ws"; "wss" ].

Definition uses_netloc : list string :=
  [ ""; "ftp"; "http"; "gopher"; "nntp"; "telnet";
    "imap"; "wais"; "file"; "mms"; "https"; "shttp";
    "snews"; "prospero"; "rtsp"; "rtspu"; "rsync";
    "svn"; "svn+ssh"; "sftp"; "nfs"; "git"; "git+ssh";
    "ws"; "wss" ].

Definition uses_params : list string :=
  [ ""; "ftp"; "hdl"; "prospero"; "http"; "imap";
    "https"; "shttp"; "rtsp"; "rtspu"; "sip"; "sips";
    "mms"; "sftp"; "tel" ].

Definition is_alpha (c : ascii) : bool :=
  let n := nat_of_ascii c in
  (((65 <=? n) && (n <=? 90)) || ((97 <=? n) && (n <=? 122)))%nat.

Definition scheme_char (c : ascii) : bool :=
  is_alpha c || isdigit c
  || Ascii.eqb c "+" || Ascii.eqb c "-" || Ascii.eqb c ".".

(** The characters of [_WHATWG_C0_CONTROL_OR_SPACE]. *)
Definition c0_or_space (c : ascii) : bool := (nat_of_ascii c <=? 32)%nat.

Fixpoint lstrip_c0 (s : string) : string :=
  match s with
  | EmptyString => EmptyString
  | String c s' => if c0_or_space c then lstrip_c0 s' else s
  end.

Fixpoint rstrip_c0 (s : string) : string :=
  match s with
  | EmptyString => EmptyString
  | String c s' =>
      match rstrip_c0 s' with
      | EmptyString =>
          if c0_or_space c then EmptyString else String c EmptyString
      | r => String c r
      end
  end.

(** Removes the characters of [_UNSAFE_URL_BYTES_TO_REMOVE]. *)
Fixpoint remove_unsafe (s : string) : string :=
  match s with
  | EmptyString => EmptyString
  | String c s' =>
      if Ascii.eqb c "009" || Ascii.eqb c "013" || Ascii.eqb c "010"
      then remove_unsafe s'
      else String c (remove_unsafe s')
  end.

(** [s.split(c, 1)] read as a pair: the text before the first [c] and the
    text after it, or [None] when [c] does not occur. *)
Fixpoint cut (c : ascii) (s : string) : option (string * string) :=
  match s with
  | EmptyString => None
  | String a s' =>
      if Ascii.eqb a c then Some (EmptyString, s')
      else match cut c s' with
           | Some (h, t) => Some (String a h, t)
           | None => None
           end
  end.

Fixpoint all_chars (f : ascii -> bool) (s : string) : bool :=
  match s with
  | EmptyString => true
  | String c s' => f c && all_chars f s'
  end.

(** The last index of [c] in [s], as the text up to and including it and
    the text after it. *)
Fixpoint rcut (c : ascii) (s : string) : option (string * string) :=
  match s with
  | EmptyString => None
  | String a s' =>
      match rcut c s' with
      | Some (h, t) => Some (String a h, t)
      | None =>
          if Ascii.eqb a c then Some (String a EmptyString, s') else None
      end
  end.

(** [s.partition(c)]: the text before the first [c], whether [c] occurs,
    and the text after it. *)
Definition partition (c : ascii) (s : string) : string * bool * string :=
  match cut c s with
  | Some (h, t) => (h, true, t)
  | None => (s, false, EmptyString)
  end.

(** [s.rpartition(c)[2]] *)
Definition after_last (c : ascii) (s : string) : string :=
  match rcut c s with
  | Some (_, t) => t
  | None => s
  end.

(** *** [ipaddress]: whether a string is an address *)

(** The value of a string of decimal digits. *)
Fixpoint decimal (acc : N) (s : string) : N :=
  match s with
  | EmptyString => acc
  | String c s' => decimal (10 * acc + N.of_nat (nat_of_ascii c - 48))%N s'
  end.

(** [IPv4Address._parse_octet]; [None] is the [ValueError]. *)
Definition parse_octet (octet_str : string) : option N :=
  if negb (truthy octet_str) then None
  else if negb (all_chars isdigit octet_str) then None
  else if (3 <? String.length octet_str)%nat then None
  else if negb (String.eqb octet_str "0") && startswith "0" octet_str
       then None
  else
    let octet_int := decimal 0 octet_str in
    if (255 <? octet_int)%N then None else Some octet_int.

(** [IPv4Address(address)._ip]; [None] is the [AddressValueError]. *)
Definition ipv4_int (address : string) : option N :=
  if has_char "/" address then None
  else if negb (truthy address) then None
  else
    match map parse_octet (split "." address) with
    | [Some a; Some b; Some c; Some d] =>
        Some (((a * 256 + b) * 256 + c) * 256 + d)%N
    | _ => None
    end.

Definition hex_digit (c : ascii) : bool :=
  let n := nat_of_ascii c in
  isdigit c || ((65 <=? n) && (n <=? 70))%nat
  || ((97 <=? n) && (n <=? 102))%nat.

(** ['%x' % n] *)
Definition hex_char (d : N) : ascii :=
  ascii_of_N (if (d <? 10)%N then 48 + d else 87 + d)%N.

Fixpoint hex_digits (fuel : nat) (n : N) (acc : string) : string :=
  match fuel with
  | O => acc
  | S fuel' =>
      let acc := String (hex_char (N.modulo n 16)) acc in
      if (n <? 16)%N then acc else hex_digits fuel' (N.div n 16) acc
  end.

Definition hex (n : N) : string := hex_digits (S (N.to_nat (N.log2 n))) n "".

(** [IPv6Address._parse_hextet], as far as it raises or not: hexadecimal
    digits only, at most four, and [int(s, 16)] wants one at least. *)
Definition hextet_ok (hextet_str : string) : bool :=
  all_chars hex_digit hextet_str
  && (String.length hextet_str <=? 4)%nat
  && truthy hextet_str.

(** The indices [i] of [range(1, len(parts) - 1)] with an empty
    [parts[i]]. *)
Definition empty_inner (parts : list string) : list nat :=
  filter (fun i => negb (truthy (nth i parts EmptyString)))
         (seq 1 (List.length parts - 2)).

(** [IPv6Address._ip_int_from_string], as far as it raises or not. *)
Definition ipv6_parts_ok (ip_str : string) : bool :=
  if negb (truthy ip_str) then false
  else
    let parts := split ":" ip_str in
    if (List.length parts <? 3)%nat then false
    else
      let with_suffix :=
        if has_char "." (last parts EmptyString) then
          match ipv4_int (last parts EmptyString) with
          | Some v =>
              Some (removelast parts
                    ++ [hex (N.land (N.shiftr v 16) 65535);
                        hex (N.land v 65535)])%list
          | None => None
          end
        else Some parts in
      match with_suffix with
      | None => false
      | Some parts =>
          let len := List.length parts in
          if (9 <? len)%nat then false
          else
            let first_empty := negb (truthy (hd EmptyString parts)) in
            let last_empty := negb (truthy (last parts EmptyString)) in
            match empty_inner parts with
            | _ :: _ :: _ => false
            | [skip_index] =>
                let parts_hi :=
                  if first_empty then (skip_index - 1)%nat else skip_index in
                let parts_lo :=
                  if last_empty then (len - skip_index - 2)%nat
                  else (len - skip_index - 1)%nat in
                if first_empty && negb (parts_hi =? 0)%nat then false
                else if last_empty && negb (parts_lo =? 0)%nat then false
                else if (8 <=? parts_hi + parts_lo)%nat then false
                else
                  forallb hextet_ok (firstn parts_hi parts)
                  && forallb hextet_ok (skipn (len - parts_lo) parts)
            | [] =>
                if negb (len =? 8)%nat then false
                else if first_empty then false
                else if last_empty then false
                else forallb hextet_ok parts
            end
      end.

(** [IPv6Address(address)], as far as it raises or not, with
    [_split_scope_id]. *)
Definition ipv6_ok (address : string) : bool :=
  if has_char "/" address then false
  else
    match partition "%" address with
    | (addr, sep, scope_id) =>
        if sep && (negb (truthy scope_id) || has_char "%" scope_id)
        then false
        else ipv6_parts_ok addr
    end.

(** [re.match(r"\Av[a-fA-F0-9]+\..+\Z", hostname)] *)
Definition ipvfuture (hostname : string) : bool :=
  match hostname with
  | String "v" s =>
      let (digits, rest) := Bs4.take_until (fun c => negb (hex_digit c)) s in
      truthy digits
      && match rest with
         | String "." tail => truthy tail && negb (has_char nl tail)
         | _ => false
         end
  | _ => false
  end.

(** [_check_bracketed_host]: [true] when it returns, [false] when it
    raises [ValueError]. *)
Definition bracketed_host_ok (hostname : string) : bool :=
  if startswith "v" hostname then ipvfuture hostname
  else
    match ipv4_int hostname with
    | Some _ => false
    | None => ipv6_ok hostname
    end.

(** [_check_bracketed_netloc] *)
Definition bracketed_netloc_ok (netloc : string) : bool :=
  let hostname_and_port := after_last "@" netloc in
  match partition "[" hostname_and_port with
  | (before_bracket, true, bracketed) =>
      if truthy before_bracket then false
      else
        match partition "]" bracketed with
        | (hostname, _, port) =>
            if truthy port && negb (startswith ":" port) then false
            else bracketed_host_ok hostname
        end
  | (_, false, _) =>
      match partition ":" hostname_and_port with
      | (hostname, _, _) => bracketed_host_ok hostname
      end
  end.

(** [_splitnetloc(url, 2)] on the text after the two slashes. *)
Definition splitnetloc (s : string) : string * string :=
  Bs4.take_until
    (fun c => Ascii.eqb c "/" || Ascii.eqb c "?" || Ascii.eqb c "#") s.

Record split_result : Type := mk_split {
  sr_scheme : string;
  sr_netloc : string;
  sr_path : string;
  sr_query : string;
  sr_fragment : string
}.

Definition urlsplit (url scheme : string) : exc + split_result :=
  let url := remove_unsafe (lstrip_c0 url) in
  let scheme := remove_unsafe (rstrip_c0 (lstrip_c0 scheme)) in
  let (scheme, url) :=
    match url, cut ":" url with
    | String c0 _, Some (String h0 h, t) =>
        if is_alpha c0 && all_chars scheme_char (String h0 h)
        then (lower (String h0 h), t)
        else (scheme, url)
    | _, _ => (scheme, url)
    end in
  let split_rest (netloc url : string) :=
    let (url, fragment) :=
      match cut "#" url with
      | Some (u, f) => (u, f)
      | None => (url, EmptyString)
      end in
    let (url, query) :=
      match cut "?" url with
      | Some (u, q) => (u, q)
      | None => (url, EmptyString)
      end in
    mk_split scheme netloc url query fragment in
  match url with
  | String "/" (String "/" rest) =>
      let (netloc, url) := splitnetloc rest in
      if (has_char "[" netloc && negb (has_char "]" netloc))
         || (has_char "]" netloc && negb (has_char "[" netloc))
      then inl ValueError
      else if has_char "[" netloc && has_char "]" netloc
              && negb (bracketed_netloc_ok netloc)
      then inl ValueError
      else inr (split_rest netloc url)
  | _ => inr (split_rest EmptyString url)
  end.

Definition splitparams (url : string) : string * string :=
  match rcut "/" url with
  | Some (dir, last) =>
      match cut ";" last with
      | Some (h, t) => ((dir ++ h)%string, t)
      | None => (url, EmptyString)
      end
  | None =>
      match cut ";" url with
      | Some (h, t) => (h, t)
      | None => (url, EmptyString)
      end
  end.

Record parse_result : Type := mk_parse {
  pr_scheme : string;
  pr_netloc : string;
  pr_path : string;
  pr_params : string;
  pr_query : string;
  pr_fragment : string
}.

Definition urlparse (url scheme : string) : exc + parse_result :=
  match urlsplit url scheme with
  | inl e => inl e
  | inr r =>
      let (url, params) :=
        if Bs4.mem (sr_scheme r) uses_params && has_char ";" (sr_path r)
        then splitparams (sr_path r)
        else (sr_path r, EmptyString) in
      inr (mk_parse (sr_scheme r) (sr_netloc r) url params
                    (sr_query r) (sr_fragment r))
  end.

Definition urlunsplit (scheme netloc url query fragment : string) : string :=
  let url :=
    if truthy netloc
       || (truthy scheme && Bs4.mem scheme uses_netloc
           && negb (startswith "//" url))
    then "//" ++ netloc
         ++ (if truthy url && negb (startswith "/" url)
             then "/" ++ url else url)
    else url in
  let url := if truthy scheme then scheme ++ ":" ++ url else url in
  let url := if truthy query then url ++ "?" ++ query else url in
  if truthy fragment then url ++ "#" ++ fragment else url.

Definition urlunparse (scheme netloc url params query fragment : string)
  : string :=
  let url := if truthy params then url ++ ";" ++ params else url in
  urlunsplit scheme netloc url query fragment.

(** [segments[1:-1] = filter(None, segments[1:-1])] *)
Definition drop_empty_inner (segments : list string) : list string :=
  match segments with
  | [] => []
  | first :: rest =>
      match rev rest with
      | [] => [first]
      | last :: inner_rev =>
          (first :: filter truthy (rev inner_rev) ++ [last])%list
      end
  end.

(** The loop over the segments; [resolved_path] is kept reversed. *)
Fixpoint resolve (segments : list string) (resolved_rev : list string)
  : list string :=
  match segments with
  | [] => rev resolved_rev
  | seg :: rest =>
      if String.eqb seg ".." then resolve rest (tl resolved_rev)
      else if String.eqb seg "." then resolve rest resolved_rev
      else resolve rest (seg :: resolved_rev)
  end.

Definition urljoin (base url : string) : exc + string :=
  if negb (truthy base) then inr url
  else if negb (truthy url) then inr base
  else
    match urlparse base "" with
    | inl e => inl e
    | inr b =>
        match urlparse url (pr_scheme b) with
        | inl e => inl e
        | inr u =>
            if negb (String.eqb (pr_scheme u) (pr_scheme b))
               || negb (Bs4.mem (pr_scheme u) uses_relative)
            then inr url
            else if Bs4.mem (pr_scheme u) uses_netloc && truthy (pr_netloc u)
            then inr (urlunparse (pr_scheme u) (pr_netloc u) (pr_path u)
                                 (pr_params u) (pr_query u) (pr_fragment u))
            else
              let netloc :=
                if Bs4.mem (pr_scheme u) uses_netloc
                then pr_netloc b else pr_netloc u in
              if negb (truthy (pr_path u)) && negb (truthy (pr_params u))
              then
                inr (urlunparse (pr_scheme u) netloc (pr_path b)
                                (pr_params b)
                                (if truthy (pr_query u) then pr_query u
                                 else pr_query b)
                                (pr_fragment u))
              else
                let base_parts :=
                  let parts := split "/" (pr_path b) in
                  if truthy (last parts EmptyString)
                  then removelast parts else parts in
                let segments :=
                  if startswith "/" (pr_path u) then split "/" (pr_path u)
                  else drop_empty_inner
                         (base_parts ++ split "/" (pr_path u))%list in
                let resolved_path := resolve segments [] in
                let resolved_path :=
                  if Bs4.mem (last segments EmptyString) ["."; ".."]
                  then (resolved_path ++ [EmptyString])%list else resolved_path in
                let path := join "/" resolved_path in
                inr (urlunparse (pr_scheme u) netloc
                                (if truthy path then path else "/")
                                (pr_params u) (pr_query u) (pr_fragment u))
        end
    end.

End PyUrl.

(** ** The [result] dictionary and the [try] block of [scrape_article] *)

(** A [dict] from strings to optional strings, in insertion order. *)
Definition dict : Type := list (string * option string).

Fixpoint dict_set (k : string) (v : option string) (d : dict) : dict :=
  match d with
  | [] => [(k, v)]
  | (k', v') :: d' =>
      if String.eqb k' k then (k, v) :: d' else (k', v') :: dict_set k v d'
  end.

Fixpoint dict_get (k : string) (d : dict) : option (option string) :=
  match d with
  | [] => None
  | (k', v) :: d' => if String.eqb k' k then Some v else dict_get k d'
  end.

Definition keys (d : dict) : list string := map fst d.

(** Statements that update the dictionary and may raise: the state after
    the statement, and its value or the exception. *)
Definition Stmt (A : Type) : Type := dict -> dict * (exc + A).

Definition ret {A : Type} (a : A) : Stmt A := fun d => (d, inr a).

Definition bind {A B : Type} (m : Stmt A) (f : A -> Stmt B) : Stmt B :=
  fun d =>
    match m d with
    | (d', inr a) => f a d'
    | (d', inl e) => (d', inl e)
    end.

(** A call that may raise. *)
Definition call {A : Type} (r : exc + A) : Stmt A := fun d => (d, r).

(** [result[k] = v] *)
Definition setitem (k : string) (v : option string) : Stmt unit :=
  fun d => (dict_set k v d, inr tt).

(** [result[k]] *)
Definition getitem (k : string) : Stmt (option string) :=
  fun d =>
    match dict_get k d with
    | Some v => (d, inr v)
    | None => (d, inl KeyError)
    end.

(** The dictionary itself, for [return result]. *)
Definition the_result : Stmt dict := fun d => (d, inr d).

(** [try: body  except Exception as e: handler e] *)
Definition try_except {A : Type} (body : Stmt A) (handler : exc -> Stmt A)
  : Stmt A :=
  fun d =>
    match body d with
    | (d', inl e) => handler e d'
    | (d', inr a) => (d', inr a)
    end.

(** The outcome of a function body started on the dictionary [d]. *)
Definition run {A : Type} (body : Stmt A) (d : dict) : exc + A :=
  snd (body d).

Notation "x <- m ;; k" := (bind m (fun x => k))
  (at level 61, m at next level, right associativity).
Notation "m ;;; k" := (bind m (fun _ => k))
  (at level 61, right associativity).

(** ** Removing the unwanted elements (lines 37-39)

    [for element in soup([...]): element.decompose()] *)

Definition unwanted_elements : list string :=
  [ "script"; "style"; "nav"; "header"; "footer";
    "aside"; "iframe"; "noscript"; "form" ].

Definition is_unwanted (n : node) : bool :=
  match n with
  | Text _ | Special _ _ => false
  | Tag nm _ _ => Bs4.mem nm unwanted_elements
  end.

Fixpoint decompose_in (n : node) : node :=
  match n with
  | Text s => Text s
  | Special c s => Special c s
  | Tag nm a kids =>
      Tag nm a
          ((fix go (l : list node) : list node :=
              match l with
              | [] => []
              | k :: l' =>
                  if is_unwanted k then go l' else decompose_in k :: go l'
              end) kids)
  end.

Definition decompose_unwanted (page : soup) : soup :=
  match decompose_in (Bs4.document page) with
  | Tag _ _ kids => kids
  | Text _ | Special _ _ => []
  end.

(** ** [ArticleScraper] *)

Section ArticleScraper.

(** [urllib.parse.urljoin], which raises [ValueError] on some inputs. *)
Variable urljoin : string -> string -> exc + string.

(** [requests.get(url, headers, timeout=15)], [raise_for_status()] and
    [BeautifulSoup(response.content, 'html.parser')]: the parsed page, or
    the exception one of the three raised. *)
Variable fetch : string -> exc + soup.

Import PyStr.

(** *** [_extract_content] *)

Definition content_selectors : list string :=
  [ "article .article-content";
    "article .post-content";
    "article .entry-content";
    ".article-body";
    ".post-body";
    ".story-content";
    ".news-content";
    "article";
    ".post-content";
    ".entry-content";
    "main article";
    "main .content";
    ".content-area";
    "main" ].

(** Lines 89-93: the text of a matched container. *)
Definition container_text (content_elem : node) : string :=
  let paragraphs :=
    Bs4.find_all ["p"; "h1"; "h2"; "h3"; "h4"; "h5"; "h6"] content_elem in
  match paragraphs with
  | _ :: _ =>
      join (NL ++ NL) (filter truthy (map (Bs4.get_text "") paragraphs))
  | [] => Bs4.get_text NL content_elem
  end.

(** Lines 85-97: the loop over the selectors.  [content] is the variable
    of that name; leaving the recursion early is the [break]. *)
Fixpoint content_loop (page : node) (selectors : list string)
         (content : option string) : option string :=
  match selectors with
  | [] => content
  | selector :: rest =>
      match Bs4.select_one selector page with
      | Some content_elem =>
          let content' := container_text content_elem in
          if truthy content' && (200 <? String.length content')%nat
          then Some content'
          else content_loop page rest (Some content')
      | None => content_loop page rest content
      end
  end.

Definition _extract_content (page : soup) : option string :=
  match content_loop (Bs4.document page) content_selectors None with
  | Some content =>
      if truthy content then Some (collapse_blank_lines content)
      else Some content
  | None => None
  end.

(** *** [_is_thumbnail_url] *)

Definition thumbnail_indicators : list string :=
  [ "/w150/"; "/w200/"; "/w300/";
    "/h150/"; "/h200/"; "/h300/";
    "-150x"; "-200x"; "-300x";
    "_thumb"; "_small"; "_tiny";
    "/thumb/"; "/thumbs/";
    "/small/"; "/preview/";
    "resize="; "width=150"; "width=200" ].

Definition _is_thumbnail_url (url : string) : bool :=
  if negb (truthy url) then false
  else
    let url_lower := lower url in
    existsb (fun indicator => contains indicator url_lower)
            thumbnail_indicators.

(** *** [_upgrade_thumbnail_url] *)

(** [r'/w\d+/'] *)
Definition width_segment : list Re.atom :=
  [Re.Lit "/"; Re.Lit "w"; Re.Digits; Re.Lit "/"].

(** [r'-\d+x\d+\.'] *)
Definition dimension_suffix : list Re.atom :=
  [Re.Lit "-"; Re.Digits; Re.Lit "x"; Re.Digits; Re.Lit "."].

Definition _upgrade_thumbnail_url (url : string) : string :=
  if negb (truthy url) then url
  else
    let upgraded := Re.sub width_segment "/" url in
    if negb (String.eqb upgraded url) then upgraded
    else Re.sub dimension_suffix "." url.

(** *** [_extract_image] *)

(** Lines 144-150 and 152-157: one social metadata tag.  [None] is
    falling through to the next strategy. *)
Definition metadata_image (tag : option node) (article_url : string)
  : exc + option string :=
  match tag with
  | Some t =>
      match Bs4.get "content" t with
      | Some c =>
          if truthy c then
            match urljoin article_url c with
            | inl e => inl e
            | inr img_url =>
                if _is_thumbnail_url img_url
                then inr (Some (_upgrade_thumbnail_url img_url))
                else inr (Some img_url)
            end
          else inr None
      | None => inr None
      end
  | None => inr None
  end.

Definition image_selectors : list string :=
  [ "img.article-image";
    "img.featured-image";
    "img.wp-post-image";
    "article img:first-of-type";
    ".post-content img:first-of-type";
    "main img:first-of-type";
    ".content img:first-of-type" ].

(** [img.get('src') or img.get('data-src') or img.get('data-lazy-src')] *)
Definition image_source (img : node) : option string :=
  py_or (py_or (Bs4.get "src" img) (Bs4.get "data-src" img))
        (Bs4.get "data-lazy-src" img).

(** Lines 170-184: strategy 2.  [inr (Some u)] is [return u]; [inr None]
    is the end of the loop without a [return]. *)
Fixpoint selector_tier (page : node) (article_url : string)
         (selectors : list string) : exc + option string :=
  match selectors with
  | [] => inr None
  | selector :: rest =>
      match Bs4.select_one selector page with
      | Some img =>
          let image_url := image_source img in
          if truthy_opt image_url then
            match urljoin article_url
                          (match image_url with Some u => u | None => "" end)
            with
            | inl e => inl e
            | inr image_url =>
                let width := Bs4.get "width" img in
                if truthy_opt width then
                  match PyInt.int
                          (match width with Some w => w | None => "" end)
                  with
                  | inr n =>
                      if (200 <? n)%Z then inr (Some image_url)
                      else selector_tier page article_url rest
                  | inl ValueError => selector_tier page article_url rest
                  | inl e => inl e
                  end
                else inr (Some image_url)
            end
          else selector_tier page article_url rest
      | None => selector_tier page article_url rest
      end
  end.

Definition skip_keywords : list string :=
  ["logo"; "icon"; "avatar"; "button"; "ad"; "banner"; "sponsor"; "pixel"].

(** Lines 188-205: strategy 3, over [soup.find_all('img')]. *)
Fixpoint brute_force_tier (imgs : list node) (article_url : string)
  : exc + option string :=
  match imgs with
  | [] => inr None
  | img :: rest =>
      let img_url := image_source img in
      if truthy_opt img_url then
        match urljoin article_url
                      (match img_url with Some u => u | None => "" end)
        with
        | inl e => inl e
        | inr img_url =>
            if existsb (fun skip => contains skip (lower img_url))
                       skip_keywords
            then brute_force_tier rest article_url
            else
              let width := Bs4.get "width" img in
              if truthy_opt width then
                match PyInt.int
                        (match width with Some w => w | None => "" end)
                with
                | inr n =>
                    if (300 <? n)%Z then inr (Some img_url)
                    else brute_force_tier rest article_url
                | inl ValueError => brute_force_tier rest article_url
                | inl e => inl e
                end
              else inr (Some img_url)
        end
      else brute_force_tier rest article_url
  end.

Definition _extract_image (page : soup) (article_url : string)
  : exc + option string :=
  let doc := Bs4.document page in
  match metadata_image (Bs4.find "meta" "property" "og:image" doc)
                       article_url with
  | inl e => inl e
  | inr (Some img_url) => inr (Some img_url)
  | inr None =>
      match metadata_image (Bs4.find "meta" "name" "twitter:image" doc)
                           article_url with
      | inl e => inl e
      | inr (Some img_url) => inr (Some img_url)
      | inr None =>
          match selector_tier doc article_url image_selectors with
          | inl e => inl e
          | inr (Some image_url) => inr (Some image_url)
          | inr None => brute_force_tier (Bs4.find_all ["img"] doc) article_url
          end
      end
  end.

(** *** [scrape_article] *)

(** Lines 31-56: the body of the [try]. *)
Definition scrape_try (article_url : string) (rss_image : option string)
  : Stmt dict :=
  page <- call (fetch article_url) ;;
  let page := decompose_unwanted page in
  setitem "content" (_extract_content page) ;;;
  image_url <- call (_extract_image page article_url) ;;
  setitem "image_url" image_url ;;;
  found <- getitem "image_url" ;;
  (if negb (truthy_opt found) then
     if truthy_opt rss_image
        && negb (_is_thumbnail_url
                   (match rss_image with Some u => u | None => "" end))
     then setitem "image_url" rss_image
     else if truthy_opt rss_image then setitem "image_url" rss_image
     else ret tt
   else ret tt) ;;;
  the_result.

(** Lines 25-60.  Both the [try] and the [except Exception] end in
    [return result]: an exception leaves the dictionary as far as the
    [try] has filled it. *)
Definition scrape_article (article_url : string) (rss_image : option string)
  : exc + dict :=
  let result := [("content", None); ("image_url", None)] in
  run (try_except (scrape_try article_url rss_image)
                  (fun _ => the_result))
      result.

End ArticleScraper.

(** ** [ArticleStorage] *)

Module Storage.

(** A row of the table [articles]; a nullable column is an [option]. *)
Record article : Type := mk_article {
  id : Z;
  article_url : string;
  feed_name : string;
  title : string;
  published_date : option string;
  image_url : option string;
  original_content : option string;
  rewritten_content : option string;
  status : option string;
  created_at : option string;
  processed_at : option string
}.

(** A row of the table [processing_log]. *)
Record log_entry : Type := mk_log_entry {
  log_id : Z;
  run_timestamp : option string;
  new_articles : option Z;
  processed_articles : option Z;
  errors : option string
}.

Record database : Type := mk_database {
  articles : list article;
  processing_log : list log_entry
}.

(** [SET original_content = ?] *)
Definition set_original_content (content : option string) (r : article)
  : article :=
  mk_article (id r) (article_url r) (feed_name r) (title r)
             (published_date r) (image_url r) content
             (rewritten_content r) (status r) (created_at r)
             (processed_at r).

(** [SET original_content = ?, image_url = ?] *)
Definition set_content_and_image (content image : option string)
           (r : article) : article :=
  mk_article (id r) (article_url r) (feed_name r) (title r)
             (published_date r) image content
             (rewritten_content r) (status r) (created_at r)
             (processed_at r).

(** [UPDATE articles SET ... WHERE article_url = ?] *)
Definition update_where_url (url : string) (f : article -> article)
           (rows : list article) : list article :=
  map (fun r => if String.eqb (article_url r) url then f r else r) rows.

Definition update_article_content (db : database) (url : string)
           (content : option string) (image : option string) : database :=
  if truthy_opt image then
    mk_database
      (update_where_url url (set_content_and_image content image)
                        (articles db))
      (processing_log db)
  else
    mk_database
      (update_where_url url (set_original_content content) (articles db))
      (processing_log db).

End Storage.

(** ** Notions used in the statements *)

Module Notions.

Import PyStr.

(** A string that is empty or starts with a character [strip] keeps. *)
Definition clean_head (s : string) : Prop :=
  match s with
  | EmptyString => True
  | String c _ => isspace c = false
  end.

(** The lines the clean-up produces: stripped, not empty, on one line. *)
Definition settled (line : string) : Prop :=
  has_char nl line = false /\ strip line = line /\ truthy line = true.

Definition paragraph_break : string := NL ++ NL.

(** The test of the comprehension of line 102. *)
Definition kept (line : string) : bool := truthy (strip line).

(** The lines the clean-up keeps, stripped (line 102). *)
Definition kept_lines (content : string) : list string :=
  map strip (filter kept (split nl content)).

(** The text without its whitespace. *)
Fixpoint without_space (s : string) : string :=
  match s with
  | EmptyString => EmptyString
  | String c s' =>
      if isspace c then without_space s' else String c (without_space s')
  end.

(** Settled lines with an empty line between two of them: what [split]
    makes of their [join]. *)
Fixpoint with_blank_lines (l : list string) : list string :=
  match l with
  | [] => []
  | x :: rest =>
      match rest with
      | [] => [x]
      | _ :: _ => x :: EmptyString :: with_blank_lines rest
      end
  end.

(** The samples the statements are tried on. *)

(** [c * n] *)
Fixpoint times (c : ascii) (n : nat) : string :=
  match n with
  | O => EmptyString
  | S n' => String c (times c n')
  end.

(** [<html><body>...</body></html>] *)
Definition html (body : list node) : soup :=
  [Tag "html" [] [Tag "head" [] []; Tag "body" [] body]].

(** Whether every content selector that matches on the page gives text
    of at most 200 characters. *)
Definition all_fail_length_gate (page : soup) : bool :=
  forallb (fun selector =>
             match Bs4.select_one selector (Bs4.document page) with
             | Some content_elem =>
                 (String.length (container_text content_elem) <=? 200)%nat
             | None => true
             end)
          content_selectors.

(** A page whose only container is [main], with one short paragraph. *)
Definition short_page : soup :=
  html [Tag "main" [] [Tag "p" [] [Text "Subscribe to our newsletter"]]].

(** A page with a narrow container of 50 characters and [main] with 500. *)
Definition narrow_container : node :=
  Tag "div" [("class", "article-body")] [Tag "p" [] [Text (times "a" 50)]].

Definition broad_container : node :=
  Tag "main" [] [Tag "p" [] [Text (times "b" 500)]].

Definition narrow_and_broad : soup :=
  html [narrow_container; broad_container].

(** [main] with one paragraph of 500 characters in which a line break is
    followed by blanks. *)
Definition ragged_container : node :=
  Tag "main" []
      [Tag "p" [] [Text (times "b" 248 ++ NL ++ "   " ++ times "c" 248)]].

Definition narrow_and_ragged : soup :=
  html [narrow_container; ragged_container].

(** A page with a narrow container of 50 characters, an [article] of 300
    and [main] with 500. *)
Definition middle_container : node :=
  Tag "article" [] [Tag "p" [] [Text (times "c" 300)]].

Definition three_containers : soup :=
  html [narrow_container; middle_container; broad_container].

(** A paragraph with a ruby annotation, as the parser builds it: the text
    of [rt] and [rp] has a class of its own. *)
Definition ruby_text : node :=
  Tag "rt" [] [Special RubyTextString "reading"].

Definition ruby_paragraph : node :=
  Tag "p" []
      [Text "See ";
       Tag "ruby" []
           [Text "base";
            Tag "rp" [] [Special RubyParenthesisString "("];
            ruby_text;
            Tag "rp" [] [Special RubyParenthesisString ")"]];
       Special Comment " note "].

(** The address of the sample article. *)
Definition article_1 : string := "https://news.test/a/1".

(** A selector-tier image whose width does not parse, and the same image
    without a width. *)
Definition wide_image : node :=
  Tag "img" [("class", "article-image"); ("src", "a.jpg"); ("width", "wide")] [].

Definition plain_image : node :=
  Tag "img" [("class", "article-image"); ("src", "a.jpg")] [].

Definition malformed_width_page : soup := html [wide_image].

Definition absent_width_page : soup := html [plain_image].

(** The WordPress-style markers among [thumbnail_indicators], and the
    other indicators. *)
Definition wordpress_markers : list string := ["-150x"; "-200x"; "-300x"].

Definition other_indicators : list string :=
  filter (fun indicator => negb (Bs4.mem indicator wordpress_markers))
         thumbnail_indicators.

Fixpoint skip_digits (s : string) : string :=
  match s with
  | EmptyString => EmptyString
  | String c s' => if isdigit c then skip_digits s' else s
  end.

Fixpoint drop (n : nat) (s : string) : string :=
  match n, s with
  | S n', String _ s' => drop n' s'
  | _, _ => s
  end.

(** Whether [marker] occurs somewhere in [s] immediately before a file
    extension: followed by the dot, with at most digits (the height of
    [-150x150.jpg]) in between. *)
Fixpoint marker_before_extension (marker s : string) : bool :=
  (startswith marker s
   && startswith "." (skip_digits (drop (String.length marker) s)))
  || match s with
     | EmptyString => false
     | String _ s' => marker_before_extension marker s'
     end.


Definition og_image (content : string) : node :=
  Tag "meta" [("property", "og:image"); ("content", content)] [].

(** The two pages of the design document's thumbnail examples, each with a
    large image in the body as well. *)
Definition story_page : soup :=
  [Tag "html" []
       [Tag "head" [] [og_image "/media/story-300x200.jpg"];
        Tag "body" [] [Tag "img" [("src", "/big.jpg"); ("width", "1200")] []]]].

Definition photo_page : soup :=
  [Tag "html" []
       [Tag "head" [] [og_image "https://x.com/img/w150/photo.jpg"];
        Tag "body" [] [Tag "img" [("src", "/big.jpg"); ("width", "1200")] []]]].

(** A page whose first [og:image] tag is empty and whose second is not. *)
Definition two_og_page : soup :=
  [Tag "html" []
       [Tag "head" [] [og_image ""; og_image "https://cdn.test/full.jpg"];
        Tag "body" [] [Tag "img" [("src", "/body.jpg")] []]]].

(** A page with a logo only, and a thumbnail-shaped feed image. *)
Definition logo_page : soup := html [Tag "img" [("src", "/logo.png")] []].

(** A page with one image, whose source [urljoin] rejects. *)
Definition broken_src_page : soup :=
  html [Tag "img" [("src", "http://[broken")] []].

Definition feed_thumbnail : string := "https://cdn.test/thumb/x.jpg".


(** The image the dictionary of [scrape_article] ends with, given what the
    resolver found (lines 49-54). *)
Definition final_image (found rss_image : option string) : option string :=
  if truthy_opt found then found
  else if truthy_opt rss_image then rss_image else found.

(** The table [articles] of the samples: one row with a stored image and a
    rewrite, one row of another article. *)
Definition stored_rows : list Storage.article :=
  [ Storage.mk_article 1 "https://news.test/a/1" "News" "One" (Some "Mon")
                       (Some "https://cdn.test/old.jpg") (Some "summary")
                       (Some "rewritten") (Some "ready") (Some "t0")
                       (Some "t1");
    Storage.mk_article 2 "https://news.test/a/2" "News" "Two" None
                       None (Some "other") None (Some "pending")
                       (Some "t2") None ].

Definition stored : Storage.database :=
  Storage.mk_database stored_rows
                      [Storage.mk_log_entry 1 (Some "t0") (Some 1%Z)
                                            (Some 1%Z) None].

End Notions.

(** ** Further notions: trees, patterns and candidates *)


Module Tree.

(** The names of the tags of a tree, in document order. *)
Fixpoint tag_names (n : node) : list string :=
  match n with
  | Text _ | Special _ _ => []
  | Tag nm _ kids =>
      nm :: (fix go (l : list node) : list string :=
               match l with
               | [] => []
               | k :: l' => tag_names k ++ go l'
               end) kids
  end.

(** Whether a tree holds none of the unwanted elements. *)
Fixpoint clean (n : node) : bool :=
  match n with
  | Text _ | Special _ _ => true
  | Tag nm _ kids =>
      negb (Bs4.mem nm unwanted_elements)
      && (fix go (l : list node) : bool :=
            match l with
            | [] => true
            | k :: l' => clean k && go l'
            end) kids
  end.

End Tree.

Module ReSearch.
(** [re.search(p, s) is not None], for a pattern that matches no empty
    string. *)
Fixpoint occurs (p : list Re.atom) (s : string) : bool :=
  match Re.match_here p s with
  | Some (S _) => true
  | _ =>
      match s with
      | EmptyString => false
      | String _ s' => occurs p s'
      end
  end.
End ReSearch.

Module Accept.
(** The size test of a candidate image: no declared width, or a declared
    width that parses to more than [bound]. *)
Definition accepts_width (bound : Z) (img : node) : Prop :=
  truthy_opt (Bs4.get "width" img) = false
  \/ exists (w : string) (n : Z),
      Bs4.get "width" img = Some w /\ PyInt.int w = inr n /\ (bound < n)%Z.

(** [img] is a candidate with the source [src] that resolves to [url]. *)
Definition resolves_to (urljoin : string -> string -> exc + string)
           (article_url : string) (img : node) (url : string) : Prop :=
  exists src : string,
    image_source img = Some src /\ PyStr.truthy src = true
    /\ urljoin article_url src = inr url.
End Accept.

(** ** The other operations of [ArticleStorage] *)

Module Db.

Import Storage.

(** The database file: the two tables and, for each, the counter SQLite
    keeps in [sqlite_sequence] for its [AUTOINCREMENT] key. *)
Record state : Type := mk_state {
  tables : database;
  articles_seq : Z;
  log_seq : Z
}.

Definition rows (st : state) : list article := articles (tables st).

Definition log_rows (st : state) : list log_entry :=
  processing_log (tables st).

(** The key of the next insert: one more than the largest key the table
    ever held.  The keys of the model are unbounded.  SQLite's end at
    2^63 - 1, where the insert fails with [database or disk is full]; the
    counter moves by one with each insert, so the model and SQLite agree on
    every state whose keys and counter are below that bound. *)
Definition next_rowid (seq : Z) (ids : list Z) : Z :=
  Z.max seq (fold_right Z.max 0%Z ids) + 1.

(** [SELECT 1 FROM articles WHERE article_url = ?] and
    [fetchone() is not None] *)
Definition article_exists (st : state) (url : string) : bool :=
  existsb (fun r => String.eqb (article_url r) url) (rows st).

(** [d.get(key, default)] *)
Definition get_default (key : string) (default : option string) (d : dict)
  : option string :=
  match dict_get key d with
  | Some v => v
  | None => default
  end.

(** [INSERT OR IGNORE INTO articles (...) VALUES (...)] at the time [now]:
    a [NULL] in a [NOT NULL] column or a URL the table holds already leaves
    the table as it is.  The counter moves in every case.  The value is
    [cursor.lastrowid] on a fresh connection: the new key, or 0 when nothing
    was inserted. *)
Definition insert_or_ignore (now : string)
           (url feed title published image content : option string)
           (st : state) : Z * state :=
  let rowid := next_rowid (articles_seq st) (map id (rows st)) in
  let ignored :=
    (0%Z, mk_state (tables st) rowid (log_seq st)) in
  match url, feed, title with
  | Some u, Some f, Some t =>
      if article_exists st u then ignored
      else
        (rowid,
         mk_state
           (mk_database
              (rows st
               ++ [mk_article rowid u f t published image content None
                              (Some "pending") (Some now) None])
              (processing_log (tables st)))
           rowid (log_seq st))
  | _, _, _ => ignored
  end.

(** [save_article]: [article_data['url']] and [article_data['title']] raise
    [KeyError] on a missing key. *)
Definition save_article (now : string) (article_data : dict) (st : state)
  : exc + (Z * state) :=
  match dict_get "url" article_data with
  | None => inl KeyError
  | Some url =>
      let feed := get_default "feed_name" (Some "") article_data in
      match dict_get "title" article_data with
      | None => inl KeyError
      | Some title =>
          let published := get_default "published" (Some "") article_data in
          let image := get_default "image_url" None article_data in
          let content :=
            py_or (get_default "content" (Some "") article_data)
                  (get_default "summary" (Some "") article_data) in
          inr (insert_or_ignore now url feed title published image content st)
      end
  end.

Definition with_rows (st : state) (rs : list article) : state :=
  mk_state (mk_database rs (processing_log (tables st)))
           (articles_seq st) (log_seq st).

(** [SET image_url = ?] *)
Definition set_image (image : option string) (r : article) : article :=
  mk_article (id r) (article_url r) (feed_name r) (title r)
             (published_date r) image (original_content r)
             (rewritten_content r) (status r) (created_at r)
             (processed_at r).

Definition update_article_image (st : state) (url : string)
           (image : option string) : state :=
  with_rows st (update_where_url url (set_image image) (rows st)).

Definition update_article_content (st : state) (url : string)
           (content image : option string) : state :=
  mk_state (Storage.update_article_content (tables st) url content image)
           (articles_seq st) (log_seq st).

(** [SET rewritten_content = ?, status = 'ready',
     processed_at = CURRENT_TIMESTAMP] *)
Definition set_rewrite (now : string) (rewritten : option string)
           (r : article) : article :=
  mk_article (id r) (article_url r) (feed_name r) (title r)
             (published_date r) (image_url r) (original_content r)
             rewritten (Some "ready") (created_at r) (Some now).

Definition update_article_rewrite (now : string) (st : state) (url : string)
           (rewritten : option string) : state :=
  with_rows st (update_where_url url (set_rewrite now rewritten) (rows st)).

(** The order of two column values in [ORDER BY]: [NULL] first, then text
    by its characters. *)
Definition sql_leb (a b : option string) : bool :=
  match a, b with
  | None, _ => true
  | Some _, None => false
  | Some x, Some y => String.leb x y
  end.

(** [ORDER BY key DESC]; rows with equal keys stay in table order. *)
Fixpoint insert_desc (key : article -> option string) (r : article)
         (sorted : list article) : list article :=
  match sorted with
  | [] => [r]
  | x :: rest =>
      if negb (sql_leb (key x) (key r)) then x :: insert_desc key r rest
      else r :: sorted
  end.

Definition order_by_desc (key : article -> option string)
           (rs : list article) : list article :=
  fold_right (insert_desc key) [] rs.

(** [LIMIT ?]: a negative limit is no limit. *)
Definition limit_rows (limit : Z) (rs : list article) : list article :=
  if (limit <? 0)%Z then rs else firstn (Z.to_nat limit) rs.

Definition has_status (s : string) (r : article) : bool :=
  match status r with
  | Some s' => String.eqb s' s
  | None => false
  end.

Definition get_pending_articles (st : state) (limit : Z) : list article :=
  limit_rows limit
             (order_by_desc created_at (filter (has_status "pending") (rows st))).

Definition get_ready_articles (st : state) (limit : Z) : list article :=
  limit_rows limit
             (order_by_desc processed_at (filter (has_status "ready") (rows st))).

(** [INSERT INTO processing_log (...) VALUES (?, ?, ?)] *)
Definition log_processing_run (now : string) (st : state)
           (new_count processed_count : Z) (errs : option string) : state :=
  let rowid := next_rowid (log_seq st) (map log_id (processing_log (tables st))) in
  mk_state
    (mk_database (rows st)
                 (processing_log (tables st)
                  ++ [mk_log_entry rowid (Some now) (Some new_count)
                                   (Some processed_count) errs]))
    (articles_seq st) rowid.

(** What the schema promises of the table [articles]: no URL and no key
    twice, and no key above the counter. *)
Definition consistent (st : state) : Prop :=
  NoDup (map article_url (rows st))
  /\ NoDup (map id (rows st))
  /\ Forall (fun r => (id r <= articles_seq st)%Z) (rows st).

End Db.

Module Order.
Import Storage Db.
(** [x] may stand before [y] under [ORDER BY key DESC]. *)
Definition not_older (key : article -> option string) (x y : article) : Prop :=
  sql_leb (key y) (key x) = true.

Definition descending (key : article -> option string)
           (l : list article) : Prop :=
  Sorted.Sorted (not_older key) l.
End Order.

(** ** [RSSProcessor]: looking for new articles *)

Module Rss.

(** An enabled entry of the feed configuration ([self.feeds]). *)
Record feed_config : Type := mk_feed_config {
  fc_name : string;
  fc_url : string
}.

(** The dictionary [fetch_feed] builds for an entry of the feed
    (lines 22-30), its values by name. *)
Record feed_article : Type := mk_feed_article {
  fa_feed_name : string;
  fa_title : string;
  fa_url : string;
  fa_published : string;
  fa_summary : string;
  fa_content : string;
  fa_rss_image : string
}.

(** The same dictionary with its keys. *)
Definition article_dict (a : feed_article) : dict :=
  [ ("feed_name", Some (fa_feed_name a));
    ("title", Some (fa_title a));
    ("url", Some (fa_url a));
    ("published", Some (fa_published a));
    ("summary", Some (fa_summary a));
    ("content", Some (fa_content a));
    ("rss_image", Some (fa_rss_image a)) ].

(** [articles[:m]] *)
Definition prefix {A : Type} (m : Z) (l : list A) : list A :=
  if (m <? 0)%Z then firstn (List.length l - Z.to_nat (- m)) l
  else firstn (Z.to_nat m) l.

Section Processor.

(** [fetch_feed]: the entries of a feed as they are during the run, newest
    first; the empty list when the feed cannot be read. *)
Variable fetch_feed : feed_config -> list feed_article.

(** [clock n]: the value of [CURRENT_TIMESTAMP] at the insert that finds
    the counter of [articles] at [n]. *)
Variable clock : Z -> string.

Fixpoint check_topmost_article (feeds : list feed_config) (st : Db.state)
  : option feed_article :=
  match feeds with
  | [] => None
  | config :: rest =>
      match fetch_feed config with
      | topmost :: _ =>
          if negb (Db.article_exists st (fa_url topmost)) then Some topmost
          else None
      | [] => check_topmost_article rest st
      end
  end.

(** Lines 102-106: the loop over the articles of one feed. *)
Fixpoint save_new (articles : list feed_article)
         (all_new_articles : list feed_article) (st : Db.state)
  : exc + (list feed_article * Db.state) :=
  match articles with
  | [] => inr (all_new_articles, st)
  | article :: rest =>
      if negb (Db.article_exists st (fa_url article)) then
        match Db.save_article (clock (Db.articles_seq st))
                              (article_dict article) st with
        | inl e => inl e
        | inr (_, st') => save_new rest (all_new_articles ++ [article]) st'
        end
      else save_new rest all_new_articles st
  end.

(** Lines 97-111: the loop over the feeds. *)
Fixpoint collect_new (feeds : list feed_config) (max_per_feed : Z)
         (all_new_articles : list feed_article) (st : Db.state)
  : exc + (list feed_article * Db.state) :=
  match feeds with
  | [] => inr (all_new_articles, st)
  | config :: rest =>
      match save_new (prefix max_per_feed (fetch_feed config))
                     all_new_articles st with
      | inl e => inl e
      | inr (found, st') => collect_new rest max_per_feed found st'
      end
  end.

Definition get_new_articles (feeds : list feed_config) (st : Db.state)
           (max_per_feed : Z) : exc + (list feed_article * Db.state) :=
  collect_new feeds max_per_feed [] st.

End Processor.

(** What the loops keep: the rows of the start, then one row for every
    article found, in order; and no URL found twice or stored before. *)
Definition tracks (st0 : Db.state) (found : list feed_article)
           (st : Db.state) : Prop :=
  exists added : list Storage.article,
    Db.rows st = Db.rows st0 ++ added
    /\ map Storage.article_url added = map fa_url found
    /\ NoDup (map fa_url found)
    /\ Forall (fun a => Db.article_exists st0 (fa_url a) = false) found.

End Rss.

(** ** [NewsWriteBot.run_workflow]: saving and scraping the new article *)

Section Workflow.

Variable urljoin : string -> string -> exc + string.
Variable fetch : string -> exc + soup.

(** Lines 75-101, step 2 of the workflow, on the article that
    [check_topmost_article] returned.  The value is the database after the
    step and the exception, if any, that the [except] of line 99 adds to
    [errors]. *)
Definition scrape_step (article : Rss.feed_article) (st : Db.state)
  : Db.state * option exc :=
  match scrape_article urljoin fetch (Rss.fa_url article)
                       (Some (Rss.fa_rss_image article))
  with
  | inl e => (st, Some e)
  | inr scraped =>
      let scraped :=
        if truthy_opt (Db.get_default "content" None scraped) then scraped
        else dict_set "content"
                      (py_or (Some (Rss.fa_content article))
                             (Some (Rss.fa_summary article)))
                      scraped in
      (Db.update_article_content
         st (Rss.fa_url article)
         (Db.get_default "content" (Some "") scraped)
         (Db.get_default "image_url" None scraped),
       None)
  end.

End Workflow.

(** ** [OutputQueue] *)

Module Output.

(** An item of the output: the dictionary [generate_output] builds for a
    row, its values by key; [out_original] is the optional entry
    ['original'] with its title and content. *)
Record item : Type := mk_item {
  out_id : Z;
  out_title : string;
  out_rewritten_text : option string;
  out_image_url : option string;
  out_source_url : string;
  out_feed_name : string;
  out_published_date : option string;
  out_processed_at : option string;
  out_ready_for_posting : bool;
  out_original : option (string * option string)
}.

(** What the queue does to the outside: a request to the webhook with its
    JSON body, and a backup file with its content. *)
Inductive event : Type :=
| Post (url : string) (body : list item)
| SaveFile (content : list item).

Section Queue.

(** [self.webhook_url] and [self.include_original] *)
Variable webhook_url : string.
Variable include_original : bool.

(** [requests.post(...)] and [raise_for_status()]: done, or the exception
    raised. *)
Variable post : string -> list item -> exc + unit.

Definition output_item (r : Storage.article) : item :=
  mk_item (Storage.id r) (Storage.title r) (Storage.rewritten_content r)
          (Storage.image_url r) (Storage.article_url r)
          (Storage.feed_name r) (Storage.published_date r)
          (Storage.processed_at r) true
          (if include_original
           then Some (Storage.title r, Storage.original_content r)
           else None).

Definition generate_output (articles : list Storage.article) : list item :=
  map output_item articles.

(** [save_to_file]: the file written (its name, made of the time, is left
    out). *)
Definition save_to_file (articles : list Storage.article) : list event :=
  [SaveFile (generate_output articles)].

(** [send_to_webhook]: what was done, and the value returned or the
    exception that is not a [RequestException]. *)
Definition send_to_webhook (articles : list Storage.article)
  : list event * (exc + bool) :=
  if negb (PyStr.truthy webhook_url) then ([], inr false)
  else
    let output_items := generate_output articles in
    match output_items with
    | [] => ([], inr false)
    | _ :: _ =>
        match post webhook_url output_items with
        | inr _ => ([Post webhook_url output_items], inr true)
        | inl RequestException =>
            (Post webhook_url output_items :: save_to_file articles,
             inr false)
        | inl e => ([Post webhook_url output_items], inl e)
        end
    end.

End Queue.

End Output.

(** ** [NewsWriteBot.run_workflow] *)

Section RunWorkflow.

Variable urljoin : string -> string -> exc + string.
Variable fetch : string -> exc + soup.
Variable fetch_feed : Rss.feed_config -> list Rss.feed_article.
Variable webhook_url : string.
Variable include_original : bool.
Variable post : string -> list Output.item -> exc + unit.

(** [LLMRewriter.rewrite_article]: the rewritten text, [None], or the
    exception raised. *)
Variable rewrite_article : Storage.article -> exc + option string.

(** The values of [CURRENT_TIMESTAMP]: at the insert that finds the counter
    of [articles] at [n], at the update of step 3 and at the log entry. *)
Variable clock : Z -> string.
Variable rewrite_time : string.
Variable log_time : string.

(** [str(e)] *)
Variable describe : exc -> string.

(** What a run has done so far. *)
Record progress : Type := mk_progress {
  db : Db.state;
  events : list Output.event;
  errors : list string;
  new_count : Z;
  processed_count : Z
}.

(** Lines 105-125, step 3. *)
Definition rewrite_step (p : progress) : progress :=
  match Db.get_pending_articles (db p) 1 with
  | [] => p
  | article_data :: _ =>
      match rewrite_article article_data with
      | inl e =>
          mk_progress (db p) (events p)
                      (errors p ++ [("LLM error: " ++ describe e)%string])
                      (new_count p) (processed_count p)
      | inr rewritten =>
          if truthy_opt rewritten then
            mk_progress
              (Db.update_article_rewrite rewrite_time (db p)
                                         (Storage.article_url article_data)
                                         rewritten)
              (events p) (errors p) (new_count p) 1
          else
            mk_progress (db p) (events p)
                        (errors p ++ [("Failed to rewrite: "
                                         ++ Storage.title article_data)%string])
                        (new_count p) (processed_count p)
      end
  end.

(** Lines 129-141, step 4: the progress, or the progress with the
    exception that leaves the [try]. *)
Definition output_step (p : progress) : progress * option exc :=
  match Db.get_ready_articles (db p) 1 with
  | [] => (p, None)
  | ready_articles =>
      match Output.send_to_webhook webhook_url include_original post
                                   ready_articles with
      | (done, inl e) =>
          (mk_progress (db p) (events p ++ done) (errors p)
                       (new_count p) (processed_count p),
           Some e)
      | (done, inr success) =>
          (mk_progress
             (db p)
             (events p ++ done
              ++ (if success then []
                  else Output.save_to_file include_original ready_articles))
             (errors p) (new_count p) (processed_count p),
           None)
      end
  end.

(** Lines 149-151: the entry in the log that ends a run. *)
Definition log_run (p : progress) : progress :=
  mk_progress
    (Db.log_processing_run
       log_time (db p) (new_count p) (processed_count p)
       (match errors p with
        | [] => None
        | _ :: _ => Some (PyStr.join "; " (errors p))
        end))
    (events p) (errors p) (new_count p) (processed_count p).

Definition run_workflow (feeds : list Rss.feed_config) (st : Db.state)
  : progress :=
  match Rss.check_topmost_article fetch_feed feeds st with
  | None =>
      mk_progress (Db.log_processing_run log_time st 0 0 None) [] [] 0 0
  | Some article =>
      match Db.save_article (clock (Db.articles_seq st))
                            (Rss.article_dict article) st with
      | inl e =>
          log_run (mk_progress st []
                               [("Workflow error: " ++ describe e)%string] 0 0)
      | inr (_, st1) =>
          let (st2, scrape_error) := scrape_step urljoin fetch article st1 in
          let p2 :=
            mk_progress st2 []
                        (match scrape_error with
                         | Some e => [("Scraping error: " ++ describe e)%string]
                         | None => []
                         end)
                        1 0 in
          let p3 := rewrite_step p2 in
          match output_step p3 with
          | (p4, None) => log_run p4
          | (p4, Some e) =>
              log_run (mk_progress (db p4) (events p4)
                                   (errors p4
                                    ++ [("Workflow error: "
                                           ++ describe e)%string])
                                   (new_count p4) (processed_count p4))
          end
      end
  end.

End RunWorkflow.

(** ** Further samples *)

Module Samples.

(** A page with a Twitter card image only. *)
Definition twitter_page : soup :=
  [Tag "html" []
       [Tag "head" []
            [Tag "meta" [("name", "twitter:image");
                         ("content", "/img/card.jpg")] []];
        Tag "body" [] [Tag "img" [("src", "/body.jpg")] []]]].

(** A page whose [og:image] is an address [urljoin] rejects, with a
    paragraph of text. *)
Definition broken_og_page : soup :=
  [Tag "html" []
       [Tag "head" [] [Notions.og_image "http://[broken"];
        Tag "body" [] [Tag "main" [] [Tag "p" [] [Text "Some text"]]]]].

Definition empty_db : Db.state :=
  Db.mk_state (Storage.mk_database [] []) 0 0.

Definition first_article : Rss.feed_article :=
  Rss.mk_feed_article "Marine" "One" "https://news.test/a/1" "Mon"
                      "summary one" "" "https://cdn.test/thumb/x.jpg".

Definition second_article : Rss.feed_article :=
  Rss.mk_feed_article "Marine" "Two" "https://news.test/a/2" "Tue"
                      "summary two" "content two" "".

(** The database after the first article was saved at the time [t1]. *)
Definition one_saved : Db.state :=
  Db.mk_state
    (Storage.mk_database
       [Storage.mk_article 1 "https://news.test/a/1" "Marine" "One"
                           (Some "Mon") None (Some "summary one") None
                           (Some "pending") (Some "t1") None]
       [])
    1 0.

Definition feed_a : Rss.feed_config := Rss.mk_feed_config "A" "https://a.test/rss".
Definition feed_b : Rss.feed_config := Rss.mk_feed_config "B" "https://b.test/rss".
Definition feed_c : Rss.feed_config := Rss.mk_feed_config "C" "https://c.test/rss".

(** Feed A is empty, feed B holds the first article, feed C the second. *)
Definition feeds_now (config : Rss.feed_config) : list Rss.feed_article :=
  if String.eqb (Rss.fc_name config) "B" then [first_article]
  else if String.eqb (Rss.fc_name config) "C" then [second_article]
  else [].

(** The database after that article was rewritten at the time [t2]. *)
Definition one_ready : Db.state :=
  Db.update_article_rewrite "t2" one_saved "https://news.test/a/1"
                            (Some "rewritten").

(** Its row then. *)
Definition ready_row : Storage.article :=
  Storage.mk_article 1 "https://news.test/a/1" "Marine" "One" (Some "Mon")
                     None (Some "summary one") (Some "rewritten")
                     (Some "ready") (Some "t1") (Some "t2").

(** The address of the webhook. *)
Definition hook : string := "https://hook.test/in".

End Samples.

(** * Properties *)

(** ** Strings: stripping, splitting and joining *)

Module PyStrFacts.

Import PyStr Notions.

Lemma rstrip_idem (s : string) : rstrip (rstrip s) = rstrip s.
Proof.
  induction s as [|c s IH]; simpl; [reflexivity|].
  destruct (rstrip s) as [|a r] eqn:E.
  - destruct (isspace c) eqn:Ec; simpl; [reflexivity|].
    rewrite Ec. reflexivity.
  - simpl in IH |- *. rewrite IH. reflexivity.
Qed.

Lemma lstrip_clean_head (s : string) : clean_head (lstrip s).
Proof.
  induction s as [|c s IH]; simpl; [exact I|].
  destruct (isspace c) eqn:Ec; [exact IH|]. simpl. exact Ec.
Qed.

Lemma lstrip_fixed (s : string) : clean_head s -> lstrip s = s.
Proof.
  destruct s as [|c s]; simpl; [reflexivity|].
  intros H. rewrite H. reflexivity.
Qed.

Lemma rstrip_clean_head (s : string) : clean_head s -> clean_head (rstrip s).
Proof.
  destruct s as [|c s]; simpl; [trivial|].
  intros H. destruct (rstrip s); [rewrite H|]; simpl; exact H.
Qed.

Lemma strip_idem (s : string) : strip (strip s) = strip s.
Proof.
  unfold strip.
  rewrite (lstrip_fixed (rstrip (lstrip s))).
  - apply rstrip_idem.
  - apply rstrip_clean_head, lstrip_clean_head.
Qed.

(** *** Characters that survive *)

Lemma has_char_lstrip (c : ascii) (s : string) :
  has_char c s = false -> has_char c (lstrip s) = false.
Proof.
  induction s as [|a s IH]; simpl; [trivial|].
  intros H. apply orb_false_iff in H as [Ha Hs].
  destruct (isspace a); [auto|]. simpl. rewrite Ha, Hs. reflexivity.
Qed.

Lemma has_char_rstrip (c : ascii) (s : string) :
  has_char c s = false -> has_char c (rstrip s) = false.
Proof.
  induction s as [|a s IH]; simpl; [trivial|].
  intros H. apply orb_false_iff in H as [Ha Hs].
  specialize (IH Hs).
  destruct (rstrip s) as [|b r].
  - destruct (isspace a); simpl; [reflexivity|]. rewrite Ha. reflexivity.
  - simpl in IH |- *. rewrite Ha, IH. reflexivity.
Qed.

Lemma has_char_strip (c : ascii) (s : string) :
  has_char c s = false -> has_char c (strip s) = false.
Proof.
  intros H. apply has_char_rstrip, has_char_lstrip, H.
Qed.

(** *** [split] *)

Lemma split_pieces (sep : ascii) (s : string) :
  Forall (fun piece => has_char sep piece = false) (split sep s).
Proof.
  induction s as [|c s IH]; simpl.
  - repeat constructor.
  - destruct (Ascii.eqb c sep) eqn:E.
    + constructor; [reflexivity|exact IH].
    + destruct (split sep s) as [|h t].
      * repeat constructor. simpl. rewrite E. reflexivity.
      * inversion IH as [|? ? Hh Ht]; subst.
        constructor; [|exact Ht]. simpl. rewrite E, Hh. reflexivity.
Qed.

Lemma split_none (sep : ascii) (s : string) :
  has_char sep s = false -> split sep s = [s].
Proof.
  induction s as [|c s IH]; simpl; [reflexivity|].
  intros H. apply orb_false_iff in H as [Hc Hs].
  rewrite Hc, (IH Hs). reflexivity.
Qed.

Lemma split_app_sep (sep : ascii) (a b : string) :
  has_char sep a = false ->
  split sep (a ++ String sep b) = a :: split sep b.
Proof.
  induction a as [|c a IH]; simpl.
  - intros _. rewrite Ascii.eqb_refl. reflexivity.
  - intros H. apply orb_false_iff in H as [Hc Ha].
    rewrite Hc, (IH Ha). reflexivity.
Qed.

End PyStrFacts.

(** ** The blank-line clean-up *)

Module CollapseFacts.

Import PyStr Notions PyStrFacts.

Lemma split_join (l : list string) :
  l <> [] -> Forall settled l ->
  split nl (join paragraph_break l) = with_blank_lines l.
Proof.
  induction l as [|x rest IH]; [congruence|].
  intros _ H. inversion H as [|? ? [Hx _] Hrest]; subst.
  destruct rest as [|y rest'].
  - simpl. apply split_none, Hx.
  - change (join paragraph_break (x :: y :: rest'))
      with (x ++ String nl (String nl (join paragraph_break (y :: rest'))))%string.
    rewrite (split_app_sep nl x _ Hx).
    change (split nl (String nl (join paragraph_break (y :: rest'))))
      with (EmptyString :: split nl (join paragraph_break (y :: rest'))).
    rewrite IH; [reflexivity|discriminate|exact Hrest].
Qed.

Lemma keep_settled (l : list string) :
  Forall settled l -> map strip (filter kept (with_blank_lines l)) = l.
Proof.
  induction l as [|x rest IH]; [reflexivity|].
  intros H. inversion H as [|? ? [_ [Hs Ht]] Hrest]; subst.
  assert (Hk : kept x = true) by (unfold kept; rewrite Hs; exact Ht).
  destruct rest as [|y rest'].
  - simpl. rewrite Hk. simpl. rewrite Hs. reflexivity.
  - change (with_blank_lines (x :: y :: rest'))
      with (x :: EmptyString :: with_blank_lines (y :: rest')).
    cbn [filter]. rewrite Hk.
    change (kept "") with false. cbn [map]. rewrite Hs, (IH Hrest).
    reflexivity.
Qed.

Lemma collapse_unfold (content : string) :
  collapse_blank_lines content
  = join paragraph_break (map strip (filter kept (split nl content))).
Proof. reflexivity. Qed.

Lemma lines_settled (content : string) :
  Forall settled (map strip (filter kept (split nl content))).
Proof.
  apply Forall_forall. intros line Hin.
  apply in_map_iff in Hin as [raw [<- Hraw]].
  apply filter_In in Hraw as [Hraw Hkept].
  pose proof (split_pieces nl content) as Hp.
  rewrite Forall_forall in Hp. specialize (Hp raw Hraw).
  repeat split.
  - apply has_char_strip, Hp.
  - apply strip_idem.
  - exact Hkept.
Qed.

(** Text made of settled lines is left as it is. *)
Lemma collapse_settled (l : list string) :
  Forall settled l ->
  collapse_blank_lines (join paragraph_break l) = join paragraph_break l.
Proof.
  intros H. rewrite collapse_unfold.
  destruct l as [|x rest]; [reflexivity|].
  rewrite split_join; [|discriminate|exact H].
  rewrite keep_settled; [reflexivity|exact H].
Qed.

End CollapseFacts.

(** C8.  The blank-line clean-up of [_extract_content] (split the text into
    lines, drop the lines that are empty or only whitespace, strip the
    others, join them again with a blank line between two lines) is
    idempotent: on every text, doing it twice gives what doing it once
    gives. *)
Theorem collapse_blank_lines_idempotent (content : string) :
  collapse_blank_lines (collapse_blank_lines content)
  = collapse_blank_lines content.
Proof.
  rewrite (CollapseFacts.collapse_unfold content).
  apply CollapseFacts.collapse_settled, CollapseFacts.lines_settled.
Qed.

(** ** What the clean-up changes *)

Module SpaceFacts.

Import PyStr Notions PyStrFacts.

Lemma append_nil_r (s : string) : (s ++ "")%string = s.
Proof. induction s as [|c s IH]; simpl; [reflexivity|]. rewrite IH. reflexivity. Qed.

Lemma without_space_app (a b : string) :
  without_space (a ++ b) = (without_space a ++ without_space b)%string.
Proof.
  induction a as [|c a IH]; simpl; [reflexivity|].
  destruct (isspace c); [exact IH|]. simpl. rewrite IH. reflexivity.
Qed.

Lemma without_space_lstrip (s : string) :
  without_space (lstrip s) = without_space s.
Proof.
  induction s as [|c s IH]; simpl; [reflexivity|].
  destruct (isspace c) eqn:E; [exact IH|]. simpl. rewrite E. reflexivity.
Qed.

Lemma without_space_rstrip (s : string) :
  without_space (rstrip s) = without_space s.
Proof.
  induction s as [|c s IH]; [reflexivity|].
  cbn [rstrip]. destruct (rstrip s) as [|a r] eqn:E.
  - cbn [without_space] in IH |- *.
    destruct (isspace c) eqn:Ec; cbn [without_space]; [exact IH|].
    rewrite Ec, <- IH. reflexivity.
  - change (without_space (String c (String a r)))
      with (if isspace c then without_space (String a r)
            else String c (without_space (String a r))).
    rewrite IH. reflexivity.
Qed.

Lemma without_space_strip (s : string) :
  without_space (strip s) = without_space s.
Proof.
  unfold strip. rewrite without_space_rstrip. apply without_space_lstrip.
Qed.

(** The pieces of a text split at line breaks hold its characters. *)
Lemma without_space_split (s : string) :
  fold_right append "" (map without_space (split nl s)) = without_space s.
Proof.
  induction s as [|c s IH]; [reflexivity|].
  cbn [split]. destruct (Ascii.eqb c nl) eqn:E.
  - apply Ascii.eqb_eq in E. subst c. cbn [map fold_right]. exact IH.
  - destruct (split nl s) as [|h t] eqn:Hs.
    + cbn in IH |- *. rewrite <- IH. destruct (isspace c); reflexivity.
    + cbn [map fold_right] in IH |- *. cbn [without_space].
      destruct (isspace c); [exact IH|].
      cbn [append]. rewrite IH. reflexivity.
Qed.

Lemma without_space_join (sep : string) (l : list string) :
  without_space sep = "" ->
  without_space (join sep l) = fold_right append "" (map without_space l).
Proof.
  intros Hsep. induction l as [|x rest IH]; [reflexivity|].
  destruct rest as [|y rest'].
  - cbn [join map fold_right]. symmetry. apply append_nil_r.
  - change (join sep (x :: y :: rest'))
      with (x ++ sep ++ join sep (y :: rest'))%string.
    rewrite !without_space_app, Hsep, IH. reflexivity.
Qed.

Lemma kept_without_space (l : list string) :
  fold_right append "" (map without_space (map strip (filter kept l)))
  = fold_right append "" (map without_space l).
Proof.
  induction l as [|x l IH]; [reflexivity|].
  cbn [filter]. unfold kept at 1. destruct (strip x) as [|c r] eqn:E.
  - cbn [truthy map fold_right]. rewrite IH.
    rewrite <- (without_space_strip x), E. reflexivity.
  - cbn [truthy map fold_right]. rewrite IH, without_space_strip.
    reflexivity.
Qed.

(** The clean-up changes whitespace only. *)
Lemma collapse_without_space (content : string) :
  without_space (collapse_blank_lines content) = without_space content.
Proof.
  rewrite CollapseFacts.collapse_unfold.
  rewrite without_space_join by reflexivity.
  rewrite kept_without_space. apply without_space_split.
Qed.

Lemma strip_clean_head (s : string) : clean_head (strip s).
Proof. apply rstrip_clean_head, lstrip_clean_head. Qed.

(** Stripped pieces, the empty ones left out, joined: the text starts
    with a character that is no whitespace, or is empty. *)
Lemma join_clean_head (sep : string) (l : list string) :
  Forall clean_head l -> clean_head (join sep (filter truthy l)).
Proof.
  induction 1 as [|x l Hx _ IH]; [exact I|].
  cbn [filter]. destruct x as [|c r]; [exact IH|].
  cbn [truthy]. cbn [join].
  destruct (filter truthy l); exact Hx.
Qed.

Lemma get_text_clean_head (separator : string) (n : node) :
  clean_head (Bs4.get_text separator n).
Proof.
  unfold Bs4.get_text. apply join_clean_head.
  apply Forall_forall. intros x Hx. apply in_map_iff in Hx as [y [<- _]].
  apply strip_clean_head.
Qed.

Lemma container_text_clean_head (content_elem : node) :
  clean_head (container_text content_elem).
Proof.
  unfold container_text.
  destruct (Bs4.find_all _ content_elem) as [|p ps];
    [apply get_text_clean_head|].
  apply join_clean_head.
  apply Forall_forall. intros x Hx. apply in_map_iff in Hx as [y [<- _]].
  apply get_text_clean_head.
Qed.

Lemma clean_head_without_space (s : string) :
  clean_head s -> truthy s = true -> truthy (without_space s) = true.
Proof.
  destruct s as [|c r]; [discriminate|].
  cbn [clean_head without_space]. intros -> _. reflexivity.
Qed.

(** The clean-up of a text that starts with a character it keeps is not
    empty. *)
Lemma collapse_truthy (content : string) :
  clean_head content -> truthy content = true ->
  truthy (collapse_blank_lines content) = true.
Proof.
  intros Hc Ht.
  pose proof (clean_head_without_space content Hc Ht) as H.
  rewrite <- collapse_without_space in H.
  destruct (collapse_blank_lines content); [discriminate H|reflexivity].
Qed.

End SpaceFacts.

(** [get_text] on a paragraph leaves out the text of [rt] and [rp] and the
    comments; on the [rt] element itself it gives that element's text. *)
Lemma get_text_string_classes :
  Bs4.get_text "" Notions.ruby_paragraph = "Seebase"
  /\ Bs4.get_text "" Notions.ruby_text = "reading".
Proof. split; reflexivity. Qed.


(** ** The content extractor *)

Module ContentFacts.

Import PyStr Notions.

Lemma truthy_length (s : string) : truthy s = true <-> (0 < String.length s)%nat.
Proof.
  destruct s; simpl; split; intros H; try discriminate; try lia; reflexivity.
Qed.

(** A match that fails the gate is kept in [content] and the loop goes on. *)
Lemma content_loop_short (page : node) (selector : string)
      (rest : list string) (content : option string) (elem : node) :
  Bs4.select_one selector page = Some elem ->
  (String.length (container_text elem) <= 200)%nat ->
  content_loop page (selector :: rest) content
  = content_loop page rest (Some (container_text elem)).
Proof.
  intros Hsel Hlen. simpl. rewrite Hsel.
  replace (200 <? String.length (container_text elem))%nat with false
    by (symmetry; apply Nat.ltb_ge; exact Hlen).
  rewrite andb_false_r. reflexivity.
Qed.

(** The first match that passes the gate ends the loop. *)
Lemma content_loop_long (page : node) (selector : string)
      (rest : list string) (content : option string) (elem : node) :
  Bs4.select_one selector page = Some elem ->
  (200 < String.length (container_text elem))%nat ->
  content_loop page (selector :: rest) content
  = Some (container_text elem).
Proof.
  intros Hsel Hlen. simpl. rewrite Hsel.
  replace (truthy (container_text elem)) with true
    by (symmetry; apply truthy_length; lia).
  replace (200 <? String.length (container_text elem))%nat with true
    by (symmetry; apply Nat.ltb_lt; exact Hlen).
  reflexivity.
Qed.

Lemma content_loop_first_long (page : node) (pre : list string) :
  forall (selector : string) (post : list string) (content : option string)
         (elem : node),
    (forall sel e, In sel pre -> Bs4.select_one sel page = Some e ->
                   (String.length (container_text e) <= 200)%nat) ->
    Bs4.select_one selector page = Some elem ->
    (200 < String.length (container_text elem))%nat ->
    content_loop page (pre ++ selector :: post) content
    = Some (container_text elem).
Proof.
  induction pre as [|sel pre IH]; intros selector post content elem Hpre Hsel Hlen.
  - apply content_loop_long; assumption.
  - rewrite <- app_comm_cons.
    destruct (Bs4.select_one sel page) as [e|] eqn:E.
    + rewrite (content_loop_short page sel _ content e E).
      * apply IH; auto. intros s' e' Hin. apply Hpre. right. exact Hin.
      * apply (Hpre sel e); [left; reflexivity|exact E].
    + simpl. rewrite E.
      apply IH; auto. intros s' e' Hin. apply Hpre. right. exact Hin.
Qed.

End ContentFacts.

(** C6, as the code has it.  On a page where a narrow selector matches
    with text of 50 characters, a broader selector, later in
    [content_selectors], matches with text of 500 characters, and every
    other selector before the broader one that matches has text of at most
    200 characters, [_extract_content] returns the broader selector's text
    as the clean-up leaves it: its lines that are not blank, stripped and
    joined by one blank line.  That is a text that is not empty and holds
    the characters of the selector's text, whitespace apart; and it is the
    selector's text itself when that is made of such lines already.  The
    match below the gate does not stop the search, and the first match
    above it does. *)
Theorem extract_content_selector_priority
        (page : soup) (pre post : list string) (narrow broad : string)
        (narrow_elem broad_elem : node) :
  content_selectors = pre ++ broad :: post ->
  In narrow pre ->
  Bs4.select_one narrow (Bs4.document page) = Some narrow_elem ->
  String.length (container_text narrow_elem) = 50%nat ->
  Bs4.select_one broad (Bs4.document page) = Some broad_elem ->
  String.length (container_text broad_elem) = 500%nat ->
  (forall sel e, In sel pre -> sel <> narrow ->
                 Bs4.select_one sel (Bs4.document page) = Some e ->
                 (String.length (container_text e) <= 200)%nat) ->
  exists result : string,
    _extract_content page = Some result
    /\ result
       = PyStr.join Notions.paragraph_break
                    (Notions.kept_lines (container_text broad_elem))
    /\ Notions.without_space result
       = Notions.without_space (container_text broad_elem)
    /\ PyStr.truthy result = true
    /\ (forall lines : list string,
           Forall Notions.settled lines ->
           container_text broad_elem
           = PyStr.join Notions.paragraph_break lines ->
           result = container_text broad_elem).
Proof.
  intros Htable Hin Hnarrow Hn Hbroad Hb Hothers.
  assert (Ht : PyStr.truthy (container_text broad_elem) = true)
    by (apply ContentFacts.truthy_length; lia).
  exists (collapse_blank_lines (container_text broad_elem)).
  split; [|split; [|split; [|split]]].
  - unfold _extract_content. rewrite Htable.
    rewrite (ContentFacts.content_loop_first_long
               (Bs4.document page) pre broad post None broad_elem).
    + rewrite Ht. reflexivity.
    + intros sel e Hsel He.
      destruct (string_dec sel narrow) as [->|Hne].
      * rewrite Hnarrow in He. injection He as <-. lia.
      * apply (Hothers sel e Hsel Hne He).
    + exact Hbroad.
    + lia.
  - reflexivity.
  - apply SpaceFacts.collapse_without_space.
  - apply SpaceFacts.collapse_truthy;
      [apply SpaceFacts.container_text_clean_head|exact Ht].
  - intros lines Hl ->. apply CollapseFacts.collapse_settled, Hl.
Qed.

Lemma extract_content_selector_priority_witness :
  _extract_content Notions.narrow_and_broad = Some (Notions.times "b" 500)
  /\ _extract_content Notions.narrow_and_ragged
     = Some (Notions.times "b" 248 ++ PyStr.NL ++ PyStr.NL
             ++ Notions.times "c" 248)%string.
Proof.
  assert (Hothers :
            forall (page : soup),
              Forall (fun sel =>
                        sel = ".article-body"
                        \/ Bs4.select_one sel (Bs4.document page) = None)
                     (firstn 13 content_selectors) ->
              forall sel e, In sel (firstn 13 content_selectors) ->
                            sel <> ".article-body" ->
                            Bs4.select_one sel (Bs4.document page) = Some e ->
                            (String.length (container_text e) <= 200)%nat).
  { intros page Hall sel e Hin Hne Hsel.
    rewrite Forall_forall in Hall.
    destruct (Hall sel Hin) as [->|Hnone]; congruence. }
  split.
  - destruct (extract_content_selector_priority
                Notions.narrow_and_broad
                (firstn 13 content_selectors) [] ".article-body" "main"
                Notions.narrow_container Notions.broad_container
                eq_refl (or_intror (or_intror (or_intror (or_introl eq_refl))))
                eq_refl eq_refl eq_refl eq_refl)
      as (result & Hresult & _ & _ & _ & Hsame).
    + apply Hothers.
      repeat (constructor; [first [left; reflexivity | right; reflexivity]|]).
      constructor.
    + rewrite Hresult. f_equal.
      apply (Hsame [Notions.times "b" 500]); [|reflexivity].
      repeat constructor.
  - destruct (extract_content_selector_priority
                Notions.narrow_and_ragged
                (firstn 13 content_selectors) [] ".article-body" "main"
                Notions.narrow_container Notions.ragged_container
                eq_refl (or_intror (or_intror (or_intror (or_introl eq_refl))))
                eq_refl eq_refl eq_refl eq_refl)
      as (result & Hresult & Hlines & _).
    + apply Hothers.
      repeat (constructor; [first [left; reflexivity | right; reflexivity]|]).
      constructor.
    + rewrite Hresult, Hlines. reflexivity.
Defined.

(** C6 fails as stated: on this page [.article-body] matches with text of
    50 characters and [main], later in the table, with text of 500, but
    [article], which stands between the two, matches with text of 300
    characters; that match ends the search and its text is returned, not
    the text of [main]. *)
Lemma extract_content_selector_priority_counterexample :
  (exists pre post,
      content_selectors = pre ++ ".article-body" :: post
      /\ In "main" post)
  /\ Bs4.select_one ".article-body" (Bs4.document Notions.three_containers)
     = Some Notions.narrow_container
  /\ String.length (container_text Notions.narrow_container) = 50%nat
  /\ Bs4.select_one "main" (Bs4.document Notions.three_containers)
     = Some Notions.broad_container
  /\ String.length (container_text Notions.broad_container) = 500%nat
  /\ container_text Notions.broad_container = Notions.times "b" 500
  /\ Bs4.select_one "article" (Bs4.document Notions.three_containers)
     = Some Notions.middle_container
  /\ _extract_content Notions.three_containers
     = Some (Notions.times "c" 300)
  /\ _extract_content Notions.three_containers
     <> Some (collapse_blank_lines (container_text Notions.broad_container)).
Proof.
  split.
  - exists (firstn 3 content_selectors), (skipn 4 content_selectors).
    split; [reflexivity|]. simpl. tauto.
  - repeat split; try (vm_compute; reflexivity).
    vm_compute. discriminate.
Qed.

(** C1, at a page on which the code departs from it.  On [short_page] every
    content selector that matches gives text of at most 200 characters, and
    the page holds none of the unwanted elements; [_extract_content] returns
    the text of the match that failed the gate, not [None]. *)
Theorem extract_content_returns_short_match :
  Notions.all_fail_length_gate Notions.short_page = true
  /\ decompose_unwanted Notions.short_page = Notions.short_page
  /\ _extract_content Notions.short_page = Some "Subscribe to our newsletter".
Proof.
  repeat split; vm_compute; reflexivity.
Qed.

(** ** [int] *)

Module PyIntFacts.

Import PyInt.

Lemma digits_raises (s : string) :
  forall (acc : Z) (n : nat) (prev : bool) (e : exc),
    digits acc n prev s = inl e -> e = ValueError.
Proof.
  induction s as [|c s IH]; intros acc n prev e; simpl.
  - destruct (prev && (n <=? max_str_digits)%nat); congruence.
  - destruct (PyStr.isdigit c); [apply IH|].
    destruct (Ascii.eqb c "_").
    + destruct prev; [|congruence].
      destruct s as [|d s']; [congruence|].
      destruct (PyStr.isdigit d); [apply IH|congruence].
    + destruct (prev && (int_space c && all_space s)
                && (n <=? max_str_digits)%nat); congruence.
Qed.

(** [int] raises nothing but [ValueError]. *)
Lemma int_raises (s : string) (e : exc) : int s = inl e -> e = ValueError.
Proof.
  unfold int.
  destruct (skip_space s) as [|c s'] eqn:E.
  - apply digits_raises.
  - destruct c as [[] [] [] [] [] [] [] []]; try apply digits_raises.
    destruct (digits 0 0 false s') eqn:D; [|discriminate].
    intros H. injection H as <-. apply (digits_raises _ _ _ _ _ D).
Qed.

End PyIntFacts.

(** ** The image resolver *)

Section ImageFacts.

Variable urljoin : string -> string -> exc + string.

Import PyStr.

(** What the social metadata tier returns for a tag with content. *)
Lemma metadata_image_found (tag : node) (article_url c u : string) :
  Bs4.get "content" tag = Some c ->
  truthy c = true ->
  urljoin article_url c = inr u ->
  metadata_image urljoin (Some tag) article_url
  = inr (Some (if _is_thumbnail_url u then _upgrade_thumbnail_url u else u)).
Proof.
  intros Hc Ht Hu. unfold metadata_image. rewrite Hc, Ht, Hu.
  destruct (_is_thumbnail_url u); reflexivity.
Qed.

Lemma metadata_image_raises (tag : node) (article_url c : string) (e : exc) :
  Bs4.get "content" tag = Some c ->
  truthy c = true ->
  urljoin article_url c = inl e ->
  metadata_image urljoin (Some tag) article_url = inl e.
Proof.
  intros Hc Ht Hu. unfold metadata_image. rewrite Hc, Ht, Hu. reflexivity.
Qed.

(** The resolver returns what the [og:image] tag gives, when it gives
    something. *)
Lemma extract_image_og (page : soup) (article_url : string) (r : string) :
  metadata_image urljoin
                 (Bs4.find "meta" "property" "og:image" (Bs4.document page))
                 article_url = inr (Some r) ->
  _extract_image urljoin page article_url = inr (Some r).
Proof.
  intros H. unfold _extract_image. cbv zeta. rewrite H. reflexivity.
Qed.

(** The resolver returns [None] exactly when the four strategies do. *)
Lemma extract_image_none (page : soup) (article_url : string) :
  _extract_image urljoin page article_url = inr None
  <-> (metadata_image urljoin
                      (Bs4.find "meta" "property" "og:image"
                                (Bs4.document page))
                      article_url = inr None
       /\ metadata_image urljoin
                         (Bs4.find "meta" "name" "twitter:image"
                                   (Bs4.document page))
                         article_url = inr None
       /\ selector_tier urljoin (Bs4.document page) article_url
                        image_selectors = inr None
       /\ brute_force_tier urljoin
                           (Bs4.find_all ["img"] (Bs4.document page))
                           article_url = inr None).
Proof.
  unfold _extract_image. cbv zeta. split.
  - destruct (metadata_image urljoin (Bs4.find "meta" "property" _ _) _)
      as [e|[r|]]; try discriminate.
    destruct (metadata_image urljoin (Bs4.find "meta" "name" _ _) _)
      as [e|[r|]]; try discriminate.
    destruct (selector_tier urljoin _ _ _) as [e|[r|]]; try discriminate.
    intros H. repeat split; assumption.
  - intros (H1 & H2 & H3 & H4). rewrite H1, H2, H3. exact H4.
Qed.




End ImageFacts.

(** C2, as the code has it.  In the selector tier an image whose declared
    width is present and does not parse as an integer is not accepted: the
    [ValueError] of [int] is swallowed, the candidate is passed over like
    one whose width is at most 200, and the search goes on with the next
    selector.  No error is raised. *)
Theorem selector_tier_malformed_width_skips
        (urljoin : string -> string -> exc + string)
        (page : node) (article_url selector : string) (rest : list string)
        (img : node) (src u w : string) (e : exc) :
  Bs4.select_one selector page = Some img ->
  image_source img = Some src ->
  PyStr.truthy src = true ->
  urljoin article_url src = inr u ->
  Bs4.get "width" img = Some w ->
  PyStr.truthy w = true ->
  PyInt.int w = inl e ->
  selector_tier urljoin page article_url (selector :: rest)
  = selector_tier urljoin page article_url rest.
Proof.
  intros Hsel Hsrc Htsrc Hu Hw Htw Hint.
  pose proof (PyIntFacts.int_raises w e Hint) as ->.
  simpl. rewrite Hsel, Hsrc. simpl. rewrite Htsrc, Hu, Hw. simpl.
  rewrite Htw, Hint. reflexivity.
Qed.

Lemma selector_tier_malformed_width_skips_witness :
  selector_tier PyUrl.urljoin (Bs4.document Notions.malformed_width_page)
                Notions.article_1 image_selectors
  = selector_tier PyUrl.urljoin (Bs4.document Notions.malformed_width_page)
                  Notions.article_1 (tl image_selectors).
Proof.
  apply (selector_tier_malformed_width_skips
           PyUrl.urljoin (Bs4.document Notions.malformed_width_page)
           Notions.article_1 "img.article-image" (tl image_selectors)
           Notions.wide_image "a.jpg" "https://news.test/a/a.jpg" "wide"
           ValueError);
    reflexivity.
Defined.

(** C2 fails as stated: the image with the width [wide] is found by the
    first image selector and its width does not parse, yet the selector
    tier returns nothing, while the same image without a width is
    accepted. *)
Lemma selector_tier_malformed_width_counterexample :
  Bs4.select_one "img.article-image"
                 (Bs4.document Notions.malformed_width_page)
  = Some Notions.wide_image
  /\ Bs4.get "width" Notions.wide_image = Some "wide"
  /\ PyInt.int "wide" = inl ValueError
  /\ selector_tier PyUrl.urljoin (Bs4.document Notions.malformed_width_page)
                   Notions.article_1 image_selectors
     = inr None
  /\ selector_tier PyUrl.urljoin (Bs4.document Notions.absent_width_page)
                   Notions.article_1 image_selectors
     = inr (Some "https://news.test/a/a.jpg").
Proof.
  repeat split; vm_compute; reflexivity.
Qed.

(** ** The thumbnail heuristic *)

Module ThumbnailFacts.

Import PyStr.

(** The guard on the empty URL changes nothing: the heuristic is the
    search for an indicator. *)
Lemma is_thumbnail_url_spec (url : string) :
  _is_thumbnail_url url
  = existsb (fun indicator => contains indicator (lower url))
            thumbnail_indicators.
Proof.
  unfold _is_thumbnail_url. destruct url; reflexivity.
Qed.

Lemma wordpress_markers_listed (marker : string) :
  In marker Notions.wordpress_markers -> In marker thumbnail_indicators.
Proof.
  simpl. intros [<-|[<-|[<-|[]]]]; tauto.
Qed.

End ThumbnailFacts.

(** C3, as the code has it.  A WordPress-style marker ([-150x], [-200x],
    [-300x]) makes a URL a thumbnail wherever it occurs in the lower-cased
    URL, next to a file extension or not; and the heuristic is [false]
    exactly on the URLs that hold none of the indicators. *)
Theorem is_thumbnail_url_marker_anywhere (url marker : string) :
  In marker Notions.wordpress_markers ->
  PyStr.contains marker (PyStr.lower url) = true ->
  _is_thumbnail_url url = true
  /\ (forall other : string,
         _is_thumbnail_url other = false
         <-> forall indicator, In indicator thumbnail_indicators ->
                               PyStr.contains indicator (PyStr.lower other)
                               = false).
Proof.
  intros Hin Hc. split.
  - rewrite ThumbnailFacts.is_thumbnail_url_spec.
    apply existsb_exists. exists marker. split; [|exact Hc].
    apply ThumbnailFacts.wordpress_markers_listed, Hin.
  - intros other. rewrite ThumbnailFacts.is_thumbnail_url_spec. split.
    + intros H indicator Hi.
      destruct (PyStr.contains indicator (PyStr.lower other)) eqn:E;
        [|reflexivity].
      assert (existsb (fun i => PyStr.contains i (PyStr.lower other))
                      thumbnail_indicators = true) as Ht
          by (apply existsb_exists; exists indicator; auto).
      congruence.
    + intros H.
      destruct (existsb (fun i => PyStr.contains i (PyStr.lower other))
                        thumbnail_indicators) eqn:E; [|reflexivity].
      apply existsb_exists in E as [i [Hi Hc']].
      rewrite (H i Hi) in Hc'. discriminate.
Qed.

Lemma is_thumbnail_url_marker_anywhere_witness :
  _is_thumbnail_url "https://x.com/a-150x/photo.jpg" = true.
Proof.
  apply (is_thumbnail_url_marker_anywhere
           "https://x.com/a-150x/photo.jpg" "-150x").
  - simpl. tauto.
  - reflexivity.
Defined.

(** C3 fails as stated: this URL holds the marker [-150x] away from any
    file extension and holds no other indicator, and the heuristic says
    thumbnail. *)
Lemma is_thumbnail_url_marker_counterexample :
  let url := "https://x.com/a-150x/photo.jpg" in
  PyStr.contains "-150x" (PyStr.lower url) = true
  /\ forallb (fun marker =>
                negb (Notions.marker_before_extension marker (PyStr.lower url)))
             Notions.wordpress_markers = true
  /\ forallb (fun indicator =>
                negb (PyStr.contains indicator (PyStr.lower url)))
             Notions.other_indicators = true
  /\ _is_thumbnail_url url = true.
Proof.
  repeat split; vm_compute; reflexivity.
Qed.

(** ** The social metadata tier *)

(** C4.  When the page's [og:image] resolves against the page URL to a URL
    the heuristic calls a thumbnail, the resolver returns that URL upgraded
    once: with its [/w<digits>/] segments collapsed to [/] if there are any,
    otherwise with [-<digits>x<digits>] taken out before a dot.  So
    [/media/story-300x200.jpg] on [https://news.test/a/1] gives
    [https://news.test/media/story.jpg], and
    [https://x.com/img/w150/photo.jpg] gives
    [https://x.com/img/photo.jpg]. *)
Theorem extract_image_og_thumbnail_upgrade :
  (forall (urljoin : string -> string -> exc + string) (page : soup)
          (article_url : string) (tag : node) (c u : string),
      Bs4.find "meta" "property" "og:image" (Bs4.document page) = Some tag ->
      Bs4.get "content" tag = Some c ->
      PyStr.truthy c = true ->
      urljoin article_url c = inr u ->
      _is_thumbnail_url u = true ->
      _extract_image urljoin page article_url
      = inr (Some (_upgrade_thumbnail_url u))
      /\ _upgrade_thumbnail_url u
         = (if negb (String.eqb (Re.sub width_segment "/" u) u)
            then Re.sub width_segment "/" u
            else Re.sub dimension_suffix "." u))
  /\ (forall (page : soup) (tag : node),
         Bs4.find "meta" "property" "og:image" (Bs4.document page)
         = Some tag ->
         Bs4.get "content" tag = Some "/media/story-300x200.jpg" ->
         _extract_image PyUrl.urljoin page "https://news.test/a/1"
         = inr (Some "https://news.test/media/story.jpg"))
  /\ (forall (page : soup) (tag : node),
         Bs4.find "meta" "property" "og:image" (Bs4.document page)
         = Some tag ->
         Bs4.get "content" tag = Some "https://x.com/img/w150/photo.jpg" ->
         _extract_image PyUrl.urljoin page "https://news.test/a/1"
         = inr (Some "https://x.com/img/photo.jpg")).
Proof.
  assert (forall (urljoin : string -> string -> exc + string) (page : soup)
                 (article_url : string) (tag : node) (c u : string),
             Bs4.find "meta" "property" "og:image" (Bs4.document page)
             = Some tag ->
             Bs4.get "content" tag = Some c ->
             PyStr.truthy c = true ->
             urljoin article_url c = inr u ->
             _is_thumbnail_url u = true ->
             _extract_image urljoin page article_url
             = inr (Some (_upgrade_thumbnail_url u))) as General.
  { intros urljoin page article_url tag c u Hfind Hc Ht Hu Hthumb.
    apply extract_image_og. rewrite Hfind.
    rewrite (metadata_image_found urljoin tag article_url c u Hc Ht Hu).
    rewrite Hthumb. reflexivity. }
  split; [|split].
  - intros urljoin page article_url tag c u Hfind Hc Ht Hu Hthumb.
    split; [apply (General urljoin page article_url tag c u); assumption|].
    unfold _upgrade_thumbnail_url.
    destruct u as [|a u']; [discriminate Hthumb|reflexivity].
  - intros page tag Hfind Hc.
    apply (General PyUrl.urljoin page _ tag _
                   "https://news.test/media/story-300x200.jpg" Hfind Hc);
      reflexivity.
  - intros page tag Hfind Hc.
    apply (General PyUrl.urljoin page _ tag _
                   "https://x.com/img/w150/photo.jpg" Hfind Hc);
      reflexivity.
Qed.

Lemma extract_image_og_thumbnail_upgrade_witness :
  _extract_image PyUrl.urljoin Notions.story_page "https://news.test/a/1"
  = inr (Some "https://news.test/media/story.jpg")
  /\ _extract_image PyUrl.urljoin Notions.photo_page "https://news.test/a/1"
     = inr (Some "https://x.com/img/photo.jpg").
Proof.
  split.
  - apply (proj1 (proj2 extract_image_og_thumbnail_upgrade)
                 Notions.story_page
                 (Notions.og_image "/media/story-300x200.jpg"));
      reflexivity.
  - apply (proj1 extract_image_og_thumbnail_upgrade
                 PyUrl.urljoin Notions.photo_page "https://news.test/a/1"
                 (Notions.og_image "https://x.com/img/w150/photo.jpg")
                 "https://x.com/img/w150/photo.jpg"
                 "https://x.com/img/w150/photo.jpg");
      reflexivity.
Defined.




(** ** [scrape_article] *)

Section ScrapeFacts.

Variable urljoin : string -> string -> exc + string.
Variable fetch : string -> exc + soup.

Lemma scrape_article_fetch_fails (article_url : string)
      (rss_image : option string) (e : exc) :
  fetch article_url = inl e ->
  scrape_article urljoin fetch article_url rss_image
  = inr [("content", None); ("image_url", None)].
Proof.
  intros H. unfold scrape_article, run, try_except, scrape_try, bind, call.
  rewrite H. reflexivity.
Qed.

Lemma scrape_article_image_raises (article_url : string)
      (rss_image : option string) (page : soup) (e : exc) :
  fetch article_url = inr page ->
  _extract_image urljoin (decompose_unwanted page) article_url = inl e ->
  scrape_article urljoin fetch article_url rss_image
  = inr [("content", _extract_content (decompose_unwanted page));
         ("image_url", None)].
Proof.
  intros H He.
  unfold scrape_article, run, try_except, scrape_try, bind, call, setitem.
  rewrite H. cbn [dict_set String.eqb Ascii.eqb Bool.eqb]. rewrite He.
  reflexivity.
Qed.

Lemma scrape_article_image_returns (article_url : string)
      (rss_image : option string) (page : soup) (found : option string) :
  fetch article_url = inr page ->
  _extract_image urljoin (decompose_unwanted page) article_url = inr found ->
  scrape_article urljoin fetch article_url rss_image
  = inr [("content", _extract_content (decompose_unwanted page));
         ("image_url", Notions.final_image found rss_image)].
Proof.
  intros H Hf.
  unfold scrape_article, run, try_except, scrape_try, bind, call, setitem,
    getitem, the_result, ret, Notions.final_image.
  rewrite H. cbn [dict_set dict_get String.eqb Ascii.eqb Bool.eqb].
  rewrite Hf. cbn [dict_set dict_get String.eqb Ascii.eqb Bool.eqb].
  destruct (truthy_opt found); [reflexivity|]. cbn [negb].
  destruct (truthy_opt rss_image); [|reflexivity]. cbn [andb].
  destruct (negb _); reflexivity.
Qed.

End ScrapeFacts.

Module FallbackFacts.

(** When the resolver returns, lines 49-54 do what their comments say:
    without an image from the page the feed's image is used, thumbnail or
    not, and an image from the page is kept. *)
Lemma fallback_when_resolver_returns
        (urljoin : string -> string -> exc + string)
        (fetch : string -> exc + soup)
        (article_url : string) (rss_image : option string) (page : soup) :
  fetch article_url = inr page ->
  (forall feed : string,
      rss_image = Some feed ->
      PyStr.truthy feed = true ->
      _extract_image urljoin (decompose_unwanted page) article_url
      = inr None ->
      scrape_article urljoin fetch article_url rss_image
      = inr [("content", _extract_content (decompose_unwanted page));
             ("image_url", Some feed)])
  /\ (forall found : string,
         _extract_image urljoin (decompose_unwanted page) article_url
         = inr (Some found) ->
         PyStr.truthy found = true ->
         scrape_article urljoin fetch article_url rss_image
         = inr [("content", _extract_content (decompose_unwanted page));
                ("image_url", Some found)]).
Proof.
  intros Hfetch. split.
  - intros feed -> Hfeed Hnone.
    rewrite (scrape_article_image_returns urljoin fetch article_url
               (Some feed) page None Hfetch Hnone).
    unfold Notions.final_image. simpl. rewrite Hfeed. reflexivity.
  - intros found Hfound Ht.
    rewrite (scrape_article_image_returns urljoin fetch article_url
               rss_image page (Some found) Hfetch Hfound).
    unfold Notions.final_image. simpl. rewrite Ht. reflexivity.
Qed.

End FallbackFacts.

(** C5, at a page on which the code departs from it.  [broken_src_page]
    holds none of the unwanted elements and one image, whose source
    [urljoin] rejects.  The two metadata lookups and the selector tier end
    without an image URL, and the brute-force tier produces none either: it
    raises the [ValueError] of [urljoin].  The feed supplies an image, but
    the exception ends the [try] before the fallback of lines 49-54, and
    the final [image_url] is [None], not the feed's image.  On [logo_page],
    where no strategy raises, the same call gives the feed's image. *)
Theorem scrape_article_feed_image_lost :
  decompose_unwanted Notions.broken_src_page = Notions.broken_src_page
  /\ metadata_image PyUrl.urljoin
                    (Bs4.find "meta" "property" "og:image"
                              (Bs4.document Notions.broken_src_page))
                    Notions.article_1 = inr None
  /\ metadata_image PyUrl.urljoin
                    (Bs4.find "meta" "name" "twitter:image"
                              (Bs4.document Notions.broken_src_page))
                    Notions.article_1 = inr None
  /\ selector_tier PyUrl.urljoin (Bs4.document Notions.broken_src_page)
                   Notions.article_1 image_selectors = inr None
  /\ brute_force_tier PyUrl.urljoin
                      (Bs4.find_all ["img"]
                                    (Bs4.document Notions.broken_src_page))
                      Notions.article_1 = inl ValueError
  /\ PyStr.truthy Notions.feed_thumbnail = true
  /\ scrape_article PyUrl.urljoin (fun _ => inr Notions.broken_src_page)
                    Notions.article_1 (Some Notions.feed_thumbnail)
     = inr [("content", None); ("image_url", None)]
  /\ scrape_article PyUrl.urljoin (fun _ => inr Notions.logo_page)
                    Notions.article_1 (Some Notions.feed_thumbnail)
     = inr [("content", None); ("image_url", Some Notions.feed_thumbnail)].
Proof.
  repeat split; vm_compute; reflexivity.
Qed.

(** C9.  [scrape_article] is total: for every article URL and feed image,
    whatever the request, the parser or [urljoin] do, it returns (it does
    not raise) a dictionary whose keys are exactly ['content'] and
    ['image_url']; and when the fetch or the parse fails both values are
    [None], also when the feed supplied an image. *)
Theorem scrape_article_total
        (urljoin : string -> string -> exc + string)
        (fetch : string -> exc + soup)
        (article_url : string) (rss_image : option string) :
  (exists result : dict,
      scrape_article urljoin fetch article_url rss_image = inr result
      /\ keys result = ["content"; "image_url"])
  /\ (forall e : exc,
         fetch article_url = inl e ->
         scrape_article urljoin fetch article_url rss_image
         = inr [("content", None); ("image_url", None)]).
Proof.
  split.
  - destruct (fetch article_url) as [e|page] eqn:Hfetch.
    + eexists. split;
        [apply (scrape_article_fetch_fails urljoin fetch _ _ e Hfetch)|].
      reflexivity.
    + destruct (_extract_image urljoin (decompose_unwanted page) article_url)
        as [e|found] eqn:Himg.
      * eexists. split;
          [apply (scrape_article_image_raises urljoin fetch _ _ page e
                                              Hfetch Himg)|].
        reflexivity.
      * eexists. split;
          [apply (scrape_article_image_returns urljoin fetch _ _ page found
                                               Hfetch Himg)|].
        reflexivity.
  - intros e Hfetch.
    apply (scrape_article_fetch_fails urljoin fetch _ _ e Hfetch).
Qed.

Lemma scrape_article_total_witness :
  scrape_article PyUrl.urljoin (fun _ => inl RequestException)
                 Notions.article_1 (Some Notions.feed_thumbnail)
  = inr [("content", None); ("image_url", None)].
Proof.
  apply (proj2 (scrape_article_total
                  PyUrl.urljoin (fun _ => inl RequestException)
                  Notions.article_1 (Some Notions.feed_thumbnail))
               RequestException).
  reflexivity.
Defined.

(** ** [update_article_content] *)

Module StorageFacts.

Import Storage.

Lemma update_where_url_nth (url : string) (f : article -> article)
      (rows : list article) (i : nat) :
  nth_error (update_where_url url f rows) i
  = option_map (fun r => if String.eqb (article_url r) url then f r else r)
               (nth_error rows i).
Proof.
  unfold update_where_url. apply nth_error_map.
Qed.

End StorageFacts.

(** C10.  [update_article_content] with a falsy image ([None] or the empty
    string) writes only the column [original_content] of the rows whose
    [article_url] is the given one: in every row the image, the rewritten
    content, the status and all the other columns are what they were, no
    row is added or removed, and the other table is untouched. *)
Theorem update_article_content_keeps_image
        (db : Storage.database) (url : string)
        (content image : option string) (i : nat) (row : Storage.article) :
  truthy_opt image = false ->
  nth_error (Storage.articles db) i = Some row ->
  let db' := Storage.update_article_content db url content image in
  Storage.processing_log db' = Storage.processing_log db
  /\ List.length (Storage.articles db') = List.length (Storage.articles db)
  /\ exists row' : Storage.article,
      nth_error (Storage.articles db') i = Some row'
      /\ Storage.original_content row'
         = (if String.eqb (Storage.article_url row) url then content
            else Storage.original_content row)
      /\ Storage.image_url row' = Storage.image_url row
      /\ Storage.rewritten_content row' = Storage.rewritten_content row
      /\ Storage.status row' = Storage.status row
      /\ Storage.id row' = Storage.id row
      /\ Storage.article_url row' = Storage.article_url row
      /\ Storage.feed_name row' = Storage.feed_name row
      /\ Storage.title row' = Storage.title row
      /\ Storage.published_date row' = Storage.published_date row
      /\ Storage.created_at row' = Storage.created_at row
      /\ Storage.processed_at row' = Storage.processed_at row.
Proof.
  intros Himage Hrow db'. subst db'.
  unfold Storage.update_article_content. rewrite Himage. simpl.
  split; [reflexivity|]. split.
  - unfold Storage.update_where_url. apply length_map.
  - rewrite StorageFacts.update_where_url_nth, Hrow. simpl.
    eexists. split; [reflexivity|].
    destruct (String.eqb (Storage.article_url row) url); simpl;
      repeat split; reflexivity.
Qed.

Lemma update_article_content_keeps_image_witness :
  Storage.update_article_content Notions.stored "https://news.test/a/1"
                                 (Some "full text") None
  = Storage.mk_database
      [ Storage.mk_article 1 "https://news.test/a/1" "News" "One" (Some "Mon")
                           (Some "https://cdn.test/old.jpg")
                           (Some "full text")
                           (Some "rewritten") (Some "ready") (Some "t0")
                           (Some "t1");
        Storage.mk_article 2 "https://news.test/a/2" "News" "Two" None
                           None (Some "other") None (Some "pending")
                           (Some "t2") None ]
      (Storage.processing_log Notions.stored)
  /\ exists row' : Storage.article,
      nth_error (Storage.articles
                   (Storage.update_article_content
                      Notions.stored "https://news.test/a/1"
                      (Some "full text") None)) 0
      = Some row'
      /\ Storage.image_url row' = Some "https://cdn.test/old.jpg".
Proof.
  split; [reflexivity|].
  destruct (update_article_content_keeps_image
              Notions.stored "https://news.test/a/1" (Some "full text") None
              0 (hd (Storage.mk_article 0 "" "" "" None None None None None
                                        None None)
                    Notions.stored_rows)
              eq_refl eq_refl)
    as (_ & _ & row' & Hnth & _ & Himg & _).
  exists row'. split; [exact Hnth|exact Himg].
Defined.

(** * Further properties *)

(** ** Removing the unwanted elements *)

Lemma node_induction (P : node -> Prop) :
  (forall s, P (Text s)) ->
  (forall c s, P (Special c s)) ->
  (forall nm a kids, Forall P kids -> P (Tag nm a kids)) ->
  forall n, P n.
Proof.
  intros Htext Hspecial Htag. fix IH 1. intros [s|c s|nm a kids].
  - apply Htext.
  - apply Hspecial.
  - apply Htag. induction kids as [|k kids IHk]; constructor.
    + apply IH.
    + exact IHk.
Qed.

Lemma elements_names (n : node) :
  forall ancs first,
    map (fun e => Bs4.ei_name (Bs4.loc_info e)) (Bs4.elements_of ancs first n)
    = Tree.tag_names n.
Proof.
  induction n as [s|c s|nm a kids IH] using node_induction; intros ancs first.
  - reflexivity.
  - reflexivity.
  - simpl. f_equal.
    generalize (@nil string) at 1 as seen.
    induction IH as [|k kids Hk _ IHkids]; intros seen; [reflexivity|].
    rewrite map_app, Hk, IHkids. reflexivity.
Qed.

Lemma decompose_clean (n : node) :
  is_unwanted n = false -> Tree.clean (decompose_in n) = true.
Proof.
  induction n as [s|c s|nm a kids IH] using node_induction; intros Hn.
  - reflexivity.
  - reflexivity.
  - unfold is_unwanted in Hn. cbn [decompose_in Tree.clean].
    rewrite Hn. cbn [negb andb].
    induction IH as [|k kids Hk _ IHkids]; [reflexivity|].
    destruct (is_unwanted k) eqn:E; [exact IHkids|].
    rewrite (Hk eq_refl), IHkids. reflexivity.
Qed.

Lemma clean_names (n : node) :
  Tree.clean n = true ->
  Forall (fun nm => Bs4.mem nm unwanted_elements = false) (Tree.tag_names n).
Proof.
  induction n as [s|c s|nm a kids IH] using node_induction; intros Hc.
  - constructor.
  - constructor.
  - cbn [Tree.clean Tree.tag_names] in Hc |- *.
    apply andb_true_iff in Hc as [Hnm Hkids].
    constructor; [apply negb_true_iff, Hnm|].
    induction IH as [|k kids Hk _ IHkids]; [constructor|].
    apply andb_true_iff in Hkids as [Hck Hrest].
    apply Forall_app. split; [apply Hk, Hck|apply IHkids, Hrest].
Qed.

Lemma clean_wanted (n : node) : Tree.clean n = true -> is_unwanted n = false.
Proof.
  destruct n as [s|c s|nm a kids]; [reflexivity|reflexivity|].
  cbn [Tree.clean is_unwanted]. intros H.
  apply andb_true_iff in H as [H _]. apply negb_true_iff, H.
Qed.

Lemma clean_fixed (n : node) :
  Tree.clean n = true -> decompose_in n = n.
Proof.
  induction n as [s|c s|nm a kids IH] using node_induction; intros Hc.
  - reflexivity.
  - reflexivity.
  - cbn [Tree.clean decompose_in] in Hc |- *.
    apply andb_true_iff in Hc as [_ Hkids]. f_equal.
    induction IH as [|k kids Hk _ IHkids]; [reflexivity|].
    apply andb_true_iff in Hkids as [Hck Hrest].
    rewrite (clean_wanted k Hck), (Hk Hck), (IHkids Hrest). reflexivity.
Qed.

Lemma document_wanted (page : soup) : is_unwanted (Bs4.document page) = false.
Proof. reflexivity. Qed.

Lemma decompose_document (page : soup) :
  decompose_in (Bs4.document page) = Bs4.document (decompose_unwanted page).
Proof. reflexivity. Qed.

Lemma filter_none (names : list string) (es : list Bs4.located) :
  Forall (fun nm => Bs4.mem nm names = false)
         (map (fun e => Bs4.ei_name (Bs4.loc_info e)) es) ->
  filter (fun e => Bs4.mem (Bs4.ei_name (Bs4.loc_info e)) names) es = [].
Proof.
  induction es as [|x es IH]; [reflexivity|].
  cbn [map filter]. intros H. inversion H as [|? ? Hx Hrest]; subst.
  rewrite Hx. apply IH, Hrest.
Qed.

(** X1.  After the unwanted elements are removed, the query that found
    them finds nothing: no [script], [style], [nav], [header], [footer],
    [aside], [iframe], [noscript] or [form] is left anywhere in the page. *)
Theorem decompose_unwanted_leaves_none (page : soup) :
  Bs4.find_all unwanted_elements (Bs4.document (decompose_unwanted page)) = [].
Proof.
  unfold Bs4.find_all, Bs4.descendants.
  rewrite <- decompose_document.
  pose proof (clean_names _ (decompose_clean _ (document_wanted page))) as H.
  rewrite <- (elements_names _ [] true) in H.
  destruct (Bs4.elements_of [] true (decompose_in (Bs4.document page)))
    as [|e es]; [reflexivity|].
  cbn [tl]. cbn [map] in H. inversion H as [|? ? _ Hes]; subst.
  rewrite (filter_none _ _ Hes). reflexivity.
Qed.

Lemma names_clean (n : node) :
  Forall (fun nm => Bs4.mem nm unwanted_elements = false) (Tree.tag_names n) ->
  Tree.clean n = true.
Proof.
  induction n as [s|c s|nm a kids IH] using node_induction; intros H.
  - reflexivity.
  - reflexivity.
  - cbn [Tree.clean Tree.tag_names] in H |- *.
    inversion H as [|? ? Hnm Hkids]; subst. rewrite Hnm. cbn [negb andb].
    clear H. revert Hkids.
    induction IH as [|k kids Hk _ IHkids]; intros Hkids; [reflexivity|].
    apply Forall_app in Hkids as [H1 H2].
    rewrite (Hk H1), (IHkids H2). reflexivity.
Qed.

Lemma filter_nil (names : list string) (es : list Bs4.located) :
  filter (fun e => Bs4.mem (Bs4.ei_name (Bs4.loc_info e)) names) es = [] ->
  Forall (fun nm => Bs4.mem nm names = false)
         (map (fun e => Bs4.ei_name (Bs4.loc_info e)) es).
Proof.
  induction es as [|x es IH]; cbn [filter map]; [constructor|].
  destruct (Bs4.mem (Bs4.ei_name (Bs4.loc_info x)) names) eqn:E;
    [discriminate|].
  intros H. constructor; [exact E|apply IH, H].
Qed.

(** X2.  Removing the unwanted elements is idempotent, and it leaves a
    page in which the query finds none of them exactly as it is. *)
Theorem decompose_unwanted_only_unwanted (page : soup) :
  decompose_unwanted (decompose_unwanted page) = decompose_unwanted page
  /\ (Bs4.find_all unwanted_elements (Bs4.document page) = [] ->
      decompose_unwanted page = page).
Proof.
  split.
  - pose proof (clean_fixed _ (decompose_clean _ (document_wanted page))) as H.
    rewrite decompose_document in H.
    unfold decompose_unwanted at 1. rewrite H. reflexivity.
  - intros Hnone. unfold decompose_unwanted.
    rewrite (clean_fixed (Bs4.document page)); [reflexivity|].
    apply names_clean. rewrite <- (elements_names _ [] true).
    unfold Bs4.find_all, Bs4.descendants in Hnone.
    destruct (Bs4.elements_of [] true (Bs4.document page)) as [|e es] eqn:E;
      [constructor|].
    assert (Bs4.ei_name (Bs4.loc_info e) = "[document]") as He.
    { unfold Bs4.document in E. cbn [Bs4.elements_of] in E.
      injection E as <- _. reflexivity. }
    cbn [map tl] in Hnone |- *. constructor; [rewrite He; reflexivity|].
    apply filter_nil.
    destruct (filter _ es) eqn:F; [reflexivity|discriminate].
Qed.

Lemma decompose_unwanted_only_unwanted_witness :
  decompose_unwanted Notions.short_page = Notions.short_page.
Proof.
  apply (proj2 (decompose_unwanted_only_unwanted Notions.short_page)).
  reflexivity.
Defined.

(** ** More on the content extractor *)

Lemma content_loop_none (page : node) (selectors : list string) :
  forall content : option string,
    content_loop page selectors content = None
    <-> content = None
        /\ forall selector, In selector selectors ->
                            Bs4.select_one selector page = None.
Proof.
  induction selectors as [|sel rest IH]; intros content; simpl.
  - split; [intros H; split; [exact H|intros ? []]|intros [H _]; exact H].
  - destruct (Bs4.select_one sel page) as [elem|] eqn:E.
    + split.
      * intros H.
        destruct (PyStr.truthy (container_text elem)
                  && (200 <? String.length (container_text elem))%nat);
          [discriminate|].
        apply IH in H as [H _]. discriminate.
      * intros [_ H]. specialize (H sel (or_introl eq_refl)). congruence.
    + rewrite IH. split.
      * intros [Hc H]. split; [exact Hc|].
        intros s [<-|Hin]; [exact E|apply H, Hin].
      * intros [Hc H]. split; [exact Hc|]. intros s Hin. apply H. right. exact Hin.
Qed.

(** X3.  [_extract_content] returns [None] exactly when no content
    selector matches anything on the page. *)
Theorem extract_content_none_iff_no_match (page : soup) :
  _extract_content page = None
  <-> forall selector, In selector content_selectors ->
                       Bs4.select_one selector (Bs4.document page) = None.
Proof.
  unfold _extract_content.
  pose proof (content_loop_none (Bs4.document page) content_selectors None) as H.
  destruct (content_loop (Bs4.document page) content_selectors None)
    as [c|] eqn:E.
  - split.
    + destruct (PyStr.truthy c); discriminate.
    + intros Hall. destruct H as [_ H]. specialize (H (conj eq_refl Hall)).
      discriminate.
  - split; [intros _; apply H; reflexivity|reflexivity].
Qed.

(** X4.  The text [_extract_content] returns is always in the form the
    clean-up produces: lines that are stripped, not empty and free of line
    breaks, joined by one blank line; the clean-up leaves it as it is. *)
Theorem extract_content_is_settled (page : soup) (content : string) :
  _extract_content page = Some content ->
  (exists lines : list string,
      Forall Notions.settled lines
      /\ content = PyStr.join Notions.paragraph_break lines)
  /\ collapse_blank_lines content = content.
Proof.
  unfold _extract_content.
  destruct (content_loop (Bs4.document page) content_selectors None)
    as [c|]; [|discriminate].
  destruct (PyStr.truthy c) eqn:Ht; intros H; injection H as <-.
  - split.
    + eexists. split; [apply (CollapseFacts.lines_settled c)|].
      apply CollapseFacts.collapse_unfold.
    + rewrite (CollapseFacts.collapse_unfold c).
      apply CollapseFacts.collapse_settled, CollapseFacts.lines_settled.
  - destruct c; [|discriminate]. split; [|reflexivity].
    exists []. split; [constructor|reflexivity].
Qed.

Lemma extract_content_is_settled_witness :
  (exists lines : list string,
      Forall Notions.settled lines
      /\ "Subscribe to our newsletter"
         = PyStr.join Notions.paragraph_break lines)
  /\ collapse_blank_lines "Subscribe to our newsletter"
     = "Subscribe to our newsletter".
Proof.
  apply (extract_content_is_settled Notions.short_page). reflexivity.
Defined.

(** ** More on the thumbnail upgrade *)

Module ReFacts.
Import Re ReSearch.

Lemma length_app (a b : string) :
  String.length (a ++ b) = String.length a + String.length b.
Proof. induction a as [|c a IH]; simpl; [reflexivity|]. rewrite IH. reflexivity. Qed.

Lemma digits_then_bounds (k : string -> option nat) (lo : nat) (s : string) :
  (forall s' m, k s' = Some m -> lo <= m <= String.length s') ->
  forall n, digits_then k s = Some n -> S lo <= n <= String.length s.
Proof.
  intros Hk. induction s as [|c s IH]; intros n; simpl; [discriminate|].
  destruct (PyStr.isdigit c); [|discriminate].
  destruct (digits_then k s) as [m|] eqn:E.
  - intros H. injection H as <-. specialize (IH m eq_refl). lia.
  - destruct (k s) as [m|] eqn:Ek; simpl; [|discriminate].
    intros H. injection H as <-. specialize (Hk s m Ek). lia.
Qed.

(** A match is at least as long as the pattern and no longer than the
    string. *)
Lemma match_here_bounds (p : list atom) :
  forall s n, match_here p s = Some n ->
              List.length p <= n <= String.length s.
Proof.
  induction p as [|a p IH]; intros s n; simpl.
  - intros H. injection H as <-. lia.
  - destruct a as [c|].
    + destruct s as [|b s]; [discriminate|].
      destruct (Ascii.eqb b c); [|discriminate].
      destruct (match_here p s) as [m|] eqn:E; simpl; [|discriminate].
      intros H. injection H as <-. specialize (IH s m E). simpl. lia.
    + intros H.
      apply (digits_then_bounds (match_here p) (List.length p) s IH n H).
Qed.

Lemma sub_from_skip (p : list atom) (repl : string) (s : string) :
  forall skip, String.length s <= skip -> sub_from p repl skip s = "".
Proof.
  induction s as [|c s IH]; intros skip H; simpl; [reflexivity|].
  destruct skip as [|k]; [simpl in H; lia|]. apply IH. simpl in H. lia.
Qed.

(** Without an occurrence of the pattern the text is left as it is. *)
Lemma sub_no_occurrence (p : list atom) (repl s : string) :
  occurs p s = false -> sub p repl s = s.
Proof.
  unfold sub. induction s as [|c s IH]; simpl; [reflexivity|].
  destruct (match_here p (String c s)) as [[|n]|] eqn:E;
    try discriminate; intros H; rewrite (IH H); reflexivity.
Qed.

(** The length of the result, when the replacement is no longer than the
    pattern. *)
Lemma sub_from_length (p : list atom) (repl : string) (s : string) :
  String.length repl <= List.length p ->
  forall skip, skip <= String.length s ->
    String.length (sub_from p repl skip s) + skip <= String.length s.
Proof.
  intros Hrepl. induction s as [|c s IH]; intros skip Hskip; simpl.
  - simpl in Hskip. lia.
  - destruct skip as [|k].
    + destruct (match_here p (String c s)) as [[|n]|] eqn:E.
      * simpl. specialize (IH 0 ltac:(lia)). lia.
      * pose proof (match_here_bounds p _ _ E) as B. simpl in B.
        rewrite length_app.
        specialize (IH n ltac:(lia)). lia.
      * simpl. specialize (IH 0 ltac:(lia)). lia.
    + simpl in Hskip. specialize (IH k ltac:(lia)). lia.
Qed.

(** With an occurrence, and a replacement shorter than the pattern, the
    result is shorter than the text. *)
Lemma sub_occurrence_shorter (p : list atom) (repl : string) (s : string) :
  String.length repl < List.length p ->
  occurs p s = true ->
  String.length (sub p repl s) < String.length s.
Proof.
  intros Hrepl. unfold sub. induction s as [|c s IH]; simpl.
  - destruct (match_here p "") as [[|n]|] eqn:E; try discriminate.
    pose proof (match_here_bounds p _ _ E) as B. simpl in B. lia.
  - destruct (match_here p (String c s)) as [[|n]|] eqn:E.
    + intros H. simpl. specialize (IH H). lia.
    + intros _. pose proof (match_here_bounds p _ _ E) as B. simpl in B.
      rewrite length_app.
      pose proof (sub_from_length p repl s ltac:(lia) n ltac:(lia)). lia.
    + intros H. simpl. specialize (IH H). lia.
Qed.

Lemma sub_truthy (p : list atom) (repl s : string) :
  PyStr.truthy repl = true -> PyStr.truthy s = true ->
  PyStr.truthy (sub p repl s) = true.
Proof.
  intros Hr Hs. destruct s as [|c s]; [discriminate|].
  unfold sub. simpl.
  destruct (match_here p (String c s)) as [[|n]|]; try reflexivity.
  destruct repl; [discriminate|reflexivity].
Qed.

End ReFacts.

Lemma eqb_length (a b : string) :
  String.length a < String.length b -> String.eqb a b = false.
Proof.
  intros H. apply String.eqb_neq. intros ->. lia.
Qed.

(** X5.  [_upgrade_thumbnail_url] is best effort: a URL in which neither
    [/w<digits>/] nor [-<digits>x<digits>.] occurs is returned as it is; a
    URL in which one of them occurs comes back strictly shorter; and a
    non-empty URL never becomes empty. *)
Theorem upgrade_thumbnail_url_best_effort (url : string) :
  (ReSearch.occurs width_segment url = false ->
   ReSearch.occurs dimension_suffix url = false ->
   _upgrade_thumbnail_url url = url)
  /\ (ReSearch.occurs width_segment url = true
      \/ ReSearch.occurs dimension_suffix url = true ->
      String.length (_upgrade_thumbnail_url url) < String.length url)
  /\ (PyStr.truthy url = true ->
      PyStr.truthy (_upgrade_thumbnail_url url) = true).
Proof.
  unfold _upgrade_thumbnail_url.
  destruct (PyStr.truthy url) eqn:Ht; cbn [negb].
  2: { destruct url; [|discriminate]. repeat split; auto.
       intros [H|H]; discriminate H. }
  split; [|split].
  - intros Hw Hd.
    rewrite (ReFacts.sub_no_occurrence _ _ _ Hw), String.eqb_refl. cbn [negb].
    apply (ReFacts.sub_no_occurrence _ _ _ Hd).
  - intros H.
    destruct (ReSearch.occurs width_segment url) eqn:Hw.
    + pose proof (ReFacts.sub_occurrence_shorter width_segment "/" url
                    ltac:(simpl; lia) Hw) as Hlt.
      rewrite (eqb_length _ _ Hlt). cbn [negb]. exact Hlt.
    + rewrite (ReFacts.sub_no_occurrence _ _ _ Hw), String.eqb_refl.
      cbn [negb]. destruct H as [H|H]; [discriminate|].
      apply (ReFacts.sub_occurrence_shorter dimension_suffix "." url
               ltac:(simpl; lia) H).
  - intros _.
    destruct (negb (String.eqb (Re.sub width_segment "/" url) url));
      apply ReFacts.sub_truthy; auto.
Qed.

Lemma upgrade_thumbnail_url_best_effort_witness :
  _upgrade_thumbnail_url "https://cdn.test/thumb/x.jpg"
  = "https://cdn.test/thumb/x.jpg"
  /\ String.length (_upgrade_thumbnail_url "https://x.com/img/w150/photo.jpg")
     < String.length "https://x.com/img/w150/photo.jpg".
Proof.
  split.
  - apply (proj1 (upgrade_thumbnail_url_best_effort
                    "https://cdn.test/thumb/x.jpg")); reflexivity.
  - apply (proj1 (proj2 (upgrade_thumbnail_url_best_effort
                           "https://x.com/img/w150/photo.jpg"))).
    left. reflexivity.
Defined.

(** ** More on the image resolver *)

Module TierFacts.

Lemma truthy_opt_some (o : option string) :
  truthy_opt o = true ->
  exists s, o = Some s /\ PyStr.truthy s = true.
Proof.
  destruct o as [s|]; [|discriminate]. intros H. exists s. auto.
Qed.

End TierFacts.

(** X6.  What the selector tier returns is the resolved source of the
    first element some image selector matches, and that element declares no
    width or a width that parses to more than 200. *)
Theorem selector_tier_sound
        (urljoin : string -> string -> exc + string) (page : node) (article_url : string)
      (selectors : list string) (url : string) :
  selector_tier urljoin page article_url selectors = inr (Some url) ->
  exists (selector : string) (img : node),
    In selector selectors
    /\ Bs4.select_one selector page = Some img
    /\ Accept.resolves_to urljoin article_url img url
    /\ Accept.accepts_width 200 img.
Proof.
  induction selectors as [|sel rest IH]; cbn [selector_tier]; [discriminate|].
  assert (Hrest : selector_tier urljoin page article_url rest = inr (Some url) ->
                  exists selector img,
                    (sel = selector \/ In selector rest)
                    /\ Bs4.select_one selector page = Some img
                    /\ Accept.resolves_to urljoin article_url img url
                    /\ Accept.accepts_width 200 img).
  { intros H. destruct (IH H) as (s & i & Hin & Hrest). exists s, i. tauto. }
  destruct (Bs4.select_one sel page) as [img|] eqn:Hsel; [|exact Hrest].
  destruct (truthy_opt (image_source img)) eqn:Hsrc; [|exact Hrest].
  apply TierFacts.truthy_opt_some in Hsrc as (src & Hsrc & Htsrc). rewrite Hsrc.
  destruct (urljoin article_url src) as [e|u] eqn:Hu; [discriminate|].
  destruct (truthy_opt (Bs4.get "width" img)) eqn:Hw.
  - apply TierFacts.truthy_opt_some in Hw as (w & Hw & Htw). rewrite Hw.
    destruct (PyInt.int w) as [e|n] eqn:Hint.
    + destruct e; [exact Hrest|discriminate|discriminate].
    + destruct (200 <? n)%Z eqn:Hn; [|exact Hrest].
      intros H. injection H as <-. exists sel, img.
      split; [left; reflexivity|]. split; [exact Hsel|].
      split; [exists src; auto|].
      right. exists w, n. repeat split; auto. apply Z.ltb_lt, Hn.
  - intros H. injection H as <-. exists sel, img.
    split; [left; reflexivity|]. split; [exact Hsel|].
    split; [exists src; auto|]. left. exact Hw.
Qed.

Lemma selector_tier_sound_witness :
  exists (selector : string) (img : node),
    In selector image_selectors
    /\ Bs4.select_one selector (Bs4.document Notions.absent_width_page)
       = Some img
    /\ Accept.resolves_to PyUrl.urljoin Notions.article_1 img
                          "https://news.test/a/a.jpg"
    /\ Accept.accepts_width 200 img.
Proof.
  apply (selector_tier_sound PyUrl.urljoin
                             (Bs4.document Notions.absent_width_page)
                             Notions.article_1 image_selectors).
  reflexivity.
Defined.

(** X7.  What the brute-force tier returns holds none of the skip keywords
    (in any letter case) and is the resolved source of an image that
    declares no width or a width that parses to more than 300. *)
Theorem brute_force_tier_sound
        (urljoin : string -> string -> exc + string) (imgs : list node) (article_url url : string) :
  brute_force_tier urljoin imgs article_url = inr (Some url) ->
  existsb (fun skip => PyStr.contains skip (PyStr.lower url)) skip_keywords
  = false
  /\ exists img : node,
      In img imgs
      /\ Accept.resolves_to urljoin article_url img url
      /\ Accept.accepts_width 300 img.
Proof.
  induction imgs as [|img rest IH]; cbn [brute_force_tier]; [discriminate|].
  assert (Hrest : brute_force_tier urljoin rest article_url = inr (Some url) ->
                  existsb (fun skip => PyStr.contains skip (PyStr.lower url))
                          skip_keywords = false
                  /\ exists i, (img = i \/ In i rest)
                               /\ Accept.resolves_to urljoin article_url i url
                               /\ Accept.accepts_width 300 i).
  { intros H. destruct (IH H) as (Hk & i & Hin & Hr). split; [exact Hk|].
    exists i. tauto. }
  destruct (truthy_opt (image_source img)) eqn:Hsrc; [|exact Hrest].
  apply TierFacts.truthy_opt_some in Hsrc as (src & Hsrc & Htsrc). rewrite Hsrc.
  destruct (urljoin article_url src) as [e|u] eqn:Hu; [discriminate|].
  destruct (existsb (fun skip => PyStr.contains skip (PyStr.lower u))
                    skip_keywords) eqn:Hskip; [exact Hrest|].
  destruct (truthy_opt (Bs4.get "width" img)) eqn:Hw.
  - apply TierFacts.truthy_opt_some in Hw as (w & Hw & Htw). rewrite Hw.
    destruct (PyInt.int w) as [e|n] eqn:Hint.
    + destruct e; [exact Hrest|discriminate|discriminate].
    + destruct (300 <? n)%Z eqn:Hn; [|exact Hrest].
      intros H. injection H as <-. split; [exact Hskip|]. exists img.
      split; [left; reflexivity|]. split; [exists src; auto|].
      right. exists w, n. repeat split; auto. apply Z.ltb_lt, Hn.
  - intros H. injection H as <-. split; [exact Hskip|]. exists img.
    split; [left; reflexivity|]. split; [exists src; auto|]. left. exact Hw.
Qed.

Lemma brute_force_tier_sound_witness :
  existsb (fun skip => PyStr.contains skip
                         (PyStr.lower "https://news.test/body.jpg"))
          skip_keywords = false
  /\ exists img : node,
      In img (Bs4.find_all ["img"] (Bs4.document Notions.two_og_page))
      /\ Accept.resolves_to PyUrl.urljoin Notions.article_1 img
                            "https://news.test/body.jpg"
      /\ Accept.accepts_width 300 img.
Proof.
  apply (brute_force_tier_sound
           PyUrl.urljoin
           (Bs4.find_all ["img"] (Bs4.document Notions.two_og_page))
           Notions.article_1).
  reflexivity.
Defined.



(** X8.  When the page has no [og:image] tag, or its first one has no
    content, and its first [twitter:image] tag has content that [urljoin]
    resolves, the resolver returns that URL, upgraded once if the heuristic
    calls it a thumbnail. *)
Theorem extract_image_twitter_fallback
        (urljoin : string -> string -> exc + string) (page : soup)
        (article_url : string) (tag : node) (c u : string) :
  (Bs4.find "meta" "property" "og:image" (Bs4.document page) = None
   \/ exists og, Bs4.find "meta" "property" "og:image" (Bs4.document page)
                 = Some og
                 /\ truthy_opt (Bs4.get "content" og) = false) ->
  Bs4.find "meta" "name" "twitter:image" (Bs4.document page) = Some tag ->
  Bs4.get "content" tag = Some c ->
  PyStr.truthy c = true ->
  urljoin article_url c = inr u ->
  _extract_image urljoin page article_url
  = inr (Some (if _is_thumbnail_url u then _upgrade_thumbnail_url u else u)).
Proof.
  intros Hog Htw Hc Ht Hu. unfold _extract_image. cbv zeta.
  assert (metadata_image urljoin
            (Bs4.find "meta" "property" "og:image" (Bs4.document page))
            article_url = inr None) as ->.
  { destruct Hog as [->|(og & -> & Hfalsy)]; [reflexivity|].
    unfold metadata_image.
    destruct (Bs4.get "content" og) as [s|]; [|reflexivity].
    simpl in Hfalsy. rewrite Hfalsy. reflexivity. }
  rewrite Htw, (metadata_image_found urljoin tag article_url c u Hc Ht Hu).
  reflexivity.
Qed.

Lemma extract_image_twitter_fallback_witness :
  _extract_image PyUrl.urljoin Samples.twitter_page Notions.article_1
  = inr (Some "https://news.test/img/card.jpg").
Proof.
  apply (extract_image_twitter_fallback
           PyUrl.urljoin Samples.twitter_page Notions.article_1
           (Tag "meta" [("name", "twitter:image");
                        ("content", "/img/card.jpg")] [])
           "/img/card.jpg" "https://news.test/img/card.jpg");
    try reflexivity.
  left. reflexivity.
Defined.


(** X9.  When [urljoin] rejects the content of the page's [og:image] tag,
    the exception ends the [try]: [scrape_article] returns the content it
    had extracted, leaves [image_url] at [None] and does not use the feed's
    image. *)
Theorem scrape_article_image_error_keeps_content
        (urljoin : string -> string -> exc + string)
        (fetch : string -> exc + soup)
        (article_url : string) (rss_image : option string) (page : soup)
        (tag : node) (c : string) (e : exc) :
  fetch article_url = inr page ->
  Bs4.find "meta" "property" "og:image"
           (Bs4.document (decompose_unwanted page)) = Some tag ->
  Bs4.get "content" tag = Some c ->
  PyStr.truthy c = true ->
  urljoin article_url c = inl e ->
  scrape_article urljoin fetch article_url rss_image
  = inr [("content", _extract_content (decompose_unwanted page));
         ("image_url", None)].
Proof.
  intros Hfetch Hfind Hc Ht He.
  apply (scrape_article_image_raises urljoin fetch _ _ page e Hfetch).
  unfold _extract_image. cbv zeta. rewrite Hfind.
  rewrite (metadata_image_raises urljoin tag article_url c e Hc Ht He).
  reflexivity.
Qed.

Lemma scrape_article_image_error_keeps_content_witness :
  scrape_article PyUrl.urljoin (fun _ => inr Samples.broken_og_page)
                 Notions.article_1 (Some Notions.feed_thumbnail)
  = inr [("content", Some "Some text"); ("image_url", None)].
Proof.
  apply (scrape_article_image_error_keeps_content
           PyUrl.urljoin (fun _ => inr Samples.broken_og_page)
           Notions.article_1 (Some Notions.feed_thumbnail)
           Samples.broken_og_page (Notions.og_image "http://[broken")
           "http://[broken" ValueError);
    reflexivity.
Defined.

(** ** The exceptions of the resolver *)

Module RaiseFacts.

Section Tiers.

Variable urljoin : string -> string -> exc + string.
Variable article_url : string.


Lemma metadata_image_raises_urljoin (tag : option node) (e : exc) :
  metadata_image urljoin tag article_url = inl e ->
  exists u, urljoin article_url u = inl e.
Proof.
  unfold metadata_image.
  destruct tag as [t|]; [|discriminate].
  destruct (Bs4.get "content" t) as [c|]; [|discriminate].
  destruct (PyStr.truthy c); [|discriminate].
  destruct (urljoin article_url c) as [e'|u] eqn:E.
  - intros H. injection H as <-. exists c. exact E.
  - destruct (_is_thumbnail_url u); discriminate.
Qed.

Lemma selector_tier_raises_urljoin (page : node) (selectors : list string)
      (e : exc) :
  selector_tier urljoin page article_url selectors = inl e ->
  exists u, urljoin article_url u = inl e.
Proof.
  induction selectors as [|selector rest IH]; cbn [selector_tier];
    [discriminate|].
  destruct (Bs4.select_one selector page) as [img|]; [|exact IH].
  destruct (truthy_opt (image_source img)); [|exact IH].
  destruct (urljoin article_url _) as [e'|u] eqn:E.
  - intros H. injection H as <-. eexists. exact E.
  - destruct (truthy_opt (Bs4.get "width" img)); [|discriminate].
    destruct (PyInt.int _) as [e'|n] eqn:Hint.
    + rewrite (PyIntFacts.int_raises _ _ Hint). exact IH.
    + destruct (200 <? n)%Z; [discriminate|exact IH].
Qed.

Lemma brute_force_tier_raises_urljoin (imgs : list node) (e : exc) :
  brute_force_tier urljoin imgs article_url = inl e ->
  exists u, urljoin article_url u = inl e.
Proof.
  induction imgs as [|img rest IH]; cbn [brute_force_tier];
    [discriminate|].
  destruct (truthy_opt (image_source img)); [|exact IH].
  destruct (urljoin article_url _) as [e'|u] eqn:E.
  - intros H. injection H as <-. eexists. exact E.
  - destruct (existsb _ skip_keywords); [exact IH|].
    destruct (truthy_opt (Bs4.get "width" img)); [|discriminate].
    destruct (PyInt.int _) as [e'|n] eqn:Hint.
    + rewrite (PyIntFacts.int_raises _ _ Hint). exact IH.
    + destruct (300 <? n)%Z; [discriminate|exact IH].
Qed.

End Tiers.

End RaiseFacts.

(** X23.  Every exception [_extract_image] raises is one that [urljoin]
    raised for the article's URL: the [ValueError] of [int] on a width is
    caught in both tiers, and nothing else in the resolver raises. *)
Theorem extract_image_raises_only_from_urljoin
        (urljoin : string -> string -> exc + string) (page : soup)
        (article_url : string) (e : exc) :
  _extract_image urljoin page article_url = inl e ->
  exists u : string, urljoin article_url u = inl e.
Proof.
  unfold _extract_image.
  destruct (metadata_image urljoin (Bs4.find "meta" "property" "og:image" _) _)
    as [e1|[u1|]] eqn:H1.
  - intros H. injection H as <-.
    exact (RaiseFacts.metadata_image_raises_urljoin _ _ _ _ H1).
  - discriminate.
  - destruct (metadata_image urljoin (Bs4.find "meta" "name" "twitter:image" _) _)
      as [e2|[u2|]] eqn:H2.
    + intros H. injection H as <-.
      exact (RaiseFacts.metadata_image_raises_urljoin _ _ _ _ H2).
    + discriminate.
    + destruct (selector_tier urljoin _ _ _) as [e3|[u3|]] eqn:H3.
      * intros H. injection H as <-.
        exact (RaiseFacts.selector_tier_raises_urljoin _ _ _ _ _ H3).
      * discriminate.
      * apply RaiseFacts.brute_force_tier_raises_urljoin.
Qed.

Lemma extract_image_raises_only_from_urljoin_witness :
  exists u : string,
    PyUrl.urljoin "https://news.test/a/1" u = inl ValueError.
Proof.
  apply (extract_image_raises_only_from_urljoin
           PyUrl.urljoin Samples.broken_og_page "https://news.test/a/1"
           ValueError).
  reflexivity.
Defined.

(** ** The storage *)

Module DbFacts.

Import Storage Db Order.

Lemma exists_in (st : state) (url : string) :
  article_exists st url = true <-> In url (map article_url (rows st)).
Proof.
  unfold article_exists. rewrite existsb_exists, in_map_iff. split.
  - intros (r & Hin & He). apply String.eqb_eq in He. exists r. auto.
  - intros (r & He & Hin). exists r. split; [exact Hin|].
    apply String.eqb_eq, He.
Qed.

Lemma not_exists_in (st : state) (url : string) :
  article_exists st url = false <-> ~ In url (map article_url (rows st)).
Proof.
  rewrite <- exists_in. destruct (article_exists st url); split;
    congruence.
Qed.

Lemma fold_max_ge (ids : list Z) (x : Z) :
  In x ids -> (x <= fold_right Z.max 0 ids)%Z.
Proof.
  induction ids as [|y ids IH]; simpl; [contradiction|].
  intros [->|H]; [lia|]. specialize (IH H). lia.
Qed.

(** The next key is above the counter and above every key of the table. *)
Lemma next_rowid_fresh (seq : Z) (ids : list Z) :
  (seq < next_rowid seq ids)%Z
  /\ forall x, In x ids -> (x < next_rowid seq ids)%Z.
Proof.
  unfold next_rowid. split; [lia|].
  intros x H. pose proof (fold_max_ge ids x H). lia.
Qed.

(** An update in place keeps the URLs and the keys where they are. *)
Lemma update_keeps_urls (url : string) (f : article -> article)
      (rs : list article) :
  (forall r, article_url (f r) = article_url r) ->
  map article_url (update_where_url url f rs) = map article_url rs.
Proof.
  intros Hf. unfold update_where_url. rewrite map_map.
  apply map_ext. intros r. destruct (String.eqb (article_url r) url); auto.
Qed.

Lemma update_keeps_ids (url : string) (f : article -> article)
      (rs : list article) :
  (forall r, id (f r) = id r) ->
  map id (update_where_url url f rs) = map id rs.
Proof.
  intros Hf. unfold update_where_url. rewrite map_map.
  apply map_ext. intros r. destruct (String.eqb (article_url r) url); auto.
Qed.

Lemma consistent_update (st : state) (url : string)
      (f : article -> article) :
  (forall r, article_url (f r) = article_url r) ->
  (forall r, id (f r) = id r) ->
  consistent st ->
  consistent (with_rows st (update_where_url url f (rows st))).
Proof.
  intros Hu Hi (Hurls & Hids & Hseq). unfold consistent, rows, with_rows.
  cbn [tables articles articles_seq].
  rewrite (update_keeps_urls url f _ Hu), (update_keeps_ids url f _ Hi).
  repeat split; [exact Hurls|exact Hids|].
  unfold update_where_url. apply Forall_map.
  eapply Forall_impl; [|exact Hseq]. intros r Hr. cbn beta.
  destruct (String.eqb (article_url r) url); [rewrite Hi|]; exact Hr.
Qed.

Lemma consistent_insert (now : string)
      (url feed title published image content : option string) (st : state) :
  consistent st ->
  consistent (snd (insert_or_ignore now url feed title published image
                                    content st)).
Proof.
  intros (Hurls & Hids & Hseq).
  pose proof (next_rowid_fresh (articles_seq st) (map id (rows st)))
    as [Hgt Hfresh].
  assert (Hle : Forall (fun r => (id r <= next_rowid (articles_seq st)
                                                     (map id (rows st)))%Z)
                       (rows st)).
  { eapply Forall_impl; [|exact Hseq]. intros r Hr. cbn beta in *. lia. }
  assert (Hbump : consistent (mk_state (tables st)
                      (next_rowid (articles_seq st) (map id (rows st)))
                      (log_seq st))).
  { repeat split; assumption. }
  unfold insert_or_ignore.
  destruct url as [u|]; [|exact Hbump].
  destruct feed as [f|]; [|exact Hbump].
  destruct title as [t|]; [|exact Hbump].
  destruct (article_exists st u) eqn:He; [exact Hbump|].
  apply not_exists_in in He.
  unfold consistent, rows in *. cbn [snd tables articles articles_seq].
  rewrite !map_app. cbn [map article_url id].
  repeat split.
  - apply NoDup_app; [exact Hurls|repeat constructor; auto|].
    intros a Ha [<-|[]]. exact (He Ha).
  - apply NoDup_app; [exact Hids|repeat constructor; auto|].
    intros a Ha [<-|[]]. specialize (Hfresh _ Ha). lia.
  - apply Forall_app. split; [exact Hle|].
    constructor; [cbn [id]; lia|constructor].
Qed.

(** *** Sorting and limiting *)

Lemma insert_desc_in (key : article -> option string) (r x : article)
      (l : list article) :
  In x (insert_desc key r l) <-> x = r \/ In x l.
Proof.
  induction l as [|y l IH]; simpl.
  - split; [intros [<-|[]]; auto|intros [->|[]]; auto].
  - destruct (negb (sql_leb (key y) (key r))); simpl; [rewrite IH|];
      intuition congruence.
Qed.

Lemma order_by_desc_in (key : article -> option string) (x : article)
      (l : list article) :
  In x (order_by_desc key l) <-> In x l.
Proof.
  induction l as [|y l IH]; simpl; [tauto|].
  rewrite insert_desc_in, IH. intuition congruence.
Qed.

Lemma order_by_desc_length (key : article -> option string)
      (l : list article) :
  List.length (order_by_desc key l) = List.length l.
Proof.
  induction l as [|y l IH]; simpl; [reflexivity|]. rewrite <- IH.
  generalize (order_by_desc key l) as s. intros s.
  induction s as [|z s IHs]; simpl; [reflexivity|].
  destruct (negb (sql_leb (key z) (key y))); simpl; [rewrite IHs|];
    reflexivity.
Qed.

Lemma sql_leb_total (a b : option string) :
  sql_leb a b = true \/ sql_leb b a = true.
Proof.
  destruct a as [x|], b as [y|]; simpl; auto. apply String.leb_total.
Qed.

Lemma insert_desc_sorted (key : article -> option string) (r : article)
      (l : list article) :
  descending key l -> descending key (insert_desc key r l).
Proof.
  induction l as [|x l IH]; intros Hs; simpl; [repeat constructor|].
  destruct (sql_leb (key x) (key r)) eqn:E; simpl.
  - constructor; [exact Hs|]. constructor. exact E.
  - inversion Hs as [|? ? Hl Hhd]; subst. constructor; [apply IH, Hl|].
    destruct l as [|y l]; simpl.
    + constructor. unfold not_older.
      destruct (sql_leb_total (key r) (key x)); congruence.
    + destruct (negb (sql_leb (key y) (key r))).
      * inversion Hhd; subst. constructor. assumption.
      * constructor. unfold not_older.
        destruct (sql_leb_total (key r) (key x)); congruence.
Qed.

Lemma order_by_desc_sorted (key : article -> option string)
      (l : list article) :
  descending key (order_by_desc key l).
Proof.
  induction l as [|x l IH]; simpl; [constructor|].
  apply insert_desc_sorted, IH.
Qed.

Lemma firstn_sorted (key : article -> option string) (n : nat)
      (l : list article) :
  descending key l -> descending key (firstn n l).
Proof.
  revert l. induction n as [|n IH]; intros l Hs; [constructor|].
  destruct l as [|x l]; [constructor|]. simpl.
  inversion Hs as [|? ? Hl Hhd]; subst. constructor; [apply IH, Hl|].
  destruct l as [|y l]; [destruct n; constructor|].
  destruct n; simpl; [constructor|].
  inversion Hhd; subst. constructor. assumption.
Qed.

Lemma firstn_in (n : nat) (x : article) (l : list article) :
  In x (firstn n l) -> In x l.
Proof.
  revert l. induction n as [|n IH]; intros l; [intros []|].
  destruct l as [|y l]; [intros []|]. simpl. intros [H|H]; auto.
Qed.

Lemma limit_rows_in (limit : Z) (x : article) (l : list article) :
  In x (limit_rows limit l) -> In x l.
Proof.
  unfold limit_rows. destruct (limit <? 0)%Z; [auto|].
  apply firstn_in.
Qed.

Lemma limit_rows_sorted (key : article -> option string) (limit : Z)
      (l : list article) :
  descending key l -> descending key (limit_rows limit l).
Proof.
  unfold limit_rows. destruct (limit <? 0)%Z; [auto|]. apply firstn_sorted.
Qed.

Lemma limit_rows_length (limit : Z) (l : list article) :
  (0 <= limit)%Z ->
  (Z.of_nat (List.length (limit_rows limit l)) <= limit)%Z.
Proof.
  intros H. unfold limit_rows.
  replace (limit <? 0)%Z with false by (symmetry; apply Z.ltb_ge; lia).
  pose proof (firstn_le_length (Z.to_nat limit) l). lia.
Qed.

End DbFacts.

(** X10.  After [save_article] has run on an article with a URL, a feed
    name and a title, [article_exists] finds the URL. *)
Theorem save_article_then_exists
        (now : string) (article_data : dict) (st st' : Db.state) (rowid : Z)
        (url feed title : string) :
  dict_get "url" article_data = Some (Some url) ->
  Db.get_default "feed_name" (Some "") article_data = Some feed ->
  dict_get "title" article_data = Some (Some title) ->
  Db.save_article now article_data st = inr (rowid, st') ->
  Db.article_exists st' url = true.
Proof.
  intros Hu Hf Ht. unfold Db.save_article. rewrite Hu, Ht, Hf.
  unfold Db.insert_or_ignore.
  destruct (Db.article_exists st url) eqn:He; intros H;
    injection H as _ <-.
  - exact He.
  - unfold Db.article_exists, Db.rows. cbn [Db.tables Storage.articles].
    rewrite existsb_app. cbn [existsb Storage.article_url].
    rewrite String.eqb_refl. apply orb_true_iff. right. reflexivity.
Qed.

Lemma save_article_then_exists_witness :
  Db.article_exists Samples.one_saved "https://news.test/a/1" = true.
Proof.
  apply (save_article_then_exists
           "t1" (Rss.article_dict Samples.first_article) Samples.empty_db
           Samples.one_saved 1 "https://news.test/a/1" "Marine" "One");
    reflexivity.
Defined.

(** X11.  [save_article] on a URL the table holds already inserts
    nothing and overwrites nothing: both tables are as before and the
    returned key is 0. *)
Theorem save_article_never_overwrites
        (now : string) (article_data : dict) (st st' : Db.state) (rowid : Z)
        (url : string) :
  dict_get "url" article_data = Some (Some url) ->
  Db.article_exists st url = true ->
  Db.save_article now article_data st = inr (rowid, st') ->
  rowid = 0%Z /\ Db.tables st' = Db.tables st.
Proof.
  intros Hu He. unfold Db.save_article. rewrite Hu.
  destruct (dict_get "title" article_data) as [title|]; [|discriminate].
  unfold Db.insert_or_ignore.
  destruct (Db.get_default "feed_name" (Some "") article_data) as [f|];
    destruct title as [t|]; try rewrite He;
    intros H; injection H as <- <-; split; reflexivity.
Qed.

Lemma save_article_never_overwrites_witness :
  Db.save_article "t2" (Rss.article_dict Samples.first_article)
                  Samples.one_saved
  = inr (0%Z, Db.mk_state (Db.tables Samples.one_saved) 2 0)
  /\ 0%Z = 0%Z
  /\ Db.tables (Db.mk_state (Db.tables Samples.one_saved) 2 0)
     = Db.tables Samples.one_saved.
Proof.
  split; [reflexivity|].
  apply (save_article_never_overwrites
           "t2" (Rss.article_dict Samples.first_article) Samples.one_saved
           (Db.mk_state (Db.tables Samples.one_saved) 2 0) 0
           "https://news.test/a/1");
    reflexivity.
Defined.

(** X12.  No operation of the storage breaks the table's keys: from a
    table in which no URL and no key occurs twice and no key is above the
    counter, [save_article] and every update lead to such a table again. *)
Theorem storage_stays_consistent (st : Db.state) :
  Db.consistent st ->
  (forall now article_data rowid st',
      Db.save_article now article_data st = inr (rowid, st') ->
      Db.consistent st')
  /\ (forall url image, Db.consistent (Db.update_article_image st url image))
  /\ (forall url content image,
         Db.consistent (Db.update_article_content st url content image))
  /\ (forall now url rewritten,
         Db.consistent (Db.update_article_rewrite now st url rewritten))
  /\ (forall now n p errs,
         Db.consistent (Db.log_processing_run now st n p errs)).
Proof.
  intros Hc. split; [|split; [|split; [|split]]].
  - intros now d rowid st'. unfold Db.save_article.
    destruct (dict_get "url" d) as [url|]; [|discriminate].
    destruct (dict_get "title" d) as [title|]; [|discriminate].
    intros H. injection H as H.
    pose proof (DbFacts.consistent_insert now url
                  (Db.get_default "feed_name" (Some "") d) title
                  (Db.get_default "published" (Some "") d)
                  (Db.get_default "image_url" None d)
                  (py_or (Db.get_default "content" (Some "") d)
                         (Db.get_default "summary" (Some "") d)) st Hc) as Hi.
    rewrite H in Hi. exact Hi.
  - intros url image. apply DbFacts.consistent_update; auto.
  - intros url content image.
    unfold Db.update_article_content, Storage.update_article_content.
    destruct (truthy_opt image);
      apply (DbFacts.consistent_update st url); auto.
  - intros now url rewritten. apply DbFacts.consistent_update; auto.
  - intros now n p errs. exact Hc.
Qed.

Lemma one_saved_consistent : Db.consistent Samples.one_saved.
Proof.
  repeat split.
  - repeat constructor. simpl. tauto.
  - repeat constructor. simpl. tauto.
  - repeat constructor. simpl. lia.
Defined.

Lemma storage_stays_consistent_witness :
  Db.consistent
    (Db.update_article_content Samples.one_saved "https://news.test/a/1"
                               (Some "full text") (Some "https://i.test/a.jpg"))
  /\ Db.consistent
       (Db.update_article_rewrite "t2" Samples.one_saved
                                  "https://news.test/a/1" (Some "rewritten")).
Proof.
  pose proof (storage_stays_consistent Samples.one_saved one_saved_consistent)
    as (_ & _ & Hcontent & Hrewrite & _).
  split; [apply Hcontent|apply Hrewrite].
Defined.

(** X13.  [get_pending_articles] returns rows of the table with the
    status [pending] only, the latest [created_at] first and at most
    [limit] of them; with a negative limit it returns every pending row. *)
Theorem get_pending_articles_sound (st : Db.state) (limit : Z) :
  Forall (fun r => In r (Db.rows st) /\ Storage.status r = Some "pending")
         (Db.get_pending_articles st limit)
  /\ Order.descending Storage.created_at (Db.get_pending_articles st limit)
  /\ ((0 <= limit)%Z ->
      (Z.of_nat (List.length (Db.get_pending_articles st limit)) <= limit)%Z)
  /\ ((limit < 0)%Z ->
      forall r, In r (Db.rows st) -> Storage.status r = Some "pending" ->
                In r (Db.get_pending_articles st limit)).
Proof.
  unfold Db.get_pending_articles. split; [|split; [|split]].
  - apply Forall_forall. intros r Hr.
    apply DbFacts.limit_rows_in, DbFacts.order_by_desc_in, filter_In in Hr
      as [Hin Hs].
    split; [exact Hin|]. unfold Db.has_status in Hs.
    destruct (Storage.status r) as [s|]; [|discriminate].
    apply String.eqb_eq in Hs. congruence.
  - apply DbFacts.limit_rows_sorted, DbFacts.order_by_desc_sorted.
  - apply DbFacts.limit_rows_length.
  - intros Hneg r Hin Hs. unfold Db.limit_rows.
    replace (limit <? 0)%Z with true by (symmetry; apply Z.ltb_lt; exact Hneg).
    apply DbFacts.order_by_desc_in, filter_In. split; [exact Hin|].
    unfold Db.has_status. rewrite Hs. reflexivity.
Qed.

(** X14.  [update_article_rewrite] moves the article from the pending
    queue to the ready queue: its row, with the rewritten text, is among
    the ready articles, no row of that URL is pending any more, and the
    pending rows of the other URLs are the same as before. *)
Theorem update_article_rewrite_makes_ready
        (now : string) (st : Db.state) (url : string)
        (rewritten : option string) (row : Storage.article) :
  In row (Db.rows st) ->
  Storage.article_url row = url ->
  let st' := Db.update_article_rewrite now st url rewritten in
  In (Db.set_rewrite now rewritten row) (Db.get_ready_articles st' (-1))
  /\ (forall limit r, In r (Db.get_pending_articles st' limit) ->
                      Storage.article_url r <> url)
  /\ (forall r, Storage.article_url r <> url ->
                (In r (Db.get_pending_articles st' (-1))
                 <-> In r (Db.get_pending_articles st (-1)))).
Proof.
  intros Hin Hurl st'. subst st'.
  assert (Hrows : forall r,
             In r (Db.rows (Db.update_article_rewrite now st url rewritten))
             <-> exists r0, In r0 (Db.rows st)
                            /\ r = (if String.eqb (Storage.article_url r0) url
                                    then Db.set_rewrite now rewritten r0
                                    else r0)).
  { intros r. unfold Db.update_article_rewrite, Db.with_rows, Db.rows.
    cbn [Db.tables Storage.articles]. unfold Storage.update_where_url.
    rewrite in_map_iff. split; intros (r0 & H1 & H2); exists r0; auto. }
  split; [|split].
  - unfold Db.get_ready_articles, Db.limit_rows. cbn [Z.ltb Z.compare].
    apply DbFacts.order_by_desc_in, filter_In. split; [|reflexivity].
    apply Hrows. exists row. split; [exact Hin|].
    rewrite Hurl, String.eqb_refl. reflexivity.
  - intros limit r Hr Heq. unfold Db.get_pending_articles in Hr.
    apply DbFacts.limit_rows_in, DbFacts.order_by_desc_in, filter_In in Hr
      as [Hr Hs].
    apply Hrows in Hr as (r0 & _ & ->).
    destruct (String.eqb (Storage.article_url r0) url) eqn:E.
    + discriminate Hs.
    + apply String.eqb_neq in E. contradiction.
  - intros r Hne. unfold Db.get_pending_articles, Db.limit_rows.
    cbn [Z.ltb Z.compare].
    rewrite !DbFacts.order_by_desc_in, !filter_In, Hrows. split.
    + intros [(r0 & Hr0 & ->) Hs].
      destruct (String.eqb (Storage.article_url r0) url) eqn:E.
      * discriminate Hs.
      * auto.
    + intros [Hr Hs]. split; [|exact Hs]. exists r. split; [exact Hr|].
      apply String.eqb_neq in Hne. rewrite Hne. reflexivity.
Qed.

Lemma update_article_rewrite_makes_ready_witness :
  Db.get_ready_articles
    (Db.update_article_rewrite "t2" Samples.one_saved "https://news.test/a/1"
                               (Some "rewritten"))
    1
  = [Storage.mk_article 1 "https://news.test/a/1" "Marine" "One"
                        (Some "Mon") None (Some "summary one")
                        (Some "rewritten") (Some "ready") (Some "t1")
                        (Some "t2")]
  /\ Db.get_pending_articles
       (Db.update_article_rewrite "t2" Samples.one_saved
                                  "https://news.test/a/1" (Some "rewritten"))
       1 = []
  /\ In (Db.set_rewrite "t2" (Some "rewritten")
                        (hd (Storage.mk_article 0 "" "" "" None None None None
                                                None None None)
                            (Db.rows Samples.one_saved)))
        (Db.get_ready_articles
           (Db.update_article_rewrite "t2" Samples.one_saved
                                      "https://news.test/a/1"
                                      (Some "rewritten"))
           (-1)).
Proof.
  split; [reflexivity|]. split; [reflexivity|].
  apply (update_article_rewrite_makes_ready
           "t2" Samples.one_saved "https://news.test/a/1" (Some "rewritten")).
  - left. reflexivity.
  - reflexivity.
Defined.

(** ** The feed processor *)

Module FeedFacts.

(** The first feed with entries decides. *)
Lemma check_topmost_first
      (fetch_feed : Rss.feed_config -> list Rss.feed_article)
      (pre post : list Rss.feed_config) (config : Rss.feed_config)
      (topmost : Rss.feed_article) (older : list Rss.feed_article)
      (st : Db.state) :
  Forall (fun c => fetch_feed c = []) pre ->
  fetch_feed config = topmost :: older ->
  Rss.check_topmost_article fetch_feed (pre ++ config :: post) st
  = (if Db.article_exists st (Rss.fa_url topmost) then None
     else Some topmost).
Proof.
  intros Hpre Hc. induction Hpre as [|c pre Hempty _ IH]; simpl.
  - rewrite Hc. destruct (Db.article_exists st (Rss.fa_url topmost));
      reflexivity.
  - rewrite Hempty. exact IH.
Qed.

End FeedFacts.

(** X15.  [check_topmost_article] looks at the first feed that has entries
    and at no feed after it: the result is the newest entry of that feed
    if its URL is not stored yet, and [None] if it is, whatever the later
    feeds hold. *)
Theorem check_topmost_article_first_feed
        (fetch_feed : Rss.feed_config -> list Rss.feed_article)
        (pre post : list Rss.feed_config) (config : Rss.feed_config)
        (topmost : Rss.feed_article) (older : list Rss.feed_article)
        (st : Db.state) :
  Forall (fun c => fetch_feed c = []) pre ->
  fetch_feed config = topmost :: older ->
  Rss.check_topmost_article fetch_feed (pre ++ config :: post) st
  = (if Db.article_exists st (Rss.fa_url topmost) then None
     else Some topmost).
Proof. apply FeedFacts.check_topmost_first. Qed.

Lemma check_topmost_article_first_feed_witness :
  Rss.check_topmost_article Samples.feeds_now
                            [Samples.feed_a; Samples.feed_b; Samples.feed_c]
                            Samples.one_saved
  = None
  /\ Db.article_exists Samples.one_saved
                       (Rss.fa_url Samples.second_article) = false.
Proof.
  split; [|reflexivity].
  apply (check_topmost_article_first_feed
           Samples.feeds_now [Samples.feed_a] [Samples.feed_c] Samples.feed_b
           Samples.first_article [] Samples.one_saved).
  - repeat constructor.
  - reflexivity.
Defined.

Module RssFacts.

Import Rss.

Section Saving.

Variable clock : Z -> string.

(** Saving an article of a feed that is not stored appends its row. *)
Lemma save_feed_article (a : feed_article) (st : Db.state) :
  Db.article_exists st (fa_url a) = false ->
  exists row st',
    Db.save_article (clock (Db.articles_seq st)) (article_dict a) st
    = inr (Storage.id row, st')
    /\ Db.rows st' = Db.rows st ++ [row]
    /\ Storage.article_url row = fa_url a
    /\ Storage.image_url row = None
    /\ Storage.original_content row
       = py_or (Some (fa_content a)) (Some (fa_summary a))
    /\ Storage.status row = Some "pending".
Proof.
  intros He. unfold Db.save_article, article_dict.
  cbn [dict_get String.eqb Ascii.eqb Bool.eqb Db.get_default].
  unfold Db.insert_or_ignore. rewrite He.
  exists (Storage.mk_article
            (Db.next_rowid (Db.articles_seq st) (map Storage.id (Db.rows st)))
            (fa_url a) (fa_feed_name a) (fa_title a) (Some (fa_published a))
            None (py_or (Some (fa_content a)) (Some (fa_summary a))) None
            (Some "pending") (Some (clock (Db.articles_seq st))) None).
  eexists. split; [reflexivity|]. repeat split.
Qed.

Lemma exists_app (st0 st : Db.state) (added : list Storage.article)
      (url : string) :
  Db.rows st = Db.rows st0 ++ added ->
  Db.article_exists st url = false ->
  Db.article_exists st0 url = false
  /\ ~ In url (map Storage.article_url added).
Proof.
  intros Hrows He. apply DbFacts.not_exists_in in He.
  rewrite Hrows, map_app in He. split.
  - apply DbFacts.not_exists_in. intros H. apply He, in_or_app. auto.
  - intros H. apply He, in_or_app. auto.
Qed.

Lemma save_new_tracks (st0 : Db.state) (articles : list feed_article) :
  forall found st,
    tracks st0 found st ->
    exists found' st',
      save_new clock articles found st = inr (found', st')
      /\ tracks st0 found' st'.
Proof.
  induction articles as [|a rest IH]; intros found st Ht; cbn [save_new].
  - exists found, st. auto.
  - destruct (Db.article_exists st (fa_url a)) eqn:He; cbn [negb].
    + apply IH, Ht.
    + destruct (save_feed_article a st He)
        as (row & st' & Hsave & Hrows & Hurl & _).
      rewrite Hsave. apply IH.
      destruct Ht as (added & Hr & Hu & Hnd & Hnew).
      destruct (exists_app st0 st added (fa_url a) Hr He) as [H0 Hfresh].
      exists (added ++ [row]). repeat split.
      * rewrite Hrows, Hr, app_assoc. reflexivity.
      * rewrite !map_app, Hu. simpl. rewrite Hurl. reflexivity.
      * rewrite map_app. apply NoDup_app; [exact Hnd|repeat constructor; auto|].
        simpl. intros u Hin [<-|[]]. rewrite <- Hu in Hin. exact (Hfresh Hin).
      * apply Forall_app. split; [exact Hnew|]. repeat constructor. exact H0.
Qed.

Lemma collect_new_tracks (fetch_feed : feed_config -> list feed_article)
      (max_per_feed : Z) (st0 : Db.state) (feeds : list feed_config) :
  forall found st,
    tracks st0 found st ->
    exists found' st',
      collect_new fetch_feed clock feeds max_per_feed found st
      = inr (found', st')
      /\ tracks st0 found' st'.
Proof.
  induction feeds as [|c rest IH]; intros found st Ht; cbn [collect_new].
  - exists found, st. auto.
  - destruct (save_new_tracks st0 (prefix max_per_feed (fetch_feed c))
                              found st Ht) as (f1 & st1 & H1 & Ht1).
    rewrite H1. apply IH, Ht1.
Qed.

End Saving.

End RssFacts.

(** X16.  [get_new_articles] does not raise; the articles it returns were
    not stored before the call and are stored after it, no URL is returned
    twice, and the table grows by exactly one row for each of them, in
    order. *)
Theorem get_new_articles_new_and_distinct
        (fetch_feed : Rss.feed_config -> list Rss.feed_article)
        (clock : Z -> string) (feeds : list Rss.feed_config)
        (st : Db.state) (max_per_feed : Z) :
  exists (found : list Rss.feed_article) (st' : Db.state)
         (added : list Storage.article),
    Rss.get_new_articles fetch_feed clock feeds st max_per_feed
    = inr (found, st')
    /\ Db.rows st' = Db.rows st ++ added
    /\ map Storage.article_url added = map Rss.fa_url found
    /\ NoDup (map Rss.fa_url found)
    /\ Forall (fun a => Db.article_exists st (Rss.fa_url a) = false
                        /\ Db.article_exists st' (Rss.fa_url a) = true)
              found.
Proof.
  destruct (RssFacts.collect_new_tracks clock fetch_feed max_per_feed st
                                        feeds [] st)
    as (found & st' & Hrun & added & Hrows & Hurls & Hnd & Hnew).
  { exists []. repeat split; [symmetry; apply app_nil_r|constructor|constructor]. }
  exists found, st', added. repeat split; auto.
  apply Forall_forall. intros a Ha. rewrite Forall_forall in Hnew.
  split; [apply Hnew, Ha|].
  apply DbFacts.exists_in. rewrite Hrows, map_app, Hurls.
  apply in_or_app. right. apply in_map, Ha.
Qed.

(** ** The workflow *)

Module WorkflowFacts.

Import Storage.

(** Writing to a row the content it holds already changes nothing. *)
Lemma update_same_content (url : string) (content : option string)
      (rs : list article) :
  Forall (fun r => article_url r = url -> original_content r = content) rs ->
  update_where_url url (set_original_content content) rs = rs.
Proof.
  induction 1 as [|r rs Hr _ IH]; [reflexivity|].
  unfold update_where_url in *. cbn [map]. rewrite IH. f_equal.
  destruct (String.eqb (article_url r) url) eqn:E; [|reflexivity].
  apply String.eqb_eq in E. specialize (Hr E).
  destruct r. unfold set_original_content. simpl in *. congruence.
Qed.

Lemma py_or_left (a b : option string) :
  truthy_opt a = true -> py_or a b = a.
Proof. unfold py_or. intros ->. reflexivity. Qed.

Lemma py_or_right (a b : option string) :
  truthy_opt a = false -> py_or a b = b.
Proof. unfold py_or. intros ->. reflexivity. Qed.

End WorkflowFacts.

(** X17.  When a new article has been saved and the fetch of its page
    fails, step 2 of the workflow leaves the database exactly as
    [save_article] left it: the row holds the feed's content (or summary)
    and no image, although the feed supplied one. *)
Theorem failed_fetch_leaves_saved_row
        (urljoin : string -> string -> exc + string)
        (fetch : string -> exc + soup) (now : string)
        (article : Rss.feed_article) (st st1 : Db.state) (rowid : Z)
        (e : exc) :
  Db.article_exists st (Rss.fa_url article) = false ->
  fetch (Rss.fa_url article) = inl e ->
  Db.save_article now (Rss.article_dict article) st = inr (rowid, st1) ->
  scrape_step urljoin fetch article st1 = (st1, None)
  /\ exists row : Storage.article,
      Db.rows st1 = Db.rows st ++ [row]
      /\ Storage.article_url row = Rss.fa_url article
      /\ Storage.image_url row = None
      /\ Storage.original_content row
         = py_or (Some (Rss.fa_content article))
                 (Some (Rss.fa_summary article)).
Proof.
  intros He Hfetch Hsave.
  destruct (RssFacts.save_feed_article (fun _ => now) article st He)
    as (row & st' & Hsave' & Hrows & Hurl & Himg & Hcontent & _).
  cbn beta in Hsave'. rewrite Hsave in Hsave'. injection Hsave' as _ <-.
  split.
  - unfold scrape_step.
    rewrite (scrape_article_fetch_fails urljoin fetch _ _ e Hfetch).
    cbn [Db.get_default dict_get dict_set String.eqb Ascii.eqb Bool.eqb
         truthy_opt].
    unfold Db.update_article_content, Storage.update_article_content.
    cbn [truthy_opt].
    rewrite WorkflowFacts.update_same_content.
    + destruct st1 as [[rs lg] s1 s2]. reflexivity.
    + fold (Db.rows st1). rewrite Hrows. apply Forall_app. split.
      * apply Forall_forall. intros r Hr Hu. exfalso.
        apply DbFacts.not_exists_in in He. apply He.
        rewrite <- Hu. apply in_map, Hr.
      * repeat constructor. intros _. exact Hcontent.
  - exists row. auto.
Qed.

Lemma failed_fetch_leaves_saved_row_witness :
  scrape_step PyUrl.urljoin (fun _ => inl RequestException)
              Samples.first_article Samples.one_saved
  = (Samples.one_saved, None)
  /\ PyStr.truthy (Rss.fa_rss_image Samples.first_article) = true.
Proof.
  split; [|reflexivity].
  apply (failed_fetch_leaves_saved_row
           PyUrl.urljoin (fun _ => inl RequestException) "t1"
           Samples.first_article Samples.empty_db Samples.one_saved 1
           RequestException);
    reflexivity.
Defined.

(** X18.  When the page is fetched, the resolver finds no image and the
    feed supplies one, step 2 of the workflow writes the feed's image and
    the content (the extracted text, or else the feed's content or summary)
    to the rows of the article's URL, and nothing else. *)
Theorem scrape_step_stores_feed_image
        (urljoin : string -> string -> exc + string)
        (fetch : string -> exc + soup)
        (article : Rss.feed_article) (st : Db.state) (page : soup) :
  fetch (Rss.fa_url article) = inr page ->
  _extract_image urljoin (decompose_unwanted page) (Rss.fa_url article)
  = inr None ->
  PyStr.truthy (Rss.fa_rss_image article) = true ->
  let content :=
    py_or (_extract_content (decompose_unwanted page))
          (py_or (Some (Rss.fa_content article))
                 (Some (Rss.fa_summary article))) in
  scrape_step urljoin fetch article st
  = (Db.with_rows
       st
       (Storage.update_where_url
          (Rss.fa_url article)
          (Storage.set_content_and_image content
                                         (Some (Rss.fa_rss_image article)))
          (Db.rows st)),
     None).
Proof.
  intros Hfetch Himg Hrss content. subst content. unfold scrape_step.
  rewrite (scrape_article_image_returns urljoin fetch _ _ page None
                                        Hfetch Himg).
  unfold Notions.final_image. cbn [truthy_opt]. rewrite Hrss.
  cbn [Db.get_default dict_get String.eqb Ascii.eqb Bool.eqb].
  destruct (truthy_opt (_extract_content (decompose_unwanted page))) eqn:Hc.
  - rewrite (WorkflowFacts.py_or_left _ _ Hc).
    cbn [Db.get_default dict_get dict_set String.eqb Ascii.eqb Bool.eqb].
    unfold Db.update_article_content, Storage.update_article_content.
    cbn [truthy_opt]. rewrite Hrss. reflexivity.
  - rewrite (WorkflowFacts.py_or_right _ _ Hc).
    cbn [Db.get_default dict_get dict_set String.eqb Ascii.eqb Bool.eqb].
    unfold Db.update_article_content, Storage.update_article_content.
    cbn [truthy_opt]. rewrite Hrss. reflexivity.
Qed.

Lemma scrape_step_stores_feed_image_witness :
  scrape_step PyUrl.urljoin (fun _ => inr Notions.logo_page)
              Samples.first_article Samples.one_saved
  = (Db.mk_state
       (Storage.mk_database
          [Storage.mk_article 1 "https://news.test/a/1" "Marine" "One"
                              (Some "Mon")
                              (Some "https://cdn.test/thumb/x.jpg")
                              (Some "summary one") None
                              (Some "pending") (Some "t1") None]
          [])
       1 0,
     None).
Proof.
  apply (scrape_step_stores_feed_image
           PyUrl.urljoin (fun _ => inr Notions.logo_page)
           Samples.first_article Samples.one_saved Notions.logo_page);
    reflexivity.
Defined.

(** ** The whole run *)

Module RunFacts.

Import Storage.

Lemma sql_leb_refl (a : option string) : Db.sql_leb a a = true.
Proof. destruct (DbFacts.sql_leb_total a a); assumption. Qed.

(** A row whose key is strictly above the keys of all the others comes
    first. *)
Lemma order_by_desc_newest (key : article -> option string)
      (l : list article) (x : article) :
  In x l ->
  (forall y, In y l -> y = x \/ Db.sql_leb (key x) (key y) = false) ->
  exists rest, Db.order_by_desc key l = x :: rest.
Proof.
  induction l as [|a l IH]; [intros []|].
  intros Hin Hmax. cbn [Db.order_by_desc fold_right].
  fold (Db.order_by_desc key l).
  assert (Hl : forall y, In y l -> y = x \/ Db.sql_leb (key x) (key y) = false)
    by (intros y Hy; apply Hmax; right; exact Hy).
  destruct (Hmax a (or_introl eq_refl)) as [->|Hlow].
  - destruct (Db.order_by_desc key l) as [|h rest] eqn:E;
      [exists []; reflexivity|].
    assert (In h l) as Hh
        by (apply (DbFacts.order_by_desc_in key); rewrite E; left; reflexivity).
    cbn [Db.insert_desc].
    replace (Db.sql_leb (key h) (key x)) with true; [eexists; reflexivity|].
    symmetry. destruct (Hl h Hh) as [->|Hlt]; [apply sql_leb_refl|].
    destruct (DbFacts.sql_leb_total (key h) (key x)); congruence.
  - destruct Hin as [->|Hin].
    + rewrite sql_leb_refl in Hlow. discriminate.
    + destruct (IH Hin Hl) as (rest & ->). cbn [Db.insert_desc].
      rewrite Hlow. cbn [negb]. eexists. reflexivity.
Qed.

Lemma limit_one (x : article) (rest : list article) :
  Db.limit_rows 1 (x :: rest) = [x].
Proof. reflexivity. Qed.

(** An update by URL reaches the last row only, when no row before it has
    the URL. *)
Lemma update_last (url : string) (f : article -> article)
      (rs : list article) (row : article) :
  ~ In url (map article_url rs) ->
  article_url row = url ->
  update_where_url url f (rs ++ [row]) = rs ++ [f row].
Proof.
  intros Hnot Hrow. unfold update_where_url. rewrite map_app. f_equal.
  - rewrite <- (map_id rs) at 2. apply map_ext_in. intros r Hr.
    destruct (String.eqb (article_url r) url) eqn:E; [|reflexivity].
    apply String.eqb_eq in E. exfalso. apply Hnot. rewrite <- E.
    apply in_map, Hr.
  - cbn [map]. rewrite Hrow, String.eqb_refl. reflexivity.
Qed.

Section Steps.

Variable urljoin : string -> string -> exc + string.
Variable fetch : string -> exc + soup.

(** [scrape_article] returns in every case. *)
Lemma scrape_article_returns (article_url : string)
      (rss_image : option string) :
  exists content image,
    scrape_article urljoin fetch article_url rss_image
    = inr [("content", content); ("image_url", image)].
Proof.
  destruct (fetch article_url) as [e|page] eqn:Hfetch.
  - eexists. eexists.
    apply (scrape_article_fetch_fails urljoin fetch _ _ e Hfetch).
  - destruct (_extract_image urljoin (decompose_unwanted page) article_url)
      as [e|found] eqn:Himg.
    + eexists. eexists.
      apply (scrape_article_image_raises urljoin fetch _ _ page e
                                         Hfetch Himg).
    + eexists. eexists.
      apply (scrape_article_image_returns urljoin fetch _ _ page found
                                          Hfetch Himg).
Qed.

(** Step 2 adds no error and writes content, and perhaps an image, to the
    rows of the article's URL. *)
Lemma scrape_step_updates (article : Rss.feed_article) (st : Db.state) :
  exists content image,
    scrape_step urljoin fetch article st
    = (Db.update_article_content st (Rss.fa_url article) content image,
       None).
Proof.
  unfold scrape_step.
  destruct (scrape_article_returns (Rss.fa_url article)
                                   (Some (Rss.fa_rss_image article)))
    as (content & image & ->).
  eexists. eexists. reflexivity.
Qed.

End Steps.

(** What an update of the content keeps of a row. *)
Lemma content_update_row (url : string) (content image : option string)
      (st : Db.state) :
  exists f : article -> article,
    Db.rows (Db.update_article_content st url content image)
    = update_where_url url f (Db.rows st)
    /\ forall r, article_url (f r) = article_url r
                 /\ status (f r) = status r.
Proof.
  unfold Db.update_article_content, Storage.update_article_content, Db.rows.
  cbn [Db.tables].
  destruct (truthy_opt image); eexists; split; try reflexivity;
    intros r; repeat split.
Qed.

Lemma filter_none_pending (rs : list article) :
  Forall (fun r => Db.has_status "pending" r = false) rs ->
  filter (Db.has_status "pending") rs = [].
Proof.
  induction 1 as [|r rs Hr _ IH]; [reflexivity|].
  cbn [filter]. rewrite Hr. exact IH.
Qed.

(** The row [save_article] appends for an article of a feed. *)
Lemma saved_row (clock : Z -> string) (a : Rss.feed_article)
      (st : Db.state) :
  Db.article_exists st (Rss.fa_url a) = false ->
  exists row st',
    Db.save_article (clock (Db.articles_seq st)) (Rss.article_dict a) st
    = inr (id row, st')
    /\ Db.rows st' = Db.rows st ++ [row]
    /\ article_url row = Rss.fa_url a
    /\ title row = Rss.fa_title a
    /\ rewritten_content row = None
    /\ status row = Some "pending".
Proof.
  intros He. unfold Db.save_article, Rss.article_dict.
  cbn [dict_get String.eqb Ascii.eqb Bool.eqb Db.get_default].
  unfold Db.insert_or_ignore. rewrite He.
  eexists (mk_article _ _ _ _ _ _ _ _ _ _ _).
  eexists. split; [reflexivity|]. repeat split.
Qed.

(** What an update of the content keeps of a row. *)
Lemma content_update_keeps (url : string) (content image : option string)
      (st : Db.state) :
  exists f : article -> article,
    Db.rows (Db.update_article_content st url content image)
    = update_where_url url f (Db.rows st)
    /\ forall r, article_url (f r) = article_url r
                 /\ title (f r) = title r
                 /\ rewritten_content (f r) = rewritten_content r
                 /\ status (f r) = status r.
Proof.
  unfold Db.update_article_content, Storage.update_article_content, Db.rows.
  cbn [Db.tables].
  destruct (truthy_opt image); eexists; split; try reflexivity;
    intros r; repeat split.
Qed.

End RunFacts.

Section RunTheorems.

Variable urljoin : string -> string -> exc + string.
Variable fetch : string -> exc + soup.
Variable fetch_feed : Rss.feed_config -> list Rss.feed_article.
Variable webhook_url : string.
Variable include_original : bool.
Variable post : string -> list Output.item -> exc + unit.
Variable rewrite_article : Storage.article -> exc + option string.
Variable clock : Z -> string.
Variable rewrite_time : string.
Variable log_time : string.
Variable describe : exc -> string.

#[local] Abbreviation run :=
  (run_workflow urljoin fetch fetch_feed webhook_url include_original post
                rewrite_article clock rewrite_time log_time describe).
#[local] Abbreviation rewriting :=
  (rewrite_step rewrite_article rewrite_time describe).
#[local] Abbreviation output := (output_step webhook_url include_original post).
#[local] Abbreviation logging := (log_run log_time).

Lemma save_keeps_log (now : string) (d : dict) (st st' : Db.state) (k : Z) :
  Db.save_article now d st = inr (k, st') -> Db.log_rows st' = Db.log_rows st.
Proof.
  unfold Db.save_article.
  destruct (dict_get "url" d) as [u|]; [|discriminate].
  destruct (dict_get "title" d) as [t|]; [|discriminate].
  unfold Db.insert_or_ignore.
  destruct u as [u|], (Db.get_default "feed_name" (Some "") d) as [f|],
    t as [t|]; try destruct (Db.article_exists st u);
    intros H; injection H as _ <-; reflexivity.
Qed.

Lemma scrape_keeps_log (article : Rss.feed_article) (st : Db.state) :
  Db.log_rows (fst (scrape_step urljoin fetch article st)) = Db.log_rows st.
Proof.
  destruct (RunFacts.scrape_step_updates urljoin fetch article st)
    as (content & image & ->).
  unfold Db.update_article_content, Storage.update_article_content, Db.log_rows.
  cbn [fst Db.tables]. destruct (truthy_opt image); reflexivity.
Qed.

Lemma rewriting_keeps_log (p : progress) :
  Db.log_rows (db (rewriting p)) = Db.log_rows (db p).
Proof.
  unfold rewrite_step.
  destruct (Db.get_pending_articles (db p) 1) as [|a rest]; [reflexivity|].
  destruct (rewrite_article a) as [e|[text|]]; try reflexivity.
  destruct (truthy_opt (Some text)); reflexivity.
Qed.

Lemma output_keeps_db (p : progress) : db (fst (output p)) = db p.
Proof.
  unfold output_step.
  destruct (Db.get_ready_articles (db p) 1) as [|a rest]; [reflexivity|].
  destruct (Output.send_to_webhook webhook_url include_original post
                                   (a :: rest)) as [done [e|success]];
    reflexivity.
Qed.

Lemma logging_appends (p : progress) :
  exists entry : Storage.log_entry,
    Db.log_rows (db (logging p)) = Db.log_rows (db p) ++ [entry]
    /\ Storage.run_timestamp entry = Some log_time
    /\ Storage.new_articles entry = Some (new_count p)
    /\ Storage.processed_articles entry = Some (processed_count p)
    /\ Db.rows (db (logging p)) = Db.rows (db p).
Proof.
  unfold log_run, Db.log_processing_run, Db.log_rows. cbn [db Db.tables].
  eexists. split; [reflexivity|]. repeat split.
Qed.

(** X19.  Every run of the workflow appends exactly one entry to
    [processing_log], stamped with the time of the entry and holding the
    run's two counts; the entries before it are untouched. *)
Theorem run_workflow_logs_once (feeds : list Rss.feed_config)
        (st : Db.state) :
  exists entry : Storage.log_entry,
    Storage.processing_log (Db.tables (db (run feeds st)))
    = Storage.processing_log (Db.tables st) ++ [entry]
    /\ Storage.run_timestamp entry = Some log_time
    /\ Storage.new_articles entry = Some (new_count (run feeds st))
    /\ Storage.processed_articles entry
       = Some (processed_count (run feeds st)).
Proof.
  change (exists entry,
             Db.log_rows (db (run feeds st)) = Db.log_rows st ++ [entry]
             /\ Storage.run_timestamp entry = Some log_time
             /\ Storage.new_articles entry = Some (new_count (run feeds st))
             /\ Storage.processed_articles entry
                = Some (processed_count (run feeds st))).
  unfold run_workflow.
  destruct (Rss.check_topmost_article fetch_feed feeds st) as [article|].
  2: { cbn [db new_count processed_count].
       unfold Db.log_processing_run, Db.log_rows. cbn [Db.tables].
       eexists. split; [reflexivity|]. repeat split. }
  destruct (Db.save_article (clock (Db.articles_seq st))
                            (Rss.article_dict article) st)
    as [e|[k st1]] eqn:Hsave.
  - match goal with
    | |- context [logging ?p] =>
        destruct (logging_appends p) as (entry & H1 & H2 & H3 & H4 & _)
    end.
    exists entry. repeat split; assumption.
  - pose proof (save_keeps_log _ _ _ _ _ Hsave) as Hlog1.
    pose proof (scrape_keeps_log article st1) as Hlog2.
    destruct (scrape_step urljoin fetch article st1) as [st2 err].
    cbn [fst] in Hlog2.
    match goal with
    | |- context [output ?p3] =>
        pose proof (output_keeps_db p3) as Hdb;
          pose proof (rewriting_keeps_log
                        (mk_progress st2 []
                           match err with
                           | Some e => [("Scraping error: " ++ describe e)%string]
                           | None => []
                           end 1 0)) as Hlog3;
          destruct (output p3) as [p4 [e|]]
    end; cbn [fst db] in Hdb, Hlog3.
    + match goal with
      | |- context [logging ?p] =>
          destruct (logging_appends p) as (entry & H1 & H2 & H3 & H4 & _)
      end.
      exists entry. cbn [db] in H1. rewrite H1, Hdb, Hlog3, Hlog2, Hlog1.
      repeat split; assumption.
    + destruct (logging_appends p4) as (entry & H1 & H2 & H3 & H4 & _).
      exists entry. rewrite H1, Hdb, Hlog3, Hlog2, Hlog1.
      repeat split; assumption.
Qed.

(** X20.  When the newest entry of the first feed that has entries is
    stored already, the run does nothing but write the log entry (0, 0,
    no errors): no row of [articles] changes, so an article left pending
    by an earlier run is not taken up again, and nothing is posted or
    saved. *)
Theorem run_workflow_nothing_new
        (pre later : list Rss.feed_config) (config : Rss.feed_config)
        (topmost : Rss.feed_article) (older : list Rss.feed_article)
        (st : Db.state) :
  Forall (fun c => fetch_feed c = []) pre ->
  fetch_feed config = topmost :: older ->
  Db.article_exists st (Rss.fa_url topmost) = true ->
  run (pre ++ config :: later) st
  = mk_progress (Db.log_processing_run log_time st 0 0 None) [] [] 0 0
  /\ Db.rows (db (run (pre ++ config :: later) st)) = Db.rows st.
Proof.
  intros Hpre Hc He.
  assert (run (pre ++ config :: later) st
          = mk_progress (Db.log_processing_run log_time st 0 0 None)
                        [] [] 0 0) as ->.
  { unfold run_workflow.
    rewrite (FeedFacts.check_topmost_first fetch_feed pre later config topmost
                                          older st Hpre Hc), He.
    reflexivity. }
  split; reflexivity.
Qed.

(** X21.  Step 4 on a ready article: without a webhook URL the output is
    saved to a file once; with one and a request that succeeds it is posted
    and no file is written; with one and a request that fails with a
    [RequestException] the file is written twice, by [send_to_webhook] and
    again by the workflow. *)
Theorem output_step_delivers (p : progress) (newest : Storage.article)
        (others : list Storage.article) :
  Db.get_ready_articles (db p) 1 = newest :: others ->
  let items :=
    Output.generate_output include_original (newest :: others) in
  let after (done : list Output.event) :=
    (mk_progress (db p) (events p ++ done) (errors p) (new_count p)
                 (processed_count p), @None exc) in
  (PyStr.truthy webhook_url = false ->
   output p = after [Output.SaveFile items])
  /\ (PyStr.truthy webhook_url = true ->
      post webhook_url items = inr tt ->
      output p = after [Output.Post webhook_url items])
  /\ (PyStr.truthy webhook_url = true ->
      post webhook_url items = inl RequestException ->
      output p = after [Output.Post webhook_url items;
                        Output.SaveFile items; Output.SaveFile items]).
Proof.
  intros Hready items after. subst items after.
  unfold output_step, Output.send_to_webhook. rewrite Hready.
  split; [|split].
  - intros ->. reflexivity.
  - intros -> Hpost. cbn [negb Output.generate_output map] in Hpost |- *.
    rewrite Hpost. reflexivity.
  - intros -> Hpost. cbn [negb Output.generate_output map] in Hpost |- *.
    rewrite Hpost. reflexivity.
Qed.

(** X22.  A run that finds a new article, on a database without pending
    rows whose [processed_at] values are all before the time of the
    rewrite, with a rewriter that returns text and a webhook that accepts
    the request: the article's row is appended and ends as [ready] with
    the rewritten text, exactly one request is made and its body is that
    one row, no error is recorded and both counts are 1. *)
Theorem run_workflow_posts_new_article
        (pre later : list Rss.feed_config) (config : Rss.feed_config)
        (article : Rss.feed_article) (older : list Rss.feed_article)
        (st : Db.state) (text : string) :
  Forall (fun c => fetch_feed c = []) pre ->
  fetch_feed config = article :: older ->
  Db.article_exists st (Rss.fa_url article) = false ->
  Forall (fun r => Db.has_status "pending" r = false
                   /\ Db.sql_leb (Some rewrite_time) (Storage.processed_at r)
                      = false)
         (Db.rows st) ->
  (forall r, rewrite_article r = inr (Some text)) ->
  PyStr.truthy text = true ->
  PyStr.truthy webhook_url = true ->
  (forall items, post webhook_url items = inr tt) ->
  exists row : Storage.article,
    Storage.article_url row = Rss.fa_url article
    /\ Storage.rewritten_content row = Some text
    /\ Storage.status row = Some "ready"
    /\ Storage.processed_at row = Some rewrite_time
    /\ Db.rows (db (run (pre ++ config :: later) st))
       = Db.rows st ++ [row]
    /\ events (run (pre ++ config :: later) st)
       = [Output.Post webhook_url [Output.output_item include_original row]]
    /\ errors (run (pre ++ config :: later) st) = []
    /\ new_count (run (pre ++ config :: later) st) = 1%Z
    /\ processed_count (run (pre ++ config :: later) st) = 1%Z.
Proof.
  intros Hpre Hc He Hold Hllm Htext Hhook Hpost.
  assert (Hnot : ~ In (Rss.fa_url article)
                      (map Storage.article_url (Db.rows st)))
    by (apply DbFacts.not_exists_in, He).
  destruct (RssFacts.save_feed_article clock article st He)
    as (row0 & st1 & Hsave & Hrows1 & Hurl0 & _ & _ & Hstatus0).
  destruct (RunFacts.scrape_step_updates urljoin fetch article st1)
    as (content & image & Hscrape).
  destruct (RunFacts.content_update_row (Rss.fa_url article) content image st1)
    as (f & Hrows2 & Hf).
  set (st2 := Db.update_article_content st1 (Rss.fa_url article) content image)
    in *.
  set (row := f row0).
  assert (Hurl : Storage.article_url row = Rss.fa_url article)
    by (unfold row; rewrite (proj1 (Hf row0)); exact Hurl0).
  assert (Hstatus : Storage.status row = Some "pending")
    by (unfold row; rewrite (proj2 (Hf row0)); exact Hstatus0).
  rewrite Hrows1, (RunFacts.update_last _ f _ row0 Hnot Hurl0) in Hrows2.
  fold row in Hrows2.
  assert (Hpending : Db.get_pending_articles st2 1 = [row]).
  { unfold Db.get_pending_articles. rewrite Hrows2, filter_app.
    rewrite RunFacts.filter_none_pending
      by (eapply Forall_impl; [|exact Hold]; intros r [H _]; exact H).
    cbn [app filter]. unfold Db.has_status. rewrite Hstatus. reflexivity. }
  set (row' := Db.set_rewrite rewrite_time (Some text) row).
  set (st3 := Db.update_article_rewrite rewrite_time st2
                                        (Storage.article_url row) (Some text)).
  assert (Hrows3 : Db.rows st3 = Db.rows st ++ [row']).
  { unfold st3, Db.update_article_rewrite, Db.with_rows, Db.rows at 1.
    cbn [Db.tables Storage.articles]. rewrite Hrows2, Hurl.
    apply (RunFacts.update_last _ _ _ row Hnot Hurl). }
  assert (Hready : Db.get_ready_articles st3 1 = [row']).
  { unfold Db.get_ready_articles. rewrite Hrows3, filter_app.
    cbn [filter]. change (Db.has_status "ready" row') with true.
    destruct (RunFacts.order_by_desc_newest
                Storage.processed_at
                (filter (Db.has_status "ready") (Db.rows st) ++ [row']) row')
      as (rest & Hsorted).
    - apply in_or_app. right. left. reflexivity.
    - intros y Hy. apply in_app_or in Hy as [Hy|[<-|[]]]; [|left; reflexivity].
      right. apply filter_In in Hy as [Hy _].
      rewrite Forall_forall in Hold. exact (proj2 (Hold y Hy)).
    - rewrite Hsorted. reflexivity. }
  exists row'. repeat split; try reflexivity; try exact Hurl.
  all: unfold run_workflow;
    rewrite (FeedFacts.check_topmost_first fetch_feed pre later config
                                          article older st Hpre Hc), He,
      Hsave, Hscrape;
    unfold rewrite_step; cbn [db]; rewrite Hpending, Hllm;
    cbn [truthy_opt]; rewrite Htext; fold st3;
    unfold output_step, Output.send_to_webhook; cbn [db]; rewrite Hready, Hhook;
    cbn [negb Output.generate_output map]; rewrite Hpost;
    cbn [events errors new_count processed_count db log_run app].
  - exact Hrows3.
  - reflexivity.
  - reflexivity.
  - reflexivity.
  - reflexivity.
Qed.

(** X24.  When the rewriter returns [None] for the new article (it does
    so when no API key is configured or its request fails), the article
    stays [pending] and the error is recorded, but step 4 still runs: the
    newest article that was [ready] before the run is posted to the
    webhook once more. *)
Theorem run_workflow_failed_rewrite_reposts
        (pre later : list Rss.feed_config) (config : Rss.feed_config)
        (article : Rss.feed_article) (older : list Rss.feed_article)
        (st : Db.state) (old : Storage.article)
        (others : list Storage.article) :
  Forall (fun c => fetch_feed c = []) pre ->
  fetch_feed config = article :: older ->
  Db.article_exists st (Rss.fa_url article) = false ->
  Forall (fun r => Db.has_status "pending" r = false) (Db.rows st) ->
  Db.get_ready_articles st 1 = old :: others ->
  (forall r, rewrite_article r = inr None) ->
  PyStr.truthy webhook_url = true ->
  (forall items, post webhook_url items = inr tt) ->
  exists row : Storage.article,
    Storage.article_url row = Rss.fa_url article
    /\ Storage.status row = Some "pending"
    /\ Storage.rewritten_content row = None
    /\ Db.rows (db (run (pre ++ config :: later) st)) = Db.rows st ++ [row]
    /\ events (run (pre ++ config :: later) st)
       = [Output.Post webhook_url
                      (Output.generate_output include_original
                                              (old :: others))]
    /\ errors (run (pre ++ config :: later) st)
       = [("Failed to rewrite: " ++ Rss.fa_title article)%string]
    /\ new_count (run (pre ++ config :: later) st) = 1%Z
    /\ processed_count (run (pre ++ config :: later) st) = 0%Z.
Proof.
  intros Hpre Hc He Hold Hready Hllm Hhook Hpost.
  assert (Hnot : ~ In (Rss.fa_url article)
                      (map Storage.article_url (Db.rows st)))
    by (apply DbFacts.not_exists_in, He).
  destruct (RunFacts.saved_row clock article st He)
    as (row0 & st1 & Hsave & Hrows1 & Hurl0 & Htitle0 & Hrew0 & Hstatus0).
  destruct (RunFacts.scrape_step_updates urljoin fetch article st1)
    as (content & image & Hscrape).
  destruct (RunFacts.content_update_keeps (Rss.fa_url article) content
                                             image st1)
    as (f & Hrows2 & Hf).
  set (st2 := Db.update_article_content st1 (Rss.fa_url article) content image)
    in *.
  set (row := f row0).
  destruct (Hf row0) as (Hfu & Hft & Hfr & Hfs). fold row in Hfu, Hft, Hfr, Hfs.
  rewrite Hurl0 in Hfu. rewrite Htitle0 in Hft. rewrite Hrew0 in Hfr.
  rewrite Hstatus0 in Hfs.
  rewrite Hrows1, (RunFacts.update_last _ f _ row0 Hnot Hurl0) in Hrows2.
  fold row in Hrows2.
  assert (Hpending : Db.get_pending_articles st2 1 = [row]).
  { unfold Db.get_pending_articles. rewrite Hrows2, filter_app.
    rewrite (RunFacts.filter_none_pending _ Hold).
    cbn [app filter]. unfold Db.has_status. rewrite Hfs. reflexivity. }
  assert (Hready2 : Db.get_ready_articles st2 1 = old :: others).
  { unfold Db.get_ready_articles in *. rewrite Hrows2, filter_app.
    cbn [filter]. unfold Db.has_status at 2. rewrite Hfs.
    cbn [String.eqb Ascii.eqb Bool.eqb]. rewrite app_nil_r. exact Hready. }
  exists row. repeat split; try assumption.
  all: unfold run_workflow;
    rewrite (FeedFacts.check_topmost_first fetch_feed pre later config
                                          article older st Hpre Hc), He,
      Hsave, Hscrape;
    unfold rewrite_step; cbn [db]; rewrite Hpending, Hllm;
    cbn [truthy_opt db];
    unfold output_step, Output.send_to_webhook; cbn [db]; rewrite Hready2, Hhook;
    cbn [negb Output.generate_output map]; rewrite Hpost;
    cbn [events errors new_count processed_count db log_run app].
  - exact Hrows2.
  - reflexivity.
  - rewrite Hft. reflexivity.
  - reflexivity.
  - reflexivity.
Qed.

End RunTheorems.

Lemma run_workflow_nothing_new_witness :
  Db.rows
    (db (run_workflow PyUrl.urljoin (fun _ => inl RequestException)
                      Samples.feeds_now Samples.hook false
                      (fun _ _ => inr tt)
                      (fun _ => inr (Some "Rewritten")) (fun _ => "t1")
                      "t2" "t3" (fun _ => "error")
                      [Samples.feed_a; Samples.feed_b; Samples.feed_c]
                      Samples.one_saved))
  = Db.rows Samples.one_saved
  /\ Db.get_pending_articles Samples.one_saved 1
     = Db.rows Samples.one_saved.
Proof.
  split; [|reflexivity].
  apply (run_workflow_nothing_new
           PyUrl.urljoin (fun _ => inl RequestException)
           Samples.feeds_now Samples.hook false (fun _ _ => inr tt)
           (fun _ => inr (Some "Rewritten")) (fun _ => "t1")
           "t2" "t3" (fun _ => "error")
           [Samples.feed_a] [Samples.feed_c] Samples.feed_b
           Samples.first_article [] Samples.one_saved).
  - repeat constructor.
  - reflexivity.
  - reflexivity.
Defined.

Lemma output_step_delivers_witness :
  output_step Samples.hook false (fun _ _ => inl RequestException)
              (mk_progress Samples.one_ready [] [] 1 1)
  = (mk_progress
       Samples.one_ready
       [Output.Post Samples.hook
                    (Output.generate_output false [Samples.ready_row]);
        Output.SaveFile (Output.generate_output false [Samples.ready_row]);
        Output.SaveFile (Output.generate_output false [Samples.ready_row])]
       [] 1 1,
     None).
Proof.
  apply (proj2 (proj2 (output_step_delivers
                         Samples.hook false (fun _ _ => inl RequestException)
                         (mk_progress Samples.one_ready [] [] 1 1)
                         Samples.ready_row [] eq_refl)));
    reflexivity.
Defined.

Lemma run_workflow_posts_new_article_witness :
  exists row : Storage.article,
    Storage.article_url row = "https://news.test/a/1"
    /\ Storage.rewritten_content row = Some "Rewritten"
    /\ Storage.status row = Some "ready"
    /\ Storage.processed_at row = Some "t2"
    /\ Db.rows
         (db (run_workflow PyUrl.urljoin (fun _ => inl RequestException)
                           Samples.feeds_now Samples.hook false
                           (fun _ _ => inr tt)
                           (fun _ => inr (Some "Rewritten")) (fun _ => "t1")
                           "t2" "t3" (fun _ => "error")
                           [Samples.feed_a; Samples.feed_b; Samples.feed_c]
                           Samples.empty_db))
       = Db.rows Samples.empty_db ++ [row]
    /\ events
         (run_workflow PyUrl.urljoin (fun _ => inl RequestException)
                       Samples.feeds_now Samples.hook false
                       (fun _ _ => inr tt)
                       (fun _ => inr (Some "Rewritten")) (fun _ => "t1")
                       "t2" "t3" (fun _ => "error")
                       [Samples.feed_a; Samples.feed_b; Samples.feed_c]
                       Samples.empty_db)
       = [Output.Post Samples.hook [Output.output_item false row]]
    /\ errors
         (run_workflow PyUrl.urljoin (fun _ => inl RequestException)
                       Samples.feeds_now Samples.hook false
                       (fun _ _ => inr tt)
                       (fun _ => inr (Some "Rewritten")) (fun _ => "t1")
                       "t2" "t3" (fun _ => "error")
                       [Samples.feed_a; Samples.feed_b; Samples.feed_c]
                       Samples.empty_db)
       = []
    /\ new_count
         (run_workflow PyUrl.urljoin (fun _ => inl RequestException)
                       Samples.feeds_now Samples.hook false
                       (fun _ _ => inr tt)
                       (fun _ => inr (Some "Rewritten")) (fun _ => "t1")
                       "t2" "t3" (fun _ => "error")
                       [Samples.feed_a; Samples.feed_b; Samples.feed_c]
                       Samples.empty_db)
       = 1%Z
    /\ processed_count
         (run_workflow PyUrl.urljoin (fun _ => inl RequestException)
                       Samples.feeds_now Samples.hook false
                       (fun _ _ => inr tt)
                       (fun _ => inr (Some "Rewritten")) (fun _ => "t1")
                       "t2" "t3" (fun _ => "error")
                       [Samples.feed_a; Samples.feed_b; Samples.feed_c]
                       Samples.empty_db)
       = 1%Z.
Proof.
  apply (run_workflow_posts_new_article
           PyUrl.urljoin (fun _ => inl RequestException)
           Samples.feeds_now Samples.hook false (fun _ _ => inr tt)
           (fun _ => inr (Some "Rewritten")) (fun _ => "t1")
           "t2" "t3" (fun _ => "error")
           [Samples.feed_a] [Samples.feed_c] Samples.feed_b
           Samples.first_article [] Samples.empty_db "Rewritten").
  - repeat constructor.
  - reflexivity.
  - reflexivity.
  - constructor.
  - reflexivity.
  - reflexivity.
  - reflexivity.
  - reflexivity.
Defined.

Lemma run_workflow_failed_rewrite_reposts_witness :
  exists row : Storage.article,
    Storage.article_url row = "https://news.test/a/2"
    /\ Storage.status row = Some "pending"
    /\ Storage.rewritten_content row = None
    /\ Db.rows
         (db (run_workflow PyUrl.urljoin (fun _ => inl RequestException)
                           Samples.feeds_now Samples.hook false
                           (fun _ _ => inr tt) (fun _ => inr None)
                           (fun _ => "t3") "t4" "t5" (fun _ => "error")
                           [Samples.feed_a; Samples.feed_c]
                           Samples.one_ready))
       = Db.rows Samples.one_ready ++ [row]
    /\ events
         (run_workflow PyUrl.urljoin (fun _ => inl RequestException)
                       Samples.feeds_now Samples.hook false
                       (fun _ _ => inr tt) (fun _ => inr None)
                       (fun _ => "t3") "t4" "t5" (fun _ => "error")
                       [Samples.feed_a; Samples.feed_c]
                       Samples.one_ready)
       = [Output.Post Samples.hook
                      (Output.generate_output false [Samples.ready_row])]
    /\ errors
         (run_workflow PyUrl.urljoin (fun _ => inl RequestException)
                       Samples.feeds_now Samples.hook false
                       (fun _ _ => inr tt) (fun _ => inr None)
                       (fun _ => "t3") "t4" "t5" (fun _ => "error")
                       [Samples.feed_a; Samples.feed_c]
                       Samples.one_ready)
       = ["Failed to rewrite: Two"]
    /\ new_count
         (run_workflow PyUrl.urljoin (fun _ => inl RequestException)
                       Samples.feeds_now Samples.hook false
                       (fun _ _ => inr tt) (fun _ => inr None)
                       (fun _ => "t3") "t4" "t5" (fun _ => "error")
                       [Samples.feed_a; Samples.feed_c]
                       Samples.one_ready)
       = 1%Z
    /\ processed_count
         (run_workflow PyUrl.urljoin (fun _ => inl RequestException)
                       Samples.feeds_now Samples.hook false
                       (fun _ _ => inr tt) (fun _ => inr None)
                       (fun _ => "t3") "t4" "t5" (fun _ => "error")
                       [Samples.feed_a; Samples.feed_c]
                       Samples.one_ready)
       = 0%Z.
Proof.
  apply (run_workflow_failed_rewrite_reposts
           PyUrl.urljoin (fun _ => inl RequestException)
           Samples.feeds_now Samples.hook false (fun _ _ => inr tt)
           (fun _ => inr None) (fun _ => "t3") "t4" "t5" (fun _ => "error")
           [Samples.feed_a] [] Samples.feed_c
           Samples.second_article [] Samples.one_ready
           Samples.ready_row []).
  - repeat constructor.
  - reflexivity.
  - reflexivity.
  - repeat constructor.
  - reflexivity.
  - reflexivity.
  - reflexivity.
  - reflexivity.
Defined.
